(** * Papua natural capital: carbon accounting and LULC preprocessing

    A shallow embedding of the arithmetic and raster-editing core of
    [src/models/carbon.py] and [src/data/preprocess.py].

    - Python floats and numpy float64 values are IEEE binary64 numbers: Rocq's
      primitive [float], with the same rounding after every operation.
    - Functions that log, raise or write files run in the monad [Py.M]: a
      state (the log records emitted so far and the rasters written so far)
      threaded through a computation that ends in a value or in an exception.
    - The file system, rasterio, pandas and InVEST are outside the
      repository: what they answer is taken from a [World] of oracles, and
      the summation order of numpy from a parameter [np_sum].
    - Carbon rasters are read as float64 bands and class rasters as bands
      of integers of the raster's dtype: a Python int that the dtype
      cannot hold is refused when it is assigned, as numpy refuses it.
    - A file opened for writing is there, empty, before anything is written
      to it: the state keeps the rasters whose writing finished apart from
      the paths whose writing did not. *)

From Stdlib Require Import Floats ZArith List String Ascii Bool Permutation Sorted Lia.
From Stdlib Require Uint63 DecimalString.
Import ListNotations.

Set Warnings "-inexact-float".

(* ================================================================== *)
(** ** Python runtime: exceptions, logging, the computation monad *)

Module Py.

(** The exception classes the modules raise themselves, and one
    constructor for whatever class a library call raises. *)
Inductive exn : Type :=
| FileNotFoundError (msg : string)
| ValueError (msg : string)
| ZeroDivisionError (msg : string)
| LibraryError (cls msg : string).

Inductive level : Type := INFO | WARNING | ERROR.

(** The pieces of an f-string, kept apart: literal text, a float printed
    by default ([{x}]) or with [:.2f], an integer, a list, an exception. *)
Inductive fragment : Type :=
| Text (s : string)
| Num (x : float)
| Fixed2 (x : float)
| Int (z : Z)
| IntList (l : list Z)
| Exc (e : exn).

Record log_record : Type := { lvl : level; message : list fragment }.

Record metadata : Type := {
  driver : string;
  dtype : string;
  nodata : option Z;
  width : nat;
  height : nat;
  count : nat;
  crs : string;
  transform : list float;
  compress : option string
}.

(** A raster as [rasterio.open(path, "w", **meta)] followed by
    [dest.write(data, 1)] leaves it. *)
Record written_raster : Type := {
  w_path : string;
  w_meta : metadata;
  w_band1 : list (list Z)
}.

(** The state of a run: the log records emitted, the rasters whose
    writing finished, in order, and the paths that an open for writing has
    made (or emptied) and whose writing has not finished. *)
Record state : Type := {
  log : list log_record;
  written : list written_raster;
  unfinished : list string
}.

Definition result (A : Type) : Type := (exn + A)%type.

Definition M (A : Type) : Type := state -> result A * state.

Definition ret {A} (a : A) : M A := fun s => (inr a, s).

Definition bind {A B} (m : M A) (k : A -> M B) : M B :=
  fun s =>
    match m s with
    | (inr a, s') => k a s'
    | (inl e, s') => (inl e, s')
    end.

Definition raise {A} (e : exn) : M A := fun s => (inl e, s).

(** [try: body except Exception as e: handler e] *)
Definition try_except {A} (body : M A) (handler : exn -> M A) : M A :=
  fun s =>
    match body s with
    | (inr a, s') => (inr a, s')
    | (inl e, s') => handler e s'
    end.

(** A library call whose outcome the world decides. *)
Definition lift {A} (r : result A) : M A := fun s => (r, s).

Definition emit (l : level) (msg : list fragment) : M unit :=
  fun s => (inr tt, {| log := log s ++ [{| lvl := l; message := msg |}];
                       written := written s;
                       unfinished := unfinished s |}).

Definition logger_info := emit INFO.
Definition logger_warning := emit WARNING.
Definition logger_error := emit ERROR.

(** [rasterio.open(p, "w", ...)] has gone through: the file at [p] is
    there and holds no raster yet, whatever it held before. *)
Definition create_raster (p : string) : M unit :=
  fun s => (inr tt, {| log := log s;
                       written := written s;
                       unfinished := p :: unfinished s |}).

(** The band is written and the file closed: the raster at [p] is whole. *)
Definition write_raster (p : string) (m : metadata) (d : list (list Z)) : M unit :=
  fun s => (inr tt, {| log := log s;
                       written := written s ++ [{| w_path := p; w_meta := m; w_band1 := d |}];
                       unfinished := filter (fun q => negb (String.eqb q p)) (unfinished s) |}).

(** What a run has left at the path [p]: a file whose writing did not
    finish, the raster last written there, or nothing of its own. *)
Inductive left_at : Type :=
| Unfinished
| Whole (r : written_raster)
| Untouched.

Definition raster_at (s : state) (p : string) : left_at :=
  if existsb (String.eqb p) (unfinished s) then Unfinished
  else match find (fun r => String.eqb (w_path r) p) (rev (written s)) with
       | Some r => Whole r
       | None => Untouched
       end.

(** What [format(v, ".2f")] is given: a float, or a string default. *)
Inductive pyval : Type :=
| PFloat (x : float)
| PStr (s : string).

(** [f"{v:.2f}"]: a [str] has no format code [f]. *)
Definition format_2f (v : pyval) : M fragment :=
  match v with
  | PFloat x => ret (Fixed2 x)
  | PStr _ => raise (ValueError "Unknown format code 'f' for object of type 'str'")
  end.

Definition empty_state : state := {| log := []; written := []; unfinished := [] |}.

Definition is_error (r : log_record) : bool :=
  match lvl r with ERROR => true | _ => false end.

Definition is_warning (r : log_record) : bool :=
  match lvl r with WARNING => true | _ => false end.

(** The exception [e] went through [logger.error] on the way to [st]. *)
Definition error_logged (e : exn) (st : state) : Prop :=
  exists r, In r (log st) /\ lvl r = ERROR /\ In (Exc e) (message r).

End Py.

Import Py.

Declare Scope py_scope.
Delimit Scope py_scope with py.
Notation "x <- m ;; k" := (bind m (fun x => k))
  (at level 100, m at next level, right associativity) : py_scope.
Notation "m ;; k" := (bind m (fun _ => k))
  (at level 100, right associativity) : py_scope.

(* ================================================================== *)
(** ** Text: the string operations the modules use *)

Module Text.

(** [s.lower()] on the ASCII letters; the bytes of other characters are
    left as they are. *)
Definition lower_char (c : ascii) : ascii :=
  let n := nat_of_ascii c in
  if (65 <=? n)%nat && (n <=? 90)%nat then ascii_of_nat (n + 32) else c.

Fixpoint lower (s : string) : string :=
  match s with
  | EmptyString => EmptyString
  | String c r => String (lower_char c) (lower r)
  end.

(** [hay.startswith(needle)] *)
Fixpoint starts_with (needle hay : string) : bool :=
  match needle with
  | EmptyString => true
  | String a needle' =>
      match hay with
      | EmptyString => false
      | String b hay' => Ascii.eqb a b && starts_with needle' hay'
      end
  end.

(** [needle in hay] *)
Fixpoint contains (needle hay : string) : bool :=
  starts_with needle hay ||
  match hay with
  | EmptyString => false
  | String _ r => contains needle r
  end.

(** [str(z)] *)
Definition str (z : Z) : string := DecimalString.NilZero.string_of_int (Z.to_int z).

Fixpoint has_slash (s : string) : bool :=
  match s with
  | EmptyString => false
  | String c r => Ascii.eqb c "/"%char || has_slash r
  end.

(** [p[:p.rfind('/') + 1]] *)
Fixpoint through_last_slash (p : string) : string :=
  match p with
  | EmptyString => EmptyString
  | String c r =>
      if Ascii.eqb c "/"%char || has_slash r
      then String c (through_last_slash r)
      else EmptyString
  end.

Fixpoint all_slashes (s : string) : bool :=
  match s with
  | EmptyString => true
  | String c r => Ascii.eqb c "/"%char && all_slashes r
  end.

(** [s.rstrip('/')] *)
Fixpoint rstrip_slashes (s : string) : string :=
  match s with
  | EmptyString => EmptyString
  | String c r =>
      match rstrip_slashes r with
      | EmptyString => if Ascii.eqb c "/"%char then EmptyString else String c EmptyString
      | r' => String c r'
      end
  end.

(** [os.path.dirname(p)] *)
Definition dirname (p : string) : string :=
  let head := through_last_slash p in
  match head with
  | EmptyString => head
  | _ => if all_slashes head then head else rstrip_slashes head
  end.

(** A character that is a decimal digit or the minus sign, and a string
    of such characters. *)
Definition numeral (c : ascii) : bool :=
  let n := nat_of_ascii c in
  ((48 <=? n)%nat && (n <=? 57)%nat) || (n =? 45)%nat.

Fixpoint numerals (s : string) : bool :=
  match s with
  | EmptyString => true
  | String c r => numeral c && numerals r
  end.

End Text.

Import Text.

(* ================================================================== *)
(** ** numpy on binary64 data and on integer rasters *)

Module Np.
Local Open Scope float_scope.

(** [float(n)] for a length or a count. *)
Definition of_nat (n : nat) : float := of_uint63 (Uint63.of_Z (Z.of_nat n)).

(** Summation in index order; numpy's own routine adds in blocks, so the
    functions below take the summation as a parameter and this one serves
    where the order cannot matter. *)
Definition seq_sum (xs : list float) : float := fold_left PrimFloat.add xs 0.

Section WithSum.
Variable np_sum : list float -> float.

(** [np.mean]: the sum divided by the number of items ([nan] for none). *)
Definition np_mean (xs : list float) : float := np_sum xs / of_nat (List.length xs).
End WithSum.

Fixpoint insert_sorted (x : float) (l : list float) : list float :=
  match l with
  | [] => [x]
  | y :: l' => if x <=? y then x :: l else y :: insert_sorted x l'
  end.

Definition sort (xs : list float) : list float := fold_right insert_sorted [] xs.

(** [np.median]: the middle item of the sorted data, or the mean of the
    two middle items; [nan] for no data. *)
Definition np_median (xs : list float) : float :=
  let s := sort xs in
  let n := List.length s in
  match n with
  | O => nan
  | _ => if Nat.even n
         then (nth (Nat.div n 2 - 1)%nat s nan + nth (Nat.div n 2) s nan) / 2
         else nth (Nat.div n 2) s nan
  end.

Definition fmin (x y : float) : float := if y <? x then y else x.
Definition fmax (x y : float) : float := if x <? y then y else x.

(** [np.min], [np.max]: a reduction with no identity raises on no data. *)
Definition np_min (xs : list float) : M float :=
  match xs with
  | [] => raise (ValueError "zero-size array to reduction operation minimum which has no identity")
  | x :: rest => ret (fold_left fmin rest x)
  end.

Definition np_max (xs : list float) : M float :=
  match xs with
  | [] => raise (ValueError "zero-size array to reduction operation maximum which has no identity")
  | x :: rest => ret (fold_left fmax rest x)
  end.

(** A float64 array of one or of two dimensions. *)
Inductive ndarray : Type :=
| Array1 (xs : list float)
| Array2 (rows : list (list float)).

(** The items of an array, in row order: what [np.sum] and [np.mean]
    reduce over when no axis is given. *)
Definition flat (x : ndarray) : list float :=
  match x with
  | Array1 xs => xs
  | Array2 rows => List.concat rows
  end.

(** [len(x)]: the length of the first axis. *)
Definition len_array (x : ndarray) : nat :=
  match x with
  | Array1 xs => List.length xs
  | Array2 rows => List.length rows
  end.

(** [a[a > 0]]: the strictly positive items, flattened in row order. *)
Definition positive (a : list (list float)) : list float :=
  filter (fun v => 0 <? v) (List.concat a).

(** The integers an integer dtype holds; [None] for any other dtype. *)
Definition int_range (dtype : string) : option (Z * Z) :=
  if String.eqb dtype "uint8" then Some (0, 255)%Z
  else if String.eqb dtype "int8" then Some (-128, 127)%Z
  else if String.eqb dtype "uint16" then Some (0, 65535)%Z
  else if String.eqb dtype "int16" then Some (-32768, 32767)%Z
  else if String.eqb dtype "uint32" then Some (0, 4294967295)%Z
  else if String.eqb dtype "int32" then Some (-2147483648, 2147483647)%Z
  else if String.eqb dtype "uint64" then Some (0, 18446744073709551615)%Z
  else if String.eqb dtype "int64" then Some (-9223372036854775808, 9223372036854775807)%Z
  else None.

(** A value on its way into an array: a Python int, a numpy integer, or
    any other object, given by how it prints and by what numpy makes of
    it when it is assigned (a class code, or an exception). *)
Inductive scalar : Type :=
| PyInt (z : Z)
| NpInt (z : Z)
| Other (shown : fragment) (stored : result Z).

(** [f"{v}"] *)
Definition shown_as (v : scalar) : fragment :=
  match v with
  | PyInt z => Int z
  | NpInt z => Int z
  | Other shown _ => shown
  end.

(** The Python int [z] is one the dtype holds. A dtype that is no integer
    dtype takes every integer of the model, rounding it beyond its own
    precision, which the model does not follow: the theorems about
    assignments are about integer dtypes. *)
Definition fits (dtype : string) (z : Z) : bool :=
  match int_range dtype with
  | Some (lo, hi) => ((lo <=? z) && (z <=? hi))%Z
  | None => true
  end.

(** The cast of a numpy integer to the dtype: it wraps around. *)
Definition wrap (dtype : string) (z : Z) : Z :=
  match int_range dtype with
  | Some (lo, hi) => (lo + (z - lo) mod (hi - lo + 1))%Z
  | None => z
  end.

(** The value of [a[mask] = v] as the array stores it. numpy brings [v]
    to the dtype of [a] before it looks at the mask: a Python int out of
    the dtype's range is an [OverflowError], also under an empty mask. *)
Definition as_dtype (dtype : string) (v : scalar) : result Z :=
  match v with
  | PyInt z =>
      if fits dtype z then inr z
      else inl (LibraryError "OverflowError"
                  ("Python integer " ++ str z ++ " out of bounds for " ++ dtype)%string)
  | NpInt z => inr (wrap dtype z)
  | Other _ stored => stored
  end.

End Np.

Import Np.

(* ================================================================== *)
(** ** The world outside the repository *)

Module Env.

(** An open rasterio dataset, by the attributes the code reads:
    [src.meta], [src.res] and [src.read(1)]. *)
Record dataset (V : Type) : Type := {
  ds_meta : metadata;
  ds_res : float * float;
  ds_band1 : list (list V)
}.
Arguments ds_meta {V} _.
Arguments ds_res {V} _.
Arguments ds_band1 {V} _.

Inductive cell : Type :=
| IntCell (z : Z)
| FloatCell (x : float)
| StrCell (s : string).

(** A pandas DataFrame: its columns in order, each with its values. *)
Definition DataFrame : Type := list (string * list cell).

Definition columns (df : DataFrame) : list string := map fst df.

Definition column (df : DataFrame) (name : string) : list cell :=
  match find (fun c => String.eqb (fst c) name) df with
  | Some c => snd c
  | None => []
  end.

Definition len (df : DataFrame) : nat :=
  match df with
  | [] => O
  | c :: _ => List.length (snd c)
  end.

(** The arguments handed to InVEST. *)
Record Args : Type := {
  lulc_cur_path : string;
  carbon_pools_path : string;
  workspace_dir : string
}.

(** The pixels (row, column) of a raster's grid that rasterio's
    rasterisation of some geometries, brought to the raster's CRS, puts
    inside them. *)
Record Footprint : Type := { covers : nat -> nat -> bool }.

(** A region to extract: the label its first row prints under (looking
    it up can fail) and its geometries. *)
Record Region : Type := {
  region_label : result string;
  region_shapes : Footprint
}.

(** What the libraries answer, each at the moment the code asks:
    - [path_exists]: [os.path.exists];
    - [makedirs]: [os.makedirs], [None] when the directory is made;
    - [open_lulc], [open_carbon]: [rasterio.open] and [read(1)] on a class
      raster and on a carbon raster;
    - [read_csv], [read_reclass_csv]: [pd.read_csv] on a carbon pools table
      and on a reclassification table, the latter by rows;
    - [invest_execute]: [natcap.invest.carbon.execute];
    - [mask_crop]: the first band of [rasterio.mask.mask(src, shapes, crop=True)];
    - [open_for_write]: [rasterio.open(path, "w", ...)], [None] when the
      file is opened, and so made;
    - [write_band]: writing the band to the open file and closing it,
      [None] when the raster is whole on disk afterwards. *)
Record World : Type := {
  path_exists : string -> bool;
  makedirs : string -> option exn;
  open_lulc : string -> result (dataset Z);
  open_carbon : string -> result (dataset float);
  read_csv : string -> result DataFrame;
  read_reclass_csv : string -> result (list (Z * Z));
  invest_execute : Args -> result (list (string * string));
  mask_crop : dataset float -> Region -> result (list (list float));
  open_for_write : string -> option exn;
  write_band : string -> option exn
}.

Fixpoint ends_with_slash (s : string) : bool :=
  match s with
  | EmptyString => false
  | String c EmptyString => Ascii.eqb c "/"%char
  | String _ r => ends_with_slash r
  end.

(** [os.path.join(a, b)] for a relative [b]. *)
Definition path_join (a b : string) : string :=
  match a with
  | EmptyString => b
  | _ => if ends_with_slash a then (a ++ b)%string else (a ++ "/" ++ b)%string
  end.

(** A statement that may fail: [None] is success. *)
Definition run_stmt (r : option exn) : M unit :=
  match r with
  | None => ret tt
  | Some e => raise e
  end.

(** [with rasterio.open(p, "w", **meta) as dest: dest.write(data, 1)] *)
Definition rasterio_write (w : World) (p : string) (meta : metadata)
  (data : list (list Z)) : M unit :=
  bind (run_stmt (open_for_write w p)) (fun _ =>
  bind (create_raster p) (fun _ =>
  bind (run_stmt (write_band w p)) (fun _ =>
  write_raster p meta data))).

End Env.

Import Env.

(* ================================================================== *)
(** ** src/models/carbon.py *)

Module Carbon.
Local Open Scope float_scope.
Local Open Scope py_scope.

(** [np.unique] on class codes: the distinct values, ascending. *)
Fixpoint insert_unique (z : Z) (l : list Z) : list Z :=
  match l with
  | [] => [z]
  | y :: l' =>
      match Z.compare z y with
      | Lt => z :: l
      | Eq => l
      | Gt => y :: insert_unique z l'
      end
  end.

Definition np_unique (a : list (list Z)) : list Z :=
  fold_right insert_unique [] (List.concat a).

Definition shape {V} (a : list (list V)) : nat * nat :=
  (List.length a, match a with [] => O | r :: _ => List.length r end).

Definition of_Z (z : Z) : float :=
  if (z <? 0)%Z then - of_uint63 (Uint63.of_Z (- z)) else of_uint63 (Uint63.of_Z z).

(** [val == c] for a class code of the raster and a cell of the table. *)
Definition cell_is (val : Z) (c : cell) : bool :=
  match c with
  | IntCell z => (z =? val)%Z
  | FloatCell x => x =? of_Z val
  | StrCell _ => false
  end.

Definition required_cols : list string :=
  ["lucode"; "c_above"; "c_below"; "c_soil"; "c_dead"]%string.

(** [repr] of a list of strings, as an f-string prints it. *)
Definition repr_list (l : list string) : string :=
  ("[" ++ String.concat ", " (map (fun s => "'" ++ s ++ "'") l) ++ "]")%string.

Definition missing_cols (carbon_df : DataFrame) : list string :=
  filter (fun col => negb (existsb (String.eqb col) (columns carbon_df))) required_cols.

Definition missing_values (unique_values : list Z) (carbon_df : DataFrame) : list Z :=
  filter (fun val => negb (existsb (cell_is val) (column carbon_df "lucode"))
                     && negb (val =? 0)%Z)
         unique_values.

(** The result dictionary of [calculate_carbon_value]. *)
Record CarbonValue : Type := {
  mean_carbon_mgha : float;
  total_carbon_mg : float;
  mean_co2_mgha : float;
  total_co2_mg : float;
  value_per_ha_usd : float;
  total_value_usd : float;
  npv_per_ha_usd : float;
  npv_total_usd : float
}.

(** The result dictionary of [compare_scenarios]. *)
Record Comparison : Type := {
  baseline_carbon_mgha : float;
  scenario_carbon_mgha : float;
  carbon_diff_mgha : float;
  carbon_diff_total_mg : float;
  co2_diff_mgha : float;
  co2_diff_total_mg : float;
  value_diff_per_ha_usd : float;
  value_diff_total_usd : float;
  percent_change : float
}.

(** The summary dictionary; [area_ha] is a key that may be absent. *)
Record Summary : Type := {
  mean_carbon : float;
  median_carbon : float;
  min_carbon : float;
  max_carbon : float;
  total_carbon : float;
  pixel_count : nat;
  pixel_size : float;
  area_ha : option float
}.

Definition set_area_ha (s : Summary) (a : float) : Summary :=
  {| mean_carbon := mean_carbon s; median_carbon := median_carbon s;
     min_carbon := min_carbon s; max_carbon := max_carbon s;
     total_carbon := total_carbon s; pixel_count := pixel_count s;
     pixel_size := pixel_size s; area_ha := Some a |}.

(** [carbon_data : numpy.ndarray or float] *)
Inductive carbon_input : Type :=
| Scalar (c : float)
| NdArray (x : ndarray).

Definition co2_factor : float := 3.67.
Definition default_price_per_ton_co2 : float := 40.
Definition default_discount_rate : float := 0.04.

(** [x / y] on floats: Python raises on a zero divisor (numpy scalars
    warn instead); the embedding raises in both cases, so a run that
    returns has divided by no zero. *)
Definition truediv (x y : float) : M float :=
  if y =? 0 then raise (ZeroDivisionError "float division by zero")
  else ret (x / y).

(** [x / n] for an integer [n], here a length. *)
Definition truediv_int (x : float) (n : nat) : M float :=
  match n with
  | O => raise (ZeroDivisionError "float division by zero")
  | _ => ret (x / of_nat n)
  end.

Definition direction (carbon_diff : float) : string :=
  if 0 <? carbon_diff then "increase"%string else "decrease"%string.

Section WithLibraries.
Variable np_sum : list float -> float.
Variable w : World.

Definition prepare_carbon_inputs (lulc_path carbon_pools_csv output_dir : string)
  : M Args :=
  logger_info [Text "Preparing Carbon model inputs..."] ;;
  if negb (path_exists w lulc_path)
  then raise (FileNotFoundError ("LULC file not found: " ++ lulc_path))
  else
  if negb (path_exists w carbon_pools_csv)
  then raise (FileNotFoundError ("Carbon pools file not found: " ++ carbon_pools_csv))
  else
  (if negb (path_exists w output_dir)
   then run_stmt (makedirs w output_dir)
   else ret tt) ;;
  unique_values <-
    try_except
      (src <- lift (open_lulc w lulc_path) ;;
       let lulc_data := ds_band1 src in
       let unique_values := np_unique lulc_data in
       logger_info [Text "LULC raster loaded: shape=(";
                    Int (Z.of_nat (fst (shape lulc_data))); Text ", ";
                    Int (Z.of_nat (snd (shape lulc_data)));
                    Text "), unique values=";
                    Int (Z.of_nat (List.length unique_values))] ;;
       ret unique_values)
      (fun e =>
         logger_error [Text "Error reading LULC raster: "; Exc e] ;;
         raise e) ;;
  try_except
    (carbon_df <- lift (read_csv w carbon_pools_csv) ;;
     (match missing_cols carbon_df with
      | [] => ret tt
      | _ :: _ =>
          raise (ValueError ("Carbon pools CSV missing required columns: "
                             ++ repr_list (missing_cols carbon_df)))
      end) ;;
     (match missing_values unique_values carbon_df with
      | [] => ret tt
      | _ :: _ =>
          logger_warning [Text "Carbon data missing for LULC classes: ";
                          IntList (missing_values unique_values carbon_df)]
      end) ;;
     logger_info [Text "Carbon pools data loaded: ";
                  Int (Z.of_nat (len carbon_df));
                  Text " land cover classes"])
    (fun e =>
       logger_error [Text "Error reading carbon pools CSV: "; Exc e] ;;
       raise e) ;;
  ret {| lulc_cur_path := lulc_path;
         carbon_pools_path := carbon_pools_csv;
         workspace_dir := output_dir |}.

Definition summarize_carbon_results (workspace : string) : M Summary :=
  logger_info [Text "Summarizing carbon results..."] ;;
  let total_carbon_path := path_join workspace "total_carbon.tif" in
  if negb (path_exists w total_carbon_path)
  then raise (FileNotFoundError ("Total carbon output not found: " ++ total_carbon_path))
  else
  src <- lift (open_carbon w total_carbon_path) ;;
  let carbon_data := ds_band1 src in
  let valid_data := positive carbon_data in
  mn <- np_min valid_data ;;
  mx <- np_max valid_data ;;
  let summary :=
    {| mean_carbon := np_mean np_sum valid_data;
       median_carbon := np_median valid_data;
       min_carbon := mn;
       max_carbon := mx;
       total_carbon := np_sum valid_data;
       pixel_count := List.length valid_data;
       pixel_size := fst (ds_res src) * snd (ds_res src);
       area_ha := None |} in
  let summary :=
    if fst (ds_res src) =? snd (ds_res src)
    then
      let pixel_size_m2 := fst (ds_res src) * snd (ds_res src) in
      set_area_ha summary (of_nat (pixel_count summary) * pixel_size_m2 / 10000)
    else summary in
  area <- format_2f (match area_ha summary with
                     | Some a => PFloat a
                     | None => PStr "N/A"
                     end) ;;
  logger_info [Text "Carbon summary: mean="; Fixed2 (mean_carbon summary);
               Text " Mg/ha, total="; Fixed2 (total_carbon summary);
               Text " Mg, area="; area; Text " ha"] ;;
  ret summary.

Definition run_carbon_model (args : Args)
  : M (list (string * string) * Summary) :=
  logger_info [Text "Running InVEST Carbon Storage and Sequestration model..."] ;;
  carbon_results <-
    try_except
      (r <- lift (invest_execute w args) ;;
       logger_info [Text "Carbon model execution completed successfully"] ;;
       ret r)
      (fun e =>
         logger_error [Text "Error executing carbon model: "; Exc e] ;;
         raise e) ;;
  results_summary <- summarize_carbon_results (workspace_dir args) ;;
  ret (carbon_results, results_summary).

Definition extract_carbon_for_region (carbon_raster_path : string) (region_gdf : Region)
  : M (list float * Summary) :=
  label <- lift (region_label region_gdf) ;;
  logger_info [Text "Extracting carbon values for region: "; Text label] ;;
  try_except
    (src <- lift (open_carbon w carbon_raster_path) ;;
     masked_data <- lift (mask_crop w src region_gdf) ;;
     let valid_data := positive masked_data in
     mn <- np_min valid_data ;;
     mx <- np_max valid_data ;;
     let summary :=
       {| mean_carbon := np_mean np_sum valid_data;
          median_carbon := np_median valid_data;
          min_carbon := mn;
          max_carbon := mx;
          total_carbon := np_sum valid_data;
          pixel_count := List.length valid_data;
          pixel_size := fst (ds_res src) * snd (ds_res src);
          area_ha := None |} in
     let pixel_size_m2 := fst (ds_res src) * snd (ds_res src) in
     let summary :=
       set_area_ha summary (of_nat (pixel_count summary) * pixel_size_m2 / 10000) in
     logger_info [Text "Extracted "; Int (Z.of_nat (List.length valid_data));
                  Text " pixels, mean carbon: "; Fixed2 (mean_carbon summary);
                  Text " Mg/ha, total carbon: "; Fixed2 (total_carbon summary);
                  Text " Mg"] ;;
     ret (valid_data, summary))
    (fun e =>
       logger_error [Text "Error extracting carbon values for region: "; Exc e] ;;
       raise e).

Definition calculate_carbon_value (carbon_data : carbon_input)
  (area_ha price_per_ton_co2 discount_rate : float) : M CarbonValue :=
  logger_info [Text "Calculating carbon value with price="; Num price_per_ton_co2;
               Text " USD/tCO2 and discount_rate="; Num discount_rate] ;;
  mt <- match carbon_data with
        | NdArray x =>
            let mean_carbon := np_mean np_sum (flat x) in
            total_carbon <-
              (if (0 <? len_array x)%nat
               then truediv_int (np_sum (flat x) * area_ha) (len_array x)
               else ret 0) ;;
            ret (mean_carbon, total_carbon)
        | Scalar c => ret (c, c * area_ha)
        end ;;
  let mean_carbon := fst mt in
  let total_carbon := snd mt in
  let mean_co2 := mean_carbon * co2_factor in
  let total_co2 := total_carbon * co2_factor in
  let value_per_ha := mean_co2 * price_per_ton_co2 in
  let total_value := total_co2 * price_per_ton_co2 in
  npv_per_ha <- (if 0 <? discount_rate
                 then truediv value_per_ha discount_rate
                 else ret infinity) ;;
  npv_total <- (if 0 <? discount_rate
                then truediv total_value discount_rate
                else ret infinity) ;;
  let results :=
    {| mean_carbon_mgha := mean_carbon;
       total_carbon_mg := total_carbon;
       mean_co2_mgha := mean_co2;
       total_co2_mg := total_co2;
       value_per_ha_usd := value_per_ha;
       total_value_usd := total_value;
       npv_per_ha_usd := npv_per_ha;
       npv_total_usd := npv_total |} in
  logger_info [Text "Carbon value: "; Fixed2 value_per_ha;
               Text " USD/ha, total: "; Fixed2 total_value;
               Text " USD, NPV: "; Fixed2 npv_total; Text " USD"] ;;
  ret results.

(** The summary dictionary both summaries build from the data they kept,
    the extremes and the area. *)
Definition statistics (src : dataset float) (valid_data : list float) (mn mx : float)
  (area : option float) : Summary :=
  {| mean_carbon := np_mean np_sum valid_data;
     median_carbon := np_median valid_data;
     min_carbon := mn;
     max_carbon := mx;
     total_carbon := np_sum valid_data;
     pixel_count := List.length valid_data;
     pixel_size := fst (ds_res src) * snd (ds_res src);
     area_ha := area |}.

Definition mean_of (carbon : carbon_input) : float :=
  match carbon with
  | NdArray x => np_mean np_sum (flat x)
  | Scalar c => c
  end.

Definition compare_scenarios (baseline_carbon scenario_carbon : carbon_input)
  (area_ha price_per_ton_co2 : float) : M Comparison :=
  logger_info [Text "Comparing carbon scenarios..."] ;;
  let baseline_mean := mean_of baseline_carbon in
  let scenario_mean := mean_of scenario_carbon in
  let carbon_diff := scenario_mean - baseline_mean in
  let carbon_diff_total := carbon_diff * area_ha in
  let co2_diff := carbon_diff * co2_factor in
  let co2_diff_total := carbon_diff_total * co2_factor in
  let value_diff_per_ha := co2_diff * price_per_ton_co2 in
  let value_diff_total := co2_diff_total * price_per_ton_co2 in
  pct <- (if negb (baseline_mean =? 0)
          then (q <- truediv carbon_diff baseline_mean ;; ret (q * 100))
          else ret infinity) ;;
  let results :=
    {| baseline_carbon_mgha := baseline_mean;
       scenario_carbon_mgha := scenario_mean;
       carbon_diff_mgha := carbon_diff;
       carbon_diff_total_mg := carbon_diff_total;
       co2_diff_mgha := co2_diff;
       co2_diff_total_mg := co2_diff_total;
       value_diff_per_ha_usd := value_diff_per_ha;
       value_diff_total_usd := value_diff_total;
       percent_change := pct |} in
  logger_info [Text "Scenario comparison: "; Fixed2 (abs carbon_diff);
               Text " Mg C/ha "; Text (direction carbon_diff); Text ", ";
               Fixed2 (abs pct); Text "% "; Text (direction carbon_diff);
               Text ", value difference: "; Fixed2 value_diff_total; Text " USD"] ;;
  ret results.

End WithLibraries.

(** The log records of the module, by the line that emits them. *)
Module Records.

Definition preparing : log_record :=
  {| lvl := INFO; message := [Text "Preparing Carbon model inputs..."] |}.

Definition raster_loaded (src : dataset Z) : log_record :=
  {| lvl := INFO;
     message := [Text "LULC raster loaded: shape=(";
                 Int (Z.of_nat (fst (shape (ds_band1 src)))); Text ", ";
                 Int (Z.of_nat (snd (shape (ds_band1 src))));
                 Text "), unique values=";
                 Int (Z.of_nat (List.length (np_unique (ds_band1 src))))] |}.

Definition pools_loaded (df : DataFrame) : log_record :=
  {| lvl := INFO;
     message := [Text "Carbon pools data loaded: "; Int (Z.of_nat (len df));
                 Text " land cover classes"] |}.

(** The warning for classes without carbon data, when there are any. *)
Definition classes_missing (src : dataset Z) (df : DataFrame) : list log_record :=
  match missing_values (np_unique (ds_band1 src)) df with
  | [] => []
  | _ :: _ =>
      [{| lvl := WARNING;
          message := [Text "Carbon data missing for LULC classes: ";
                      IntList (missing_values (np_unique (ds_band1 src)) df)] |}]
  end.

(** The record an [except] block leaves before it re-raises [e]. *)
Definition failed (text : string) (e : exn) : log_record :=
  {| lvl := ERROR; message := [Text text; Exc e] |}.

Definition running : log_record :=
  {| lvl := INFO;
     message := [Text "Running InVEST Carbon Storage and Sequestration model..."] |}.

Definition completed : log_record :=
  {| lvl := INFO; message := [Text "Carbon model execution completed successfully"] |}.

Definition summarizing : log_record :=
  {| lvl := INFO; message := [Text "Summarizing carbon results..."] |}.

Definition extracting (label : string) : log_record :=
  {| lvl := INFO; message := [Text "Extracting carbon values for region: "; Text label] |}.

(** The output directory is there, or [os.makedirs] makes it. *)
Definition output_dir_ready (w : World) (out : string) : Prop :=
  path_exists w out = true \/ makedirs w out = None.

End Records.

End Carbon.

Import Carbon.
Import Carbon.Records.

(* ================================================================== *)
(** ** src/data/preprocess.py *)

Module Preprocess.
Local Open Scope Z_scope.
Local Open Scope py_scope.

(** A Python dict from class code to class code: the entries in insertion
    order, no key twice. *)
Definition dict : Type := list (Z * Z).

(** [d[k] = v]: a key already there keeps its place and takes the value. *)
Fixpoint dict_set (d : dict) (k v : Z) : dict :=
  match d with
  | [] => [(k, v)]
  | (k', v') :: d' => if k' =? k then (k', v) :: d' else (k', v') :: dict_set d' k v
  end.

(** [dict(pairs)] *)
Definition dict_of (pairs : list (Z * Z)) : dict :=
  fold_left (fun d kv => dict_set d (fst kv) (snd kv)) pairs [].

Fixpoint dict_get (d : dict) (k : Z) : option Z :=
  match d with
  | [] => None
  | (k', v') :: d' => if k' =? k then Some v' else dict_get d' k
  end.

(** The reclassification table by rows (original_value, new_value). *)
Definition ReclassTable : Type := list (Z * Z).

Definition original_value (t : ReclassTable) : list Z := map fst t.
Definition new_value (t : ReclassTable) : list Z := map snd t.

Fixpoint zip_with {A B C} (f : A -> B -> C) (l : list A) (m : list B) : list C :=
  match l, m with
  | x :: l', y :: m' => f x y :: zip_with f l' m'
  | _, _ => []
  end.

Fixpoint imap_from {A B} (i : nat) (f : nat -> A -> B) (l : list A) : list B :=
  match l with
  | [] => []
  | x :: l' => f i x :: imap_from (S i) f l'
  end.

(** [a == v] *)
Definition eq_mask (a : list (list Z)) (v : Z) : list (list bool) :=
  map (map (fun x => x =? v)) a.

(** [a[mask] = v] *)
Definition assign_where (a : list (list Z)) (mask : list (list bool)) (v : Z)
  : list (list Z) :=
  zip_with (zip_with (fun x (b : bool) => if b then v else x)) a mask.

(** The loop [for orig_val, new_val in items: reclass_data[lulc_data == orig_val] = new_val]
    on [reclass_data], a copy of [lulc_data] at the start. The items of
    the dict are Python ints, as iterating a pandas column yields them:
    each new value is brought to the raster's dtype, and the first one
    that does not fit ends the loop with its [OverflowError]. *)
Fixpoint reclassify (dtype : string) (lulc_data reclass_data : list (list Z))
  (items : list (Z * Z)) : result (list (list Z)) :=
  match items with
  | [] => inr reclass_data
  | (orig_val, new_val) :: rest =>
      match as_dtype dtype (PyInt new_val) with
      | inl e => inl e
      | inr v =>
          reclassify dtype lulc_data
            (assign_where reclass_data (eq_mask lulc_data orig_val) v) rest
      end
  end.

(** The raster that loop ends with when every new value fits. *)
Definition relabel (lulc_data : list (list Z)) (items : list (Z * Z))
  : list (list Z) :=
  fold_left (fun reclass_data kv =>
               assign_where reclass_data (eq_mask lulc_data (fst kv)) (snd kv))
            items lulc_data.

(** What one pixel goes through in that loop: [orig] is its value in
    [lulc_data], [cur] its value in [reclass_data]. *)
Definition reclass_pixel (items : list (Z * Z)) (orig cur : Z) : Z :=
  fold_left (fun cur kv => if orig =? fst kv then snd kv else cur) items cur.

(** The new value of the last row of the table whose original value is [k]. *)
Definition last_row_for (t : ReclassTable) (k : Z) : option Z :=
  option_map snd (find (fun r => fst r =? k) (rev t)).

(** The pixel after reclassification by the table [t]. *)
Definition reclassified (t : ReclassTable) (v : Z) : Z :=
  match last_row_for t v with
  | Some n => n
  | None => v
  end.

(** [meta.update({"driver": "GTiff", "compress": "lzw", "nodata": 0})] *)
Definition update_meta (m : metadata) : metadata :=
  {| driver := "GTiff"; dtype := dtype m; nodata := Some 0;
     width := width m; height := height m; count := count m;
     crs := crs m; transform := transform m; compress := Some "lzw"%string |}.

(** The value the dataset's mask fills with. *)
Definition fill_value (src : dataset Z) : Z :=
  match nodata (ds_meta src) with Some v => v | None => 0 end.

(** [rasterio.mask.mask(src, geoms, crop=False, invert=False)[0][0]]: the
    band's data inside the shapes, and outside them the dataset's nodata
    value, or 0 when it has none. *)
Definition rio_mask (src : dataset Z) (shapes : Footprint) : list (list Z) :=
  let fill := fill_value src in
  imap_from O
    (fun r row => imap_from O (fun c v => if covers shapes r c then v else fill) row)
    (ds_band1 src).

(** [a.astype(bool)] *)
Definition astype_bool (a : list (list Z)) : list (list bool) :=
  map (map (fun v => negb (v =? 0))) a.

(** A change area, by what geopandas and rasterio make of it on the base
    raster: [gpd.GeoDataFrame(...)], [to_crs] or [mask] raises, or the
    geometries rasterise to a footprint on the raster's grid. *)
Inductive Area : Type :=
| Shapes (f : Footprint)
| Unusable (e : exn).

Definition rasterise (area : Area) : result Footprint :=
  match area with
  | Shapes f => inr f
  | Unusable e => inl e
  end.

(** What the pixel at row [r], column [c] goes through in the loop over
    the change areas: [orig] is its value in the base raster, [cur] its
    value in [scenario_data]. *)
Definition scenario_pixel (fill : Z) (changes : list (Footprint * Z)) (r c : nat)
  (orig cur : Z) : Z :=
  fold_left (fun cur an =>
               if negb ((if covers (fst an) r c then orig else fill) =? 0)
               then snd an else cur)
            changes cur.

(** One pass of the loop over the change areas on the data, for an area
    that rasterises and a value the dtype holds; the logging left out. *)
Definition scenario_step (src : dataset Z) (scenario_data : list (list Z))
  (an : Footprint * Z) : list (list Z) :=
  assign_where scenario_data (astype_bool (rio_mask src (fst an))) (snd an).

(** The change areas with their new values as the loop meets them: the
    footprints and the stored values, up to the first area that does not
    rasterise or value that the dtype refuses. *)
Fixpoint changes_of (dtype : string) (l : list (Area * scalar))
  : result (list (Footprint * Z)) :=
  match l with
  | [] => inr []
  | (area, new_value) :: rest =>
      match rasterise area with
      | inl e => inl e
      | inr shapes =>
          match as_dtype dtype new_value with
          | inl e => inl e
          | inr v =>
              match changes_of dtype rest with
              | inl e => inl e
              | inr changes => inr ((shapes, v) :: changes)
              end
          end
      end
  end.

(** [for i, x in enumerate(l): acc = body(i, x, acc)] *)
Fixpoint for_enumerate {A T} (i : nat) (l : list A) (body : nat -> A -> T -> M T)
  (acc : T) : M T :=
  match l with
  | [] => ret acc
  | x :: l' => bind (body i x acc) (for_enumerate (S i) l' body)
  end.

(** The body of the loop over the change areas of [create_scenario_lulc]:
    the area is brought to the raster and masked, the new value assigned
    under the mask, and the change logged. *)
Definition change_area (src : dataset Z) (i : nat) (an : Area * scalar)
  (scenario_data : list (list Z)) : M (list (list Z)) :=
  shapes <- lift (rasterise (fst an)) ;;
  let area_mask := astype_bool (rio_mask src shapes) in
  v <- lift (as_dtype (dtype (ds_meta src)) (snd an)) ;;
  let scenario_data := assign_where scenario_data area_mask v in
  logger_info [Text "Updated change area "; Int (Z.of_nat (i + 1));
               Text " to value "; shown_as (snd an)] ;;
  ret scenario_data.

Section WithLibraries.
Variable w : World.

(** The table a call is given, by rows, or by the path of a CSV that
    reads as these rows. *)
Definition table_is (table : string + ReclassTable) (t : ReclassTable) : Prop :=
  match table with
  | inl path => read_reclass_csv w path = inr t
  | inr df => df = t
  end.

Definition prepare_lulc_for_invest (lulc_path output_path : string)
  (reclassify_table : option (string + ReclassTable)) : M string :=
  logger_info [Text "Preparing LULC data for InVEST: "; Text lulc_path] ;;
  try_except
    (src <- lift (open_lulc w lulc_path) ;;
     let lulc_data := ds_band1 src in
     let meta := ds_meta src in
     lulc_data <-
       match reclassify_table with
       | Some t =>
           reclass_df <- match t with
                         | inl path => lift (read_reclass_csv w path)
                         | inr df => ret df
                         end ;;
           let reclass_dict :=
             dict_of (combine (original_value reclass_df) (new_value reclass_df)) in
           logger_info [Text "Reclassifying LULC values..."] ;;
           lift (reclassify (dtype meta) lulc_data lulc_data reclass_dict)
       | None => ret lulc_data
       end ;;
     let meta := update_meta meta in
     rasterio_write w output_path meta lulc_data ;;
     logger_info [Text "Processed LULC raster saved to "; Text output_path] ;;
     ret output_path)
    (fun e =>
       logger_error [Text "Error preparing LULC data: "; Exc e] ;;
       raise e).

Definition create_scenario_lulc (base_lulc_path scenario_lulc_path : string)
  (change_areas : list Area) (new_values : list scalar) : M string :=
  logger_info [Text "Creating scenario LULC from "; Text base_lulc_path] ;;
  try_except
    (src <- lift (open_lulc w base_lulc_path) ;;
     let lulc_data := ds_band1 src in
     let meta := ds_meta src in
     scenario_data <-
       for_enumerate O (combine change_areas new_values) (change_area src) lulc_data ;;
     rasterio_write w scenario_lulc_path meta scenario_data ;;
     logger_info [Text "Scenario LULC raster saved to "; Text scenario_lulc_path] ;;
     ret scenario_lulc_path)
    (fun e =>
       logger_error [Text "Error creating scenario LULC: "; Exc e] ;;
       raise e).

End WithLibraries.

End Preprocess.

Import Preprocess.

(** [band[r][c]], when the pixel is on the grid. *)
Definition pixel_at (band : list (list Z)) (r c : nat) : option Z :=
  match nth_error band r with
  | Some row => nth_error row c
  | None => None
  end.

(* ================================================================== *)
(** ** Files other than rasters: tables, JSON summaries, copies *)

Module Disk.

(** What the functions below leave on disk: the tables, summaries and
    copies whose writing finished, in order, and the paths of the text
    files that were opened for writing, and so made, and not finished. *)
Record disk : Type := {
  csv_files : list (string * DataFrame);
  json_files : list (string * list (string * float));
  copied_files : list (string * string);
  unfinished_files : list string
}.

Definition empty_disk : disk :=
  {| csv_files := []; json_files := []; copied_files := []; unfinished_files := [] |}.

(** Computations over the process state and the disk. *)
Definition IO (A : Type) : Type := state * disk -> result A * (state * disk).

Definition io_ret {A} (a : A) : IO A := fun s => (inr a, s).

Definition io_bind {A B} (m : IO A) (k : A -> IO B) : IO B :=
  fun s =>
    match m s with
    | (inr a, s') => k a s'
    | (inl e, s') => (inl e, s')
    end.

Definition io_raise {A} (e : exn) : IO A := fun s => (inl e, s).

Definition io_try {A} (body : IO A) (handler : exn -> IO A) : IO A :=
  fun s =>
    match body s with
    | (inr a, s') => (inr a, s')
    | (inl e, s') => handler e s'
    end.

(** A computation that touches the process state only. *)
Definition of_M {A} (m : M A) : IO A :=
  fun s => let (r, st') := m (fst s) in (r, (st', snd s)).

Definition io_lift {A} (r : result A) : IO A := fun s => (r, s).

Definition io_stmt (r : option exn) : IO unit :=
  match r with
  | None => io_ret tt
  | Some e => io_raise e
  end.

(** The file at [p] is opened for writing text: it is there, empty. *)
Definition touch (p : string) : IO unit :=
  fun s => (inr tt, (fst s, {| csv_files := csv_files (snd s);
                               json_files := json_files (snd s);
                               copied_files := copied_files (snd s);
                               unfinished_files := p :: unfinished_files (snd s) |})).

Definition finished (p : string) (l : list string) : list string :=
  filter (fun q => negb (String.eqb q p)) l.

Definition save_csv (p : string) (df : DataFrame) : IO unit :=
  fun s => (inr tt, (fst s, {| csv_files := csv_files (snd s) ++ [(p, df)];
                               json_files := json_files (snd s);
                               copied_files := copied_files (snd s);
                               unfinished_files := finished p (unfinished_files (snd s)) |})).

Definition save_json (p : string) (obj : list (string * float)) : IO unit :=
  fun s => (inr tt, (fst s, {| csv_files := csv_files (snd s);
                               json_files := json_files (snd s) ++ [(p, obj)];
                               copied_files := copied_files (snd s);
                               unfinished_files := finished p (unfinished_files (snd s)) |})).

Definition save_copy (src dst : string) : IO unit :=
  fun s => (inr tt, (fst s, {| csv_files := csv_files (snd s);
                               json_files := json_files (snd s);
                               copied_files := copied_files (snd s) ++ [(src, dst)];
                               unfinished_files := unfinished_files (snd s) |})).

(** What the operating system answers:
    - [makedirs_exist_ok]: [os.makedirs(p, exist_ok=True)], [None] when the
      directory is there afterwards;
    - [open_text]: opening a file for writing text, as [to_csv] and
      [open(p, 'w')] do, [None] when the file is opened, and so made;
    - [write_text]: writing the text to the open file and closing it,
      [None] when the file is whole on disk afterwards;
    - [copy2]: [shutil.copy2(src, dst)], [None] when the copy is whole. *)
Record Shell : Type := {
  makedirs_exist_ok : string -> option exn;
  open_text : string -> option exn;
  write_text : string -> option exn;
  copy2 : string -> string -> option exn
}.

End Disk.

Import Disk.

Declare Scope io_scope.
Delimit Scope io_scope with io.
Notation "x <- m ;; k" := (io_bind m (fun x => k))
  (at level 100, m at next level, right associativity) : io_scope.
Notation "m ;; k" := (io_bind m (fun _ => k))
  (at level 100, right associativity) : io_scope.

(* ================================================================== *)
(** ** src/data/preprocess.py: tables and result extraction *)

Module Tables.
Local Open Scope Z_scope.
Local Open Scope io_scope.

(** [df[name]]: a missing column is a [KeyError]. *)
Definition column_get (df : DataFrame) (name : string) : result (list cell) :=
  match find (fun c => String.eqb (fst c) name) df with
  | Some c => inr (snd c)
  | None => inl (LibraryError "KeyError" ("'" ++ name ++ "'"))
  end.

(** [a == b] on two cells. *)
Definition cell_eqb (a b : cell) : bool :=
  match a, b with
  | IntCell x, IntCell y => x =? y
  | IntCell x, FloatCell y => PrimFloat.eqb (of_Z x) y
  | FloatCell x, IntCell y => PrimFloat.eqb x (of_Z y)
  | FloatCell x, FloatCell y => PrimFloat.eqb x y
  | StrCell x, StrCell y => String.eqb x y
  | _, _ => false
  end.

(** The class names of the attribute table: from the dict, with
    ['Unknown'] for a value it does not hold, when a dict with entries is
    given; ["Class <value>"] otherwise. *)
Definition class_name_column (class_names : option (list (Z * string)))
  (values : list Z) : list string :=
  match class_names with
  | Some ((_ :: _) as d) =>
      map (fun val => match find (fun kv => fst kv =? val) d with
                      | Some kv => snd kv
                      | None => "Unknown"%string
                      end) values
  | _ => map (fun val => ("Class " ++ str val)%string) values
  end.

(** The four pools (c_above, c_below, c_soil, c_dead) the default branch
    gives a class, from its lower-cased name. *)
Definition default_pools (class_name : string) : Z * Z * Z * Z :=
  if contains "forest" class_name then
    if contains "primary" class_name then (200, 40, 100, 20)
    else if contains "secondary" class_name then (150, 35, 90, 15)
    else (0, 0, 0, 0)
  else if contains "shrub" class_name then (70, 20, 60, 5)
  else if contains "grass" class_name || contains "savanna" class_name then (15, 5, 40, 1)
  else if contains "crop" class_name then (5, 2, 30, 0)
  else if contains "urban" class_name || contains "built" class_name then (2, 1, 20, 0)
  else if contains "mine" class_name then (0, 0, 5, 0)
  else (0, 0, 0, 0).

(** [row['lulc_name'].lower()]: only a string has the method. *)
Definition lower_cell (c : cell) : result string :=
  match c with
  | StrCell s => inr (lower s)
  | IntCell _ => inl (LibraryError "AttributeError" "'int' object has no attribute 'lower'")
  | FloatCell _ => inl (LibraryError "AttributeError" "'float' object has no attribute 'lower'")
  end.

(** The loop over [iterrows()] of the default branch: the pools of every
    row, or the exception of the first row that raises. *)
Fixpoint default_rows (names : list cell) : result (list (Z * Z * Z * Z)) :=
  match names with
  | [] => inr []
  | c :: rest =>
      match lower_cell c with
      | inl e => inl e
      | inr class_name =>
          match default_rows rest with
          | inl e => inl e
          | inr ps => inr (default_pools class_name :: ps)
          end
      end
  end.

(** The cell a column stores for [value]: a float64 column, which is
    what a column of floats is, holds an integer as a float. (A float
    assigned to a column of integers, which makes pandas change the
    column's dtype, is stored as it is.) *)
Definition is_float_cell (c : cell) : bool :=
  match c with
  | FloatCell _ => true
  | _ => false
  end.

Definition stored_in (col : list cell) (value : cell) : cell :=
  match value with
  | IntCell z => if forallb is_float_cell col then FloatCell (of_Z z) else value
  | _ => value
  end.

(** [df.loc[mask, pool] = value]: a column that is there takes the value
    in the masked rows; a new one is added at the end, as a column of NaN
    that then takes the value in the masked rows, so that an integer
    lands in it as a float. *)
Definition loc_set (df : DataFrame) (mask : list bool) (pool : string) (value : cell)
  : DataFrame :=
  let assign (col : list cell) :=
    zip_with (fun x (m : bool) => if m then stored_in col value else x) col mask in
  if existsb (String.eqb pool) (columns df)
  then map (fun c => if String.eqb (fst c) pool then (fst c, assign (snd c)) else c) df
  else df ++ [(pool, assign (map (fun _ : bool => FloatCell PrimFloat.nan) mask))].

(** The loop of the [carbon_values] branch over the codes the lucode
    column held when it started; each mask is taken on the frame as it is
    by then. *)
Definition fill_pools (carbon_values : list (Z * list (string * cell)))
  (lucodes : list cell) (carbon_df : DataFrame) : DataFrame :=
  fold_left
    (fun df lucode =>
       match find (fun kv => cell_is (fst kv) lucode) carbon_values with
       | Some kv =>
           fold_left
             (fun df pv =>
                loc_set df (map (fun c => cell_eqb c lucode) (column df "lucode"))
                        (fst pv) (snd pv))
             (snd kv) df
       | None => df
       end)
    lucodes carbon_df.

(** [np.std]: the root of the mean squared distance to the mean. *)
Definition np_std (np_sum : list float -> float) (xs : list float) : float :=
  let arrmean := np_mean np_sum xs in
  let x := map (fun v => PrimFloat.sub v arrmean) xs in
  let x := map (fun v => PrimFloat.mul v v) x in
  PrimFloat.sqrt (PrimFloat.div (np_sum x) (of_nat (List.length xs))).

(** A name bound by an [import] inside the function is local to it:
    using it on a path that skipped the import raises. *)
Definition local_name (name : string) (bound : bool) : IO unit :=
  if bound then io_ret tt
  else io_raise (LibraryError "UnboundLocalError"
                   ("cannot access local variable '" ++ name
                    ++ "' where it is not associated with a value")).

Section WithLibraries.
Variable np_sum : list float -> float.
Variable w : World.
Variable sh : Shell.

(** [df.to_csv(p, index=False)]: pandas opens the file, which makes it,
    and then writes the header and the rows. *)
Definition to_csv (df : DataFrame) (p : string) : IO unit :=
  io_stmt (open_text sh p) ;;
  touch p ;;
  io_stmt (write_text sh p) ;;
  save_csv p df.

(** [with open(p, 'w') as f: json.dump(obj, f, indent=4)] *)
Definition json_dump (obj : list (string * float)) (p : string) : IO unit :=
  io_stmt (open_text sh p) ;;
  touch p ;;
  io_stmt (write_text sh p) ;;
  save_json p obj.

Definition create_lulc_attribute_table (lulc_path output_csv : string)
  (class_names : option (list (Z * string))) : IO string :=
  of_M (logger_info [Text "Creating LULC attribute table from "; Text lulc_path]) ;;
  io_try
    (src <- io_lift (open_lulc w lulc_path) ;;
     let lulc_data := ds_band1 src in
     let unique_values := np_unique lulc_data in
     let unique_values := filter (fun v => 0 <? v) unique_values in
     of_M (logger_info [Text "Found "; Int (Z.of_nat (List.length unique_values));
                        Text " unique LULC classes"]) ;;
     let attr_df : DataFrame :=
       [("value"%string, map IntCell unique_values);
        ("class_name"%string,
         map StrCell (class_name_column class_names unique_values))] in
     io_stmt (makedirs_exist_ok sh (dirname output_csv)) ;;
     to_csv attr_df output_csv ;;
     of_M (logger_info [Text "LULC attribute table saved to "; Text output_csv]) ;;
     io_ret output_csv)
    (fun e =>
       of_M (logger_error [Text "Error creating LULC attribute table: "; Exc e]) ;;
       io_raise e).

Definition create_carbon_pool_table (lulc_classes_csv output_csv : string)
  (carbon_values : option (list (Z * list (string * cell)))) : IO string :=
  of_M (logger_info [Text "Creating carbon pool table from "; Text lulc_classes_csv]) ;;
  io_try
    (lulc_df <- io_lift (read_csv w lulc_classes_csv) ;;
     lucode <- io_lift (column_get lulc_df "value") ;;
     lulc_name <- io_lift (column_get lulc_df "class_name") ;;
     let carbon_df : DataFrame :=
       [("lucode"%string, lucode); ("lulc_name"%string, lulc_name)] in
     carbon_df <-
       match carbon_values with
       | Some ((_ :: _) as d) => io_ret (fill_pools d lucode carbon_df)
       | _ =>
           ps <- io_lift (default_rows lulc_name) ;;
           io_ret (carbon_df ++
                   [("c_above"%string, map (fun p => IntCell (fst (fst (fst p)))) ps);
                    ("c_below"%string, map (fun p => IntCell (snd (fst (fst p)))) ps);
                    ("c_soil"%string, map (fun p => IntCell (snd (fst p))) ps);
                    ("c_dead"%string, map (fun p => IntCell (snd p)) ps)])
       end ;;
     io_stmt (makedirs_exist_ok sh (dirname output_csv)) ;;
     to_csv carbon_df output_csv ;;
     of_M (logger_info [Text "Carbon pool table saved to "; Text output_csv]) ;;
     io_ret output_csv)
    (fun e =>
       of_M (logger_error [Text "Error creating carbon pool table: "; Exc e]) ;;
       io_raise e).

(** [shutil.copy2(src, dst)] and [results[key] = dst], behind the local
    name [shutil]. *)
Definition copy_result (bound : bool) (key src dst : string)
  (results : list (string * string)) : IO (list (string * string)) :=
  local_name "shutil" bound ;;
  io_stmt (copy2 sh src dst) ;;
  save_copy src dst ;;
  io_ret (results ++ [(key, dst)]).

(** The two rasters of a model: the first is copied under an
    [import shutil] of its own branch, the second uses the name as it
    finds it. *)
Definition copy_pair (invest_workspace output_dir : string)
  (first_in first_key first_out second_in second_key second_out : string)
  : IO (list (string * string)) :=
  let first_path := path_join invest_workspace first_in in
  let output_first_path := path_join output_dir first_out in
  r <- (if path_exists w first_path
        then (res <- copy_result true first_key first_path output_first_path [] ;;
              io_ret (true, res))
        else io_ret (false, [])) ;;
  let second_path := path_join invest_workspace second_in in
  if path_exists w second_path
  then copy_result (fst r) second_key second_path
         (path_join output_dir second_out) (snd r)
  else io_ret (snd r).

Definition has_key (key : string) (results : list (string * string)) : bool :=
  existsb (fun kv => String.eqb (fst kv) key) results.

Definition get_key (key : string) (results : list (string * string)) : string :=
  match find (fun kv => String.eqb (fst kv) key) results with
  | Some kv => snd kv
  | None => EmptyString
  end.

Definition extract_invest_results (invest_workspace output_dir model_name : string)
  : IO (list (string * string)) :=
  of_M (logger_info [Text "Extracting results for "; Text model_name;
                     Text " model from "; Text invest_workspace]) ;;
  io_try
    (io_stmt (makedirs_exist_ok sh output_dir) ;;
     results <-
       (if String.eqb model_name "carbon" then
          results <- copy_pair invest_workspace output_dir
                       "total_carbon.tif" "total_carbon" "total_carbon.tif"
                       "net_present_value.tif" "npv" "net_present_value.tif" ;;
          if has_key "total_carbon" results then
            src <- io_lift (open_carbon w (get_key "total_carbon" results)) ;;
            let carbon_data := ds_band1 src in
            let valid_data := positive carbon_data in
            mn <- of_M (np_min valid_data) ;;
            mx <- of_M (np_max valid_data) ;;
            let summary :=
              [("mean_carbon"%string, np_mean np_sum valid_data);
               ("total_carbon"%string, np_sum valid_data);
               ("min_carbon"%string, mn);
               ("max_carbon"%string, mx);
               ("std_carbon"%string, np_std np_sum valid_data)] in
            let summary_path := path_join output_dir "carbon_summary.json" in
            json_dump summary summary_path ;;
            io_ret (results ++ [("summary"%string, summary_path)])
          else io_ret results
        else if String.eqb model_name "habitat_quality" then
          copy_pair invest_workspace output_dir
            "quality.tif" "habitat_quality" "habitat_quality.tif"
            "degradation.tif" "degradation" "habitat_degradation.tif"
        else if String.eqb model_name "sdr" then
          copy_pair invest_workspace output_dir
            "sed_export.tif" "sediment_export" "sediment_export.tif"
            "sed_retention.tif" "sediment_retention" "sediment_retention.tif"
        else io_ret []) ;;
     of_M (logger_info [Text "Extracted "; Int (Z.of_nat (List.length results));
                        Text " results for "; Text model_name; Text " model"]) ;;
     io_ret results)
    (fun e =>
       of_M (logger_error [Text "Error extracting InVEST results: "; Exc e]) ;;
       io_raise e).

End WithLibraries.

End Tables.

Import Tables.

(* ================================================================== *)
(** ** src/data/download.py and the whole preparation *)

Module Pipeline.
Local Open Scope io_scope.

(** [s.endswith(suffix)] *)
Fixpoint ends_with (suffix s : string) : bool :=
  String.eqb s suffix ||
  match s with
  | EmptyString => false
  | String _ r => ends_with suffix r
  end.

(** The truth value of a path that may be [None]. *)
Definition truthy (p : option string) : bool :=
  match p with
  | Some (String _ _) => true
  | _ => false
  end.

(** The dictionary [prepare_all_data] returns. *)
Record Prepared : Type := {
  papua_boundary : string;
  papua_lulc : option string;
  lulc_classes : option string;
  carbon_pools : option string;
  papua_mining : option string;
  restoration_scenario : option string;
  scenario_carbon_pools : option string
}.

(** [column.str.contains('forest', case=False)] as a mask: a column of
    strings gives a mask, a column with no string at all has no [.str],
    and a mixed one gives NaN where the cell is no string, which cannot
    be a mask. *)
Definition is_str (c : cell) : bool :=
  match c with
  | StrCell _ => true
  | _ => false
  end.

Definition forest_mask (names : list cell) : result (list bool) :=
  if forallb is_str names
  then inr (map (fun c => match c with
                          | StrCell s => contains "forest" (lower s)
                          | _ => false
                          end) names)
  else if existsb is_str names
  then inl (ValueError "Cannot mask with non-boolean array containing NA / NaN values")
  else inl (LibraryError "AttributeError" "Can only use .str accessor with string values!").

(** The first cell of the rows the mask keeps. *)
Fixpoint first_kept (mask : list bool) (cells : list cell) : option cell :=
  match mask, cells with
  | true :: _, c :: _ => Some c
  | false :: mask', _ :: cells' => first_kept mask' cells'
  | _, _ => None
  end.

Section WithLibraries.
Variable Geo : Type.

(** What geopandas, rasterio and the operating system answer here:
    - [listdir]: [os.listdir];
    - [import_download]: [from download import clip_raster_to_region];
    - [read_file], [to_file], [overlay]: [gpd.read_file], [gdf.to_file]
      and [gpd.overlay(a, b, how='intersection')];
    - [to_crs]: [gdf.to_crs(crs)];
    - [buffer]: the copy of the frame with its geometries buffered by 1000;
    - [clip]: [rasterio.mask.mask(src, geoms, crop=True)], the band and
      the transform of the window;
    - [default_transform]: [calculate_default_transform], a transform, a
      width and a height;
    - [warp]: [reproject] of the band into the open output file;
    - [footprint]: the frame as a change area of the class raster;
    - [class_code]: what numpy makes of a value of the table that is no
      integer when it is assigned to the class raster. *)
Record Gis : Type := {
  listdir : string -> result (list string);
  import_download : option exn;
  read_file : string -> result Geo;
  to_file : Geo -> string -> option exn;
  overlay : Geo -> Geo -> result Geo;
  to_crs : Geo -> string -> result Geo;
  buffer : Geo -> result Geo;
  clip : dataset Z -> Geo -> result (list (list Z) * list float);
  default_transform : dataset Z -> string -> result (list float * nat * nat);
  warp : dataset Z -> string -> result (list (list Z));
  footprint : Geo -> Area;
  class_code : cell -> result Z
}.

Variable w : World.
Variable sh : Shell.
Variable g : Gis.

(** The rasters of the model have one band: the loop over the bands is
    one call of [reproject]. The output file is opened, and so made or
    emptied, while the input is still open and before any band is
    reprojected. *)
Definition reproject_raster (input_path output_path dst_crs : string) : M string :=
  (logger_info [Text "Reprojecting raster "; Text input_path; Text " to "; Text dst_crs] ;;
   try_except
     (src <- lift (open_lulc w input_path) ;;
      twh <- lift (default_transform g src dst_crs) ;;
      let meta :=
        {| driver := driver (ds_meta src); dtype := dtype (ds_meta src);
           nodata := nodata (ds_meta src);
           width := snd (fst twh); height := snd twh; count := count (ds_meta src);
           crs := dst_crs; transform := fst (fst twh);
           compress := compress (ds_meta src) |} in
      run_stmt (open_for_write w output_path) ;;
      create_raster output_path ;;
      band <- lift (warp g src dst_crs) ;;
      run_stmt (write_band w output_path) ;;
      write_raster output_path meta band ;;
      logger_info [Text "Raster reprojected and saved to "; Text output_path] ;;
      ret output_path)
     (fun e =>
        logger_error [Text "Error reprojecting raster: "; Exc e] ;;
        raise e))%py.

(** Whether a reprojection gets as far as opening its output for
    writing, which empties it: the input has to be read and the new grid
    computed first. *)
Definition output_emptied (input_path output_path dst_crs : string) : bool :=
  match open_lulc w input_path with
  | inl _ => false
  | inr src =>
      match default_transform g src dst_crs with
      | inl _ => false
      | inr _ =>
          match open_for_write w output_path with
          | Some _ => false
          | None => true
          end
      end
  end.

Definition clip_raster_to_region (raster_path : string) (region_boundary : Geo)
  (output_path : string) (reproject_to : option string) : M string :=
  (logger_info [Text "Clipping raster "; Text raster_path; Text " to region boundary"] ;;
   try_except
     (src <- lift (open_lulc w raster_path) ;;
      region_gdf <- lift (to_crs g region_boundary (crs (ds_meta src))) ;;
      out <- lift (clip g src region_gdf) ;;
      let out_image := fst out in
      let out_meta :=
        {| driver := "GTiff"; dtype := dtype (ds_meta src);
           nodata := nodata (ds_meta src);
           width := snd (shape out_image); height := fst (shape out_image);
           count := count (ds_meta src);
           crs := crs (ds_meta src); transform := snd out;
           compress := compress (ds_meta src) |} in
      rasterio_write w output_path out_meta out_image ;;
      match reproject_to with
      | Some (String _ _ as dst_crs) => reproject_raster output_path output_path dst_crs
      | _ => ret output_path
      end ;;
      logger_info [Text "Raster clipped and saved to "; Text output_path] ;;
      ret output_path)
     (fun e =>
        logger_error [Text "Error clipping raster: "; Exc e] ;;
        raise e))%py.

(** The class the restoration scenario plants: the value of the first
    class whose name holds "forest", as the row of the table holds it (a
    numpy integer for a column of integers), or the placeholder 1, a
    Python int. *)
Definition forest_value (lulc_classes_path : string) : IO scalar :=
  if path_exists w lulc_classes_path then
    lulc_classes <- io_lift (read_csv w lulc_classes_path) ;;
    names <- io_lift (column_get lulc_classes "class_name") ;;
    mask <- io_lift (forest_mask names) ;;
    match filter (fun b : bool => b) mask with
    | _ :: _ =>
        values <- io_lift (column_get lulc_classes "value") ;;
        match first_kept mask values with
        | Some (IntCell z) => io_ret (NpInt z)
        | Some (FloatCell x) => io_ret (Other (Num x) (class_code g (FloatCell x)))
        | Some (StrCell t) => io_ret (Other (Text t) (class_code g (StrCell t)))
        | None => io_raise (LibraryError "IndexError" "single positional indexer is out-of-bounds")
        end
    | [] => io_ret (PyInt 1)
    end
  else io_ret (PyInt 1).

Definition prepare_all_data (raw_data_dir processed_data_dir invest_input_dir : string)
  : IO Prepared :=
  of_M (logger_info [Text "Preparing all data for natural capital assessment..."]) ;;
  io_stmt (makedirs_exist_ok sh processed_data_dir) ;;
  io_stmt (makedirs_exist_ok sh invest_input_dir) ;;
  let papua_path := path_join processed_data_dir "admin_boundaries/papua_boundary.shp" in
  let lulc_dir := path_join raw_data_dir "landcover" in
  names <- io_lift (listdir g lulc_dir) ;;
  let lulc_files := filter (ends_with ".tif") names in
  lulc <-
    match lulc_files with
    | first :: _ =>
        let lulc_path := path_join lulc_dir first in
        lulc_path <-
          (if path_exists w papua_path then
             papua_gdf <- io_lift (read_file g papua_path) ;;
             let papua_lulc_path := path_join processed_data_dir "lulc/papua_lulc.tif" in
             io_stmt (makedirs_exist_ok sh (dirname papua_lulc_path)) ;;
             io_stmt (import_download g) ;;
             of_M (clip_raster_to_region lulc_path papua_gdf papua_lulc_path None) ;;
             io_ret papua_lulc_path
           else io_ret lulc_path) ;;
        let lulc_classes_path := path_join processed_data_dir "lulc/lulc_classes.csv" in
        create_lulc_attribute_table w sh lulc_path lulc_classes_path None ;;
        let carbon_pools_path := path_join invest_input_dir "carbon_pools.csv" in
        create_carbon_pool_table w sh lulc_classes_path carbon_pools_path None ;;
        io_ret (Some lulc_path, Some lulc_classes_path, Some carbon_pools_path)
    | [] =>
        of_M (logger_warning [Text "No LULC files found in the landcover directory"]) ;;
        io_ret (None, None, None)
    end ;;
  let lulc_path := fst (fst lulc) in
  let lulc_classes_path := snd (fst lulc) in
  let carbon_pools_path := snd lulc in
  let mining_dir := path_join raw_data_dir "mining" in
  names <- io_lift (listdir g mining_dir) ;;
  let mining_files := filter (ends_with ".shp") names in
  mining_path <-
    match mining_files with
    | first :: _ =>
        let mining_path := path_join mining_dir first in
        if path_exists w papua_path then
          papua_gdf <- io_lift (read_file g papua_path) ;;
          let papua_mining_path := path_join processed_data_dir "mining/papua_mining.shp" in
          io_stmt (makedirs_exist_ok sh (dirname papua_mining_path)) ;;
          mining_gdf <- io_lift (read_file g mining_path) ;;
          mining_in_wp <- io_lift (overlay g mining_gdf papua_gdf) ;;
          io_stmt (to_file g mining_in_wp papua_mining_path) ;;
          io_ret (Some papua_mining_path)
        else io_ret (Some mining_path)
    | [] =>
        of_M (logger_warning [Text "No mining files found in the mining directory"]) ;;
        io_ret None
    end ;;
  scenario <-
    (if truthy lulc_path && truthy mining_path then
       match lulc_path, mining_path, lulc_classes_path with
       | Some lulc_path, Some mining_path, Some lulc_classes_path =>
           let scenario_dir := path_join processed_data_dir "scenarios" in
           io_stmt (makedirs_exist_ok sh scenario_dir) ;;
           let restoration_lulc_path := path_join scenario_dir "restoration_scenario.tif" in
           mining_gdf <- io_lift (read_file g mining_path) ;;
           mining_buffer <- io_lift (buffer g mining_gdf) ;;
           value <- forest_value lulc_classes_path ;;
           of_M (create_scenario_lulc w lulc_path restoration_lulc_path
                   [footprint g mining_buffer] [value]) ;;
           let scenario_carbon_pools_path :=
             path_join invest_input_dir "scenario_carbon_pools.csv" in
           create_carbon_pool_table w sh lulc_classes_path scenario_carbon_pools_path None ;;
           io_ret (Some restoration_lulc_path, Some scenario_carbon_pools_path)
       | _, _, _ => io_ret (None, None)
       end
     else
       of_M (logger_warning
               [Text "Cannot create restoration scenario without LULC and mining data"]) ;;
       io_ret (None, None)) ;;
  io_ret {| papua_boundary := papua_path;
            papua_lulc := lulc_path;
            lulc_classes := lulc_classes_path;
            carbon_pools := carbon_pools_path;
            papua_mining := mining_path;
            restoration_scenario := fst scenario;
            scenario_carbon_pools := snd scenario |}.

End WithLibraries.

Arguments listdir {Geo} _ _.
Arguments import_download {Geo} _.
Arguments read_file {Geo} _ _.
Arguments to_file {Geo} _ _ _.
Arguments overlay {Geo} _ _ _.
Arguments to_crs {Geo} _ _ _.
Arguments buffer {Geo} _ _.
Arguments clip {Geo} _ _ _.
Arguments default_transform {Geo} _ _ _.
Arguments warp {Geo} _ _ _.
Arguments footprint {Geo} _ _.
Arguments class_code {Geo} _ _.
Arguments reproject_raster {Geo} _ _ _ _ _.
Arguments output_emptied {Geo} _ _ _ _ _.
Arguments clip_raster_to_region {Geo} _ _ _ _ _ _.
Arguments forest_value {Geo} _ _ _.
Arguments prepare_all_data {Geo} _ _ _ _ _ _.

End Pipeline.

Import Pipeline.

(* ================================================================== *)
(** ** Sample inputs *)

Module Samples.
Local Open Scope float_scope.

(** The metadata of a single-band GeoTIFF of [h] rows and [w] columns. *)
Definition sample_meta (dt : string) (nd : option Z) (h w : nat) : metadata :=
  {| driver := "GTiff"; dtype := dt; nodata := nd;
     width := w; height := h; count := 1;
     crs := "EPSG:32754"; transform := [30; 0; 0; 0; -30; 0];
     compress := None |}.

(** A world with no file in it and libraries that fail on every call. *)
Definition no_files : World :=
  {| path_exists := fun _ => false;
     makedirs := fun _ => None;
     open_lulc := fun p => inl (LibraryError "RasterioIOError" p);
     open_carbon := fun p => inl (LibraryError "RasterioIOError" p);
     read_csv := fun p => inl (LibraryError "EmptyDataError" p);
     read_reclass_csv := fun p => inl (LibraryError "EmptyDataError" p);
     invest_execute := fun _ => inl (LibraryError "KeyError" "lulc_cur_path");
     mask_crop := fun _ _ => inl (ValueError "Input shapes do not overlap raster.");
     open_for_write := fun _ => None;
     write_band := fun _ => None |}.

(** A 2 x 2 class raster with the codes 0, 1, 2 and 3. *)
Definition small_lulc : dataset Z :=
  {| ds_meta := sample_meta "uint8" (Some 0%Z) 2 2; ds_res := (30, 30);
     ds_band1 := [[1; 2]; [0; 3]]%Z |}.

(** A carbon pools table with every required column, for the classes 1
    and 2 only. *)
Definition pools_table : DataFrame :=
  [("lucode", [IntCell 1; IntCell 2]);
   ("lulc_name", [StrCell "primary forest"; StrCell "shrub"]);
   ("c_above", [IntCell 200; IntCell 70]);
   ("c_below", [IntCell 40; IntCell 20]);
   ("c_soil", [IntCell 100; IntCell 60]);
   ("c_dead", [IntCell 20; IntCell 5])]%string.

(** A carbon raster of one row, with pixels of 30 m by 20 m. *)
Definition oblong_carbon : dataset float :=
  {| ds_meta := sample_meta "float64" None 1 2; ds_res := (30, 20);
     ds_band1 := [[5; 0]] |}.

(** A world where every path exists and every library call succeeds: class
    rasters read as [small_lulc], carbon rasters as [oblong_carbon]. *)
Definition all_files : World :=
  {| path_exists := fun _ => true;
     makedirs := fun _ => None;
     open_lulc := fun _ => inr small_lulc;
     open_carbon := fun _ => inr oblong_carbon;
     read_csv := fun _ => inr pools_table;
     read_reclass_csv := fun _ => inr [];
     invest_execute := fun _ => inr [];
     mask_crop := fun src _ => inr (ds_band1 src);
     open_for_write := fun _ => None;
     write_band := fun _ => None |}.

(** The same world, where every reclassification CSV sends class 2 to 20
    and class 1 to 300. *)
Definition table_world : World :=
  {| path_exists := fun _ => true;
     makedirs := fun _ => None;
     open_lulc := fun _ => inr small_lulc;
     open_carbon := fun _ => inr oblong_carbon;
     read_csv := fun _ => inr pools_table;
     read_reclass_csv := fun _ => inr [(2, 20); (1, 300)]%Z;
     invest_execute := fun _ => inr [];
     mask_crop := fun src _ => inr (ds_band1 src);
     open_for_write := fun _ => None;
     write_band := fun _ => None |}.

(** A class raster of one row whose nodata value is 255. *)
Definition lulc_255 : dataset Z :=
  {| ds_meta := sample_meta "uint8" (Some 255%Z) 1 2; ds_res := (30, 30);
     ds_band1 := [[1; 2]]%Z |}.

(** The same world with [lulc_255] for its class rasters. *)
Definition world_255 : World :=
  {| path_exists := fun _ => true;
     makedirs := fun _ => None;
     open_lulc := fun _ => inr lulc_255;
     open_carbon := fun _ => inr oblong_carbon;
     read_csv := fun _ => inr pools_table;
     read_reclass_csv := fun _ => inr [];
     invest_execute := fun _ => inr [];
     mask_crop := fun src _ => inr (ds_band1 src);
     open_for_write := fun _ => None;
     write_band := fun _ => None |}.

(** A change area over the first pixel of the first row only. *)
Definition first_pixel : Footprint :=
  {| covers := fun r c => Nat.eqb r 0 && Nat.eqb c 0 |}.

(** A change area over the first row. *)
Definition first_row : Footprint := {| covers := fun r _ => Nat.eqb r 0 |}.

(** A change area over the whole raster. *)
Definition everywhere : Footprint := {| covers := fun _ _ => true |}.

(** An operating system that makes every directory, opens every file and
    copies every file it is asked to. *)
Definition writable : Shell :=
  {| makedirs_exist_ok := fun _ => None;
     open_text := fun _ => None;
     write_text := fun _ => None;
     copy2 := fun _ _ => None |}.

(** An operating system that opens every file and fails while writing
    to it. *)
Definition no_space : exn := LibraryError "OSError" "[Errno 28] No space left on device".

Definition full_disk : Shell :=
  {| makedirs_exist_ok := fun _ => None;
     open_text := fun _ => None;
     write_text := fun _ => Some no_space;
     copy2 := fun _ _ => None |}.

(** An operating system that refuses the empty path, as [os.makedirs]
    does, and grants everything else. *)
Definition posix_shell : Shell :=
  {| makedirs_exist_ok := fun p =>
       match p with
       | EmptyString =>
           Some (FileNotFoundError "[Errno 2] No such file or directory: ''")
       | _ => None
       end;
     open_text := fun _ => None;
     write_text := fun _ => None;
     copy2 := fun _ _ => None |}.

(** The world of [all_files] on a full disk: a raster file can be opened
    for writing and the writing of its band fails. *)
Definition full_disk_world : World :=
  {| path_exists := fun _ => true;
     makedirs := fun _ => None;
     open_lulc := fun _ => inr small_lulc;
     open_carbon := fun _ => inr oblong_carbon;
     read_csv := fun _ => inr pools_table;
     read_reclass_csv := fun _ => inr [];
     invest_execute := fun _ => inr [];
     mask_crop := fun src _ => inr (ds_band1 src);
     open_for_write := fun _ => None;
     write_band := fun _ => Some no_space |}.

(** The attribute table of [small_lulc] with the default names, and a
    world that reads it back from every CSV path. *)
Definition small_classes : DataFrame :=
  [("value", [IntCell 1; IntCell 2; IntCell 3]);
   ("class_name", [StrCell "Class 1"; StrCell "Class 2"; StrCell "Class 3"])]%string.

Definition classes_world : World :=
  {| path_exists := fun _ => true;
     makedirs := fun _ => None;
     open_lulc := fun _ => inr small_lulc;
     open_carbon := fun _ => inr oblong_carbon;
     read_csv := fun _ => inr small_classes;
     read_reclass_csv := fun _ => inr [];
     invest_execute := fun _ => inr [];
     mask_crop := fun src _ => inr (ds_band1 src);
     open_for_write := fun _ => None;
     write_band := fun _ => None |}.

(** The default carbon pools of these classes, and a world in which the
    classes table and the pools table made from it are both on disk. *)
Definition small_pools : DataFrame :=
  [("lucode", [IntCell 1; IntCell 2; IntCell 3]);
   ("lulc_name", [StrCell "Class 1"; StrCell "Class 2"; StrCell "Class 3"]);
   ("c_above", [IntCell 0; IntCell 0; IntCell 0]);
   ("c_below", [IntCell 0; IntCell 0; IntCell 0]);
   ("c_soil", [IntCell 0; IntCell 0; IntCell 0]);
   ("c_dead", [IntCell 0; IntCell 0; IntCell 0])]%string.

Definition tables_world (pools : DataFrame) : World :=
  {| path_exists := fun _ => true;
     makedirs := fun _ => None;
     open_lulc := fun _ => inr small_lulc;
     open_carbon := fun _ => inr oblong_carbon;
     read_csv := fun p => if String.eqb p "tables/pools.csv" then inr pools
                          else inr small_classes;
     read_reclass_csv := fun _ => inr [];
     invest_execute := fun _ => inr [];
     mask_crop := fun src _ => inr (ds_band1 src);
     open_for_write := fun _ => None;
     write_band := fun _ => None |}.

(** A workspace that holds the net present value raster only. *)
Definition npv_only : World :=
  {| path_exists := fun p => String.eqb p "ws/net_present_value.tif";
     makedirs := fun _ => None;
     open_lulc := fun _ => inr small_lulc;
     open_carbon := fun _ => inr oblong_carbon;
     read_csv := fun _ => inr small_classes;
     read_reclass_csv := fun _ => inr [];
     invest_execute := fun _ => inr [];
     mask_crop := fun src _ => inr (ds_band1 src);
     open_for_write := fun _ => None;
     write_band := fun _ => None |}.

(** A carbon raster with no strictly positive pixel, and a workspace
    that holds it as its total carbon raster and nothing else. *)
Definition barren_carbon : dataset float :=
  {| ds_meta := sample_meta "float64" None 1 2; ds_res := (30, 30);
     ds_band1 := [[0; -1]] |}.

Definition barren : World :=
  {| path_exists := fun p => String.eqb p "ws/total_carbon.tif";
     makedirs := fun _ => None;
     open_lulc := fun _ => inr small_lulc;
     open_carbon := fun _ => inr barren_carbon;
     read_csv := fun _ => inr small_classes;
     read_reclass_csv := fun _ => inr [];
     invest_execute := fun _ => inr [];
     mask_crop := fun src _ => inr (ds_band1 src);
     open_for_write := fun _ => None;
     write_band := fun _ => None |}.

(** A carbon raster of square pixels, and a world that reads it. *)
Definition square_carbon : dataset float :=
  {| ds_meta := sample_meta "float64" None 2 2; ds_res := (30, 30);
     ds_band1 := [[120.5; 0]; [80; -1]] |}.

Definition square_world : World :=
  {| path_exists := fun _ => true;
     makedirs := fun _ => None;
     open_lulc := fun _ => inr small_lulc;
     open_carbon := fun _ => inr square_carbon;
     read_csv := fun _ => inr small_classes;
     read_reclass_csv := fun _ => inr [];
     invest_execute := fun _ => inr [];
     mask_crop := fun src _ => inr (ds_band1 src);
     open_for_write := fun _ => None;
     write_band := fun _ => None |}.

(** Raw data with one land cover raster and one mining shapefile, and no
    boundary of the region among the processed data; frames are numbered. *)
Definition raw_world : World :=
  {| path_exists := fun p => negb (ends_with "papua_boundary.shp" p);
     makedirs := fun _ => None;
     open_lulc := fun _ => inr small_lulc;
     open_carbon := fun _ => inr oblong_carbon;
     read_csv := fun _ => inr small_classes;
     read_reclass_csv := fun _ => inr [];
     invest_execute := fun _ => inr [];
     mask_crop := fun src _ => inr (ds_band1 src);
     open_for_write := fun _ => None;
     write_band := fun _ => None |}.

Definition raw_gis : Gis nat :=
  {| listdir := fun p =>
       if ends_with "landcover" p then inr ["notes.txt"; "cover.tif"]%string
       else inr ["leases.shp"]%string;
     import_download := None;
     read_file := fun _ => inr 0%nat;
     to_file := fun _ _ => None;
     overlay := fun a _ => inr a;
     to_crs := fun a _ => inr a;
     buffer := fun a => inr (S a);
     clip := fun src _ => inr (ds_band1 src, transform (ds_meta src));
     default_transform := fun src _ =>
       inr (transform (ds_meta src), width (ds_meta src), height (ds_meta src));
     warp := fun src _ => inr (ds_band1 src);
     footprint := fun _ => Shapes first_row;
     class_code := fun c => match c with
                            | IntCell z => inr z
                            | _ => inl (ValueError "invalid literal for int()")
                            end |}.

(** The same raw data without any land cover raster. *)
Definition no_cover_gis : Gis nat :=
  {| listdir := fun p =>
       if ends_with "landcover" p then inr ["notes.txt"]%string
       else inr ["leases.shp"]%string;
     import_download := None;
     read_file := fun _ => inr 0%nat;
     to_file := fun _ _ => None;
     overlay := fun a _ => inr a;
     to_crs := fun a _ => inr a;
     buffer := fun a => inr (S a);
     clip := fun src _ => inr (ds_band1 src, transform (ds_meta src));
     default_transform := fun src _ =>
       inr (transform (ds_meta src), width (ds_meta src), height (ds_meta src));
     warp := fun src _ => inr (ds_band1 src);
     footprint := fun _ => Shapes first_pixel;
     class_code := fun c => match c with
                            | IntCell z => inr z
                            | _ => inl (ValueError "invalid literal for int()")
                            end |}.

(** Raw data whose directories list as [ls] and whose target reference
    system is judged by [dt]. *)
Definition gis_with (ls : string -> result (list string))
  (dt : dataset Z -> string -> result (list float * nat * nat)) : Gis nat :=
  {| listdir := ls;
     import_download := None;
     read_file := fun _ => inr 0%nat;
     to_file := fun _ _ => None;
     overlay := fun a _ => inr a;
     to_crs := fun a _ => inr a;
     buffer := fun a => inr (S a);
     clip := fun src _ => inr (ds_band1 src, transform (ds_meta src));
     default_transform := dt;
     warp := fun src _ => inr (ds_band1 src);
     footprint := fun _ => Shapes first_pixel;
     class_code := fun c => match c with
                            | IntCell z => inr z
                            | _ => inl (ValueError "invalid literal for int()")
                            end |}.

Definition no_such_directory : exn :=
  FileNotFoundError "[Errno 2] No such file or directory".

(** No raw directory at all. *)
Definition no_raw_gis : Gis nat :=
  gis_with (fun _ => inl no_such_directory) (default_transform raw_gis).

(** Land cover but no mining directory. *)
Definition no_mining_gis : Gis nat :=
  gis_with (fun p => if ends_with "landcover" p then inr ["cover.tif"]%string
                     else inl no_such_directory)
           (default_transform raw_gis).

(** A target reference system the projection library rejects. *)
Definition bad_crs : exn := LibraryError "CRSError" "Invalid projection".

Definition bad_crs_gis : Gis nat :=
  gis_with (listdir raw_gis) (fun _ _ => inl bad_crs).

(** A reprojection library that fails on the band itself. *)
Definition bad_warp : exn := LibraryError "CPLE_AppDefinedError" "Too many points failed to transform".

Definition bad_warp_gis : Gis nat :=
  {| listdir := listdir raw_gis;
     import_download := None;
     read_file := fun _ => inr 0%nat;
     to_file := fun _ _ => None;
     overlay := fun a _ => inr a;
     to_crs := fun a _ => inr a;
     buffer := fun a => inr (S a);
     clip := fun src _ => inr (ds_band1 src, transform (ds_meta src));
     default_transform := default_transform raw_gis;
     warp := fun _ _ => inl bad_warp;
     footprint := fun _ => Shapes first_pixel;
     class_code := class_code raw_gis |}.

End Samples.

Import Samples.

(* ================================================================== *)
(** ** Binary64 comparisons against zero *)

Section FloatFacts.
Local Open Scope float_scope.

Lemma positive_is_nonzero (r : float) : (0 <? r) = true -> (r =? 0) = false.
Proof.
  rewrite FloatAxioms.ltb_spec, FloatAxioms.eqb_spec.
  change (Prim2SF 0) with (S754_zero false).
  destruct (Prim2SF r) as [s|s| |s m e]; try destruct s; cbv; congruence.
Qed.

Lemma nonpositive_is_not_positive (r : float) : (r <=? 0) = true -> (0 <? r) = false.
Proof.
  rewrite FloatAxioms.ltb_spec, FloatAxioms.leb_spec.
  change (Prim2SF 0) with (S754_zero false).
  destruct (Prim2SF r) as [s|s| |s m e]; try destruct s; cbv; congruence.
Qed.

Lemma float_neq_by_eqb (x y : float) : (x =? y) = false -> (x =? x) = true -> x <> y.
Proof. intros Hxy Hxx E. rewrite <- E in Hxy. congruence. Qed.

End FloatFacts.

(* ================================================================== *)
(** ** Valuation: [calculate_carbon_value] and [compare_scenarios] *)

Section Valuation.
Local Open Scope float_scope.
Variable np_sum : list float -> float.

(** Running the monadic code: unfold the combinators and compute. *)
Ltac run :=
  cbv beta iota zeta delta
    [calculate_carbon_value compare_scenarios bind ret raise lift emit
     logger_info logger_warning logger_error try_except truediv truediv_int
     fst snd mean_of co2_factor].

(** C1. On a scalar carbon density and a discount rate above zero the
    result is the fixed chain: times the area, times 3.67, times the
    price, and one division by the rate. *)
Theorem calculate_carbon_value_scalar_chain :
  forall (c a p r : float) (st : state),
    (0 <? r) = true ->
    exists st',
      calculate_carbon_value np_sum (Scalar c) a p r st =
        (inr {| mean_carbon_mgha := c;
                total_carbon_mg := c * a;
                mean_co2_mgha := c * 3.67;
                total_co2_mg := c * a * 3.67;
                value_per_ha_usd := c * 3.67 * p;
                total_value_usd := c * a * 3.67 * p;
                npv_per_ha_usd := c * 3.67 * p / r;
                npv_total_usd := c * a * 3.67 * p / r |}, st').
Proof.
  intros c a p r st Hr.
  pose proof (positive_is_nonzero r Hr) as Hz.
  run. rewrite Hr, Hz. eexists. reflexivity.
Qed.

(** C2 (as the code has it). Every field of the comparison is the stated
    chain on the two means, whatever the baseline; the percent change
    divides the difference by the baseline first and multiplies by 100
    afterwards when the baseline mean is not zero, and is infinite when
    it is. *)
Theorem compare_scenarios_deltas :
  forall (baseline scenario : carbon_input) (a p : float) (st : state),
    let b := mean_of np_sum baseline in
    let s := mean_of np_sum scenario in
    exists st',
      compare_scenarios np_sum baseline scenario a p st =
        (inr {| baseline_carbon_mgha := b;
                scenario_carbon_mgha := s;
                carbon_diff_mgha := s - b;
                carbon_diff_total_mg := (s - b) * a;
                co2_diff_mgha := (s - b) * 3.67;
                co2_diff_total_mg := (s - b) * a * 3.67;
                value_diff_per_ha_usd := (s - b) * 3.67 * p;
                value_diff_total_usd := (s - b) * a * 3.67 * p;
                percent_change := if b =? 0 then infinity else (s - b) / b * 100 |}, st').
Proof.
  intros baseline scenario a p st b s.
  unfold compare_scenarios.
  cbv beta iota zeta delta
    [bind ret raise emit logger_info truediv co2_factor].
  fold b. fold s.
  destruct (b =? 0); cbn [negb]; eexists; reflexivity.
Qed.

(** C5. Neither valuation function ever divides by zero: both return a
    dictionary on every input, the net present values are infinite for
    every discount rate that is not above zero, and the percent change is
    infinite for a zero baseline. *)
Theorem valuation_never_divides_by_zero :
  forall (carbon baseline scenario : carbon_input) (a p r : float) (st : state),
    (exists d st',
       calculate_carbon_value np_sum carbon a p r st = (inr d, st') /\
       ((r <=? 0) = true ->
        npv_per_ha_usd d = infinity /\ npv_total_usd d = infinity) /\
       ((0 <? r) = false ->
        npv_per_ha_usd d = infinity /\ npv_total_usd d = infinity)) /\
    (exists d st',
       compare_scenarios np_sum baseline scenario a p st = (inr d, st') /\
       ((mean_of np_sum baseline =? 0) = true -> percent_change d = infinity)).
Proof.
  intros carbon baseline scenario a p r st. split.
  - unfold calculate_carbon_value.
    destruct carbon as [c | x]; [| destruct (len_array x) as [| n]];
      cbv beta iota zeta delta
        [bind ret raise emit logger_info co2_factor truediv_int Nat.ltb Nat.leb].
    all: destruct (0 <? r) eqn:Hr.
    all: try (pose proof (positive_is_nonzero r Hr) as Hz;
              unfold truediv; rewrite Hz;
              eexists; eexists; split; [reflexivity |];
              split; intros Hle;
              [rewrite (nonpositive_is_not_positive r Hle) in Hr |]; discriminate).
    all: eexists; eexists; split; [reflexivity |];
      split; intros _; split; reflexivity.
  - unfold compare_scenarios.
    cbv beta iota zeta delta [bind ret raise emit logger_info truediv co2_factor].
    destruct (mean_of np_sum baseline =? 0) eqn:Hb; cbn [negb].
    + eexists. eexists. split; [reflexivity |]. intros _. reflexivity.
    + eexists. eexists. split; [reflexivity |]. intros H; discriminate.
Qed.


End Valuation.

Lemma calculate_carbon_value_scalar_chain_witness :
  (0 <? 0.04)%float = true /\
  exists st',
    calculate_carbon_value seq_sum (Scalar 150) 1000 40 0.04 empty_state =
      (inr {| mean_carbon_mgha := 150;
              total_carbon_mg := 150 * 1000;
              mean_co2_mgha := 150 * 3.67;
              total_co2_mg := 150 * 1000 * 3.67;
              value_per_ha_usd := 150 * 3.67 * 40;
              total_value_usd := 150 * 1000 * 3.67 * 40;
              npv_per_ha_usd := 150 * 3.67 * 40 / 0.04;
              npv_total_usd := 150 * 1000 * 3.67 * 40 / 0.04 |}%float, st').
Proof.
  split; [reflexivity |].
  apply (calculate_carbon_value_scalar_chain seq_sum 150 1000 40 0.04 empty_state)%float.
  reflexivity.
Defined.

(** The percent change returned is not the binary64 number
    [100 * (s - b) / b]: a baseline of 3 and a scenario of 4 give
    33.33333333333333, and that formula 33.333333333333336. *)
Lemma compare_scenarios_percent_change_order :
  (3 =? 0)%float = false /\
  exists d st',
    compare_scenarios seq_sum (Scalar 3) (Scalar 4) 1 40 empty_state = (inr d, st') /\
    percent_change d <> (100 * (4 - 3) / 3)%float.
Proof.
  split; [reflexivity |].
  eexists. eexists. split; [lazy; reflexivity |].
  cbn [percent_change].
  apply float_neq_by_eqb; vm_compute; reflexivity.
Qed.

Lemma compare_scenarios_deltas_witness :
  exists st',
    compare_scenarios seq_sum (Scalar 3) (Scalar 4) 1 40 empty_state =
      (inr {| baseline_carbon_mgha := 3;
              scenario_carbon_mgha := 4;
              carbon_diff_mgha := 4 - 3;
              carbon_diff_total_mg := (4 - 3) * 1;
              co2_diff_mgha := (4 - 3) * 3.67;
              co2_diff_total_mg := (4 - 3) * 1 * 3.67;
              value_diff_per_ha_usd := (4 - 3) * 3.67 * 40;
              value_diff_total_usd := (4 - 3) * 1 * 3.67 * 40;
              percent_change := (4 - 3) / 3 * 100 |}%float, st').
Proof.
  apply (compare_scenarios_deltas seq_sum (Scalar 3) (Scalar 4) 1 40 empty_state)%float.
Defined.

Lemma valuation_never_divides_by_zero_witness :
  exists d st',
    calculate_carbon_value seq_sum (Scalar 150) 1000 40 (-0.05) empty_state = (inr d, st') /\
    npv_per_ha_usd d = infinity /\ npv_total_usd d = infinity.
Proof.
  destruct (valuation_never_divides_by_zero seq_sum
              (Scalar 150) (Scalar 0) (Scalar 1) 1000 40 (-0.05) empty_state)%float
    as [(d & st' & Hrun & Hle & _) _].
  exists d, st'. split; [exact Hrun |].
  apply Hle. reflexivity.
Defined.



(** A two-dimensional array: [len] counts its rows where the mean counts
    its items, so the array [[1, 2], [3, 4]] over 10 ha has a total of
    50 Mg on the array branch and of 25 Mg at its mean 2.5. *)
Lemma two_dimensional_total :
  exists da ds sa ss,
    calculate_carbon_value seq_sum (NdArray (Array2 [[1; 2]; [3; 4]]%float))
      10 40 0.04 empty_state = (inr da, sa)
    /\ calculate_carbon_value seq_sum
         (Scalar (np_mean seq_sum (flat (Array2 [[1; 2]; [3; 4]]%float))))
         10 40 0.04 empty_state = (inr ds, ss)
    /\ mean_carbon_mgha da = 2.5%float
    /\ total_carbon_mg da = 50%float
    /\ total_carbon_mg ds = 25%float.
Proof.
  do 4 eexists. split; [lazy; reflexivity |]. split; [lazy; reflexivity |].
  repeat split; reflexivity.
Qed.

(* ================================================================== *)
(** ** Failures in the carbon module *)

Section CarbonFailures.
Variable np_sum : list float -> float.
Variable w : World.

(** A handler that logs and re-raises recovers nothing: the block ends as
    its body does. *)
Lemma try_except_reraise {A} (body : M A) (msg : exn -> list fragment) (st : state) :
  fst (try_except body (fun e => bind (logger_error (msg e)) (fun _ => raise e)) st)
  = fst (body st).
Proof.
  unfold try_except, bind, logger_error, emit, raise.
  destruct (body st) as [[e | a] st']; reflexivity.
Qed.

Section Prepare.
Variables lulc csv out : string.

Ltac run_prepare :=
  unfold prepare_carbon_inputs;
  cbv beta iota zeta delta
    [bind ret raise lift emit logger_info logger_warning logger_error
     try_except run_stmt].

(** C6 (as the code has it). [prepare_carbon_inputs] ends in one of seven
    ways. A missing input path raises [FileNotFoundError] before anything
    is logged about it; a failure of [os.makedirs] also goes unlogged; a
    failure of the raster read or of the table read, and the [ValueError]
    for missing columns, are logged at error level and raised as they are;
    classes without carbon data cost a warning and the arguments are
    returned. A [FileNotFoundError] on existing paths can only be one a
    library raised. In [run_carbon_model] a failure of the model is logged
    and raised as it is, and a missing output raster raises
    [FileNotFoundError] unlogged; in [extract_carbon_for_region] a failure
    of the raster read or of the masking is logged and raised as it is. A
    handler that logs and re-raises never turns a failure into a result. *)
Theorem carbon_module_failures :
  forall st : state,
    (path_exists w lulc = false ->
     prepare_carbon_inputs w lulc csv out st =
       (inl (FileNotFoundError ("LULC file not found: " ++ lulc)),
        {| log := log st ++ [preparing]; written := written st; unfinished := unfinished st |}))
    /\ (path_exists w lulc = true -> path_exists w csv = false ->
        prepare_carbon_inputs w lulc csv out st =
          (inl (FileNotFoundError ("Carbon pools file not found: " ++ csv)),
           {| log := log st ++ [preparing]; written := written st; unfinished := unfinished st |}))
    /\ (forall e,
        path_exists w lulc = true -> path_exists w csv = true ->
        path_exists w out = false -> makedirs w out = Some e ->
        prepare_carbon_inputs w lulc csv out st =
          (inl e,
           {| log := log st ++ [preparing]; written := written st;
              unfinished := unfinished st |}))
    /\ (forall e,
        path_exists w lulc = true -> path_exists w csv = true ->
        output_dir_ready w out -> open_lulc w lulc = inl e ->
        prepare_carbon_inputs w lulc csv out st =
          (inl e,
           {| log := (log st ++ [preparing]) ++ [failed "Error reading LULC raster: " e];
              written := written st; unfinished := unfinished st |}))
    /\ (forall src e,
        path_exists w lulc = true -> path_exists w csv = true ->
        output_dir_ready w out -> open_lulc w lulc = inr src -> read_csv w csv = inl e ->
        prepare_carbon_inputs w lulc csv out st =
          (inl e,
           {| log := ((log st ++ [preparing]) ++ [raster_loaded src])
                     ++ [failed "Error reading carbon pools CSV: " e];
              written := written st; unfinished := unfinished st |}))
    /\ (forall src df,
        path_exists w lulc = true -> path_exists w csv = true ->
        output_dir_ready w out -> open_lulc w lulc = inr src -> read_csv w csv = inr df ->
        missing_cols df <> [] ->
        let e := ValueError ("Carbon pools CSV missing required columns: "
                             ++ repr_list (missing_cols df)) in
        prepare_carbon_inputs w lulc csv out st =
          (inl e,
           {| log := ((log st ++ [preparing]) ++ [raster_loaded src])
                     ++ [failed "Error reading carbon pools CSV: " e];
              written := written st; unfinished := unfinished st |}))
    /\ (forall src df,
        path_exists w lulc = true -> path_exists w csv = true ->
        output_dir_ready w out -> open_lulc w lulc = inr src -> read_csv w csv = inr df ->
        missing_cols df = [] ->
        exists st',
          prepare_carbon_inputs w lulc csv out st =
            (inr {| lulc_cur_path := lulc; carbon_pools_path := csv;
                    workspace_dir := out |}, st')
          /\ log st' = log st ++ [preparing; raster_loaded src]
                       ++ classes_missing src df ++ [pools_loaded df]
          /\ written st' = written st)
    /\ (forall msg st',
        prepare_carbon_inputs w lulc csv out st = (inl (FileNotFoundError msg), st') ->
        path_exists w lulc = false \/ path_exists w csv = false
        \/ makedirs w out = Some (FileNotFoundError msg)
        \/ open_lulc w lulc = inl (FileNotFoundError msg)
        \/ read_csv w csv = inl (FileNotFoundError msg))
    /\ (forall args e,
        invest_execute w args = inl e ->
        run_carbon_model np_sum w args st =
          (inl e,
           {| log := (log st ++ [running]) ++ [failed "Error executing carbon model: " e];
              written := written st; unfinished := unfinished st |}))
    /\ (forall args r,
        invest_execute w args = inr r ->
        path_exists w (path_join (workspace_dir args) "total_carbon.tif") = false ->
        run_carbon_model np_sum w args st =
          (inl (FileNotFoundError
                  ("Total carbon output not found: "
                   ++ path_join (workspace_dir args) "total_carbon.tif")),
           {| log := ((log st ++ [running]) ++ [completed]) ++ [summarizing];
              written := written st; unfinished := unfinished st |}))
    /\ (forall path region label e,
        region_label region = inr label ->
        (open_carbon w path = inl e
         \/ exists src, open_carbon w path = inr src /\ mask_crop w src region = inl e) ->
        extract_carbon_for_region np_sum w path region st =
          (inl e,
           {| log := (log st ++ [extracting label])
                     ++ [failed "Error extracting carbon values for region: " e];
              written := written st; unfinished := unfinished st |}))
    /\ (forall (A : Type) (body : M A) (msg : exn -> list fragment),
        fst (try_except body
               (fun e => bind (logger_error (msg e)) (fun _ => raise e)) st)
        = fst (body st)).
Proof.
  intros st. unfold output_dir_ready.
  split; [| split; [| split; [| split; [| split; [| split; [| split; [| split;
    [| split; [| split; [| split]]]]]]]]]].
  - intros H1. run_prepare. rewrite H1. reflexivity.
  - intros H1 H2. run_prepare. rewrite H1, H2. reflexivity.
  - intros e H1 H2 H3 H4. run_prepare. rewrite H1, H2, H3, H4. reflexivity.
  - intros e H1 H2 H3 H4. run_prepare. rewrite H1, H2, H4.
    destruct H3 as [H3 | H3]; [rewrite H3; reflexivity |].
    destruct (path_exists w out); rewrite ?H3; reflexivity.
  - intros src e H1 H2 H3 H4 H5. run_prepare. rewrite H1, H2, H4, H5.
    destruct H3 as [H3 | H3]; [rewrite H3; reflexivity |].
    destruct (path_exists w out); rewrite ?H3; reflexivity.
  - intros src df H1 H2 H3 H4 H5 H6. run_prepare. rewrite H1, H2, H4, H5.
    destruct (missing_cols df) as [| c cs] eqn:Hm; [congruence |].
    destruct H3 as [H3 | H3]; [rewrite H3; reflexivity |].
    destruct (path_exists w out); rewrite ?H3; reflexivity.
  - intros src df H1 H2 H3 H4 H5 H6. run_prepare. rewrite H1, H2, H4, H5, H6.
    unfold classes_missing.
    destruct H3 as [H3 | H3];
      [rewrite H3 | destruct (path_exists w out); rewrite ?H3]; cbn [negb].
    all: destruct (missing_values (np_unique (ds_band1 src)) df) as [| v vs];
      eexists; (split; [reflexivity |]); cbn [log written];
      rewrite <- ?app_assoc; split; reflexivity.
  - intros msg st' Hrun. revert Hrun. run_prepare.
    destruct (path_exists w lulc); cbn [negb]; [| intros _; left; reflexivity].
    destruct (path_exists w csv); cbn [negb]; [| intros _; right; left; reflexivity].
    destruct (path_exists w out); cbn [negb].
    2: destruct (makedirs w out) as [e0 |];
         [intros Hrun; inversion Hrun; right; right; left; reflexivity |].
    all: destruct (open_lulc w lulc) as [e1 | src];
           [intros Hrun; inversion Hrun; do 3 right; left; reflexivity |].
    all: destruct (read_csv w csv) as [e2 | df];
           [intros Hrun; inversion Hrun; do 4 right; reflexivity |].
    all: destruct (missing_cols df) as [| c cs];
           [| intros Hrun; inversion Hrun].
    all: destruct (missing_values (np_unique (ds_band1 src)) df);
           intros Hrun; inversion Hrun.
  - intros args e He.
    unfold run_carbon_model.
    cbv beta iota zeta delta [bind ret raise lift emit logger_info logger_error try_except].
    rewrite He. reflexivity.
  - intros args r Hr Hmiss.
    unfold run_carbon_model, summarize_carbon_results.
    cbv beta iota zeta delta [bind ret raise lift emit logger_info logger_error try_except].
    rewrite Hr, Hmiss. reflexivity.
  - intros path region label e Hlabel Hfail.
    unfold extract_carbon_for_region.
    cbv beta iota zeta delta [bind ret raise lift emit logger_info logger_error try_except].
    rewrite Hlabel.
    destruct Hfail as [Hopen | (src & Hopen & Hmask)]; rewrite Hopen; [reflexivity |].
    rewrite Hmask. reflexivity.
  - intros A body msg. apply try_except_reraise.
Qed.

End Prepare.

End CarbonFailures.

(** With no LULC file the function raises, and nothing went through
    [logger.error]: the only record is the opening one, at level INFO. *)
Lemma missing_file_is_not_logged :
  exists e st',
    prepare_carbon_inputs no_files "lulc.tif" "pools.csv" "out" empty_state = (inl e, st')
    /\ existsb is_error (log st') = false
    /\ ~ error_logged e st'.
Proof.
  eexists. eexists. split; [reflexivity |]. split; [reflexivity |].
  intros (r & Hin & Hlvl & _).
  cbn in Hin. destruct Hin as [Hr | []]. subst r. discriminate Hlvl.
Qed.

Lemma carbon_module_failures_witness :
  prepare_carbon_inputs no_files "lulc.tif" "pools.csv" "out" empty_state =
    (inl (FileNotFoundError "LULC file not found: lulc.tif"),
     {| log := [{| lvl := INFO; message := [Text "Preparing Carbon model inputs..."] |}];
        written := []; unfinished := [] |})
  /\ exists st',
       prepare_carbon_inputs all_files "lulc.tif" "pools.csv" "out" empty_state =
         (inr {| lulc_cur_path := "lulc.tif"; carbon_pools_path := "pools.csv";
                 workspace_dir := "out" |}, st')
       /\ existsb is_warning (log st') = true
       /\ existsb is_error (log st') = false.
Proof.
  split.
  - apply (proj1 (carbon_module_failures seq_sum no_files
                    "lulc.tif" "pools.csv" "out" empty_state)).
    reflexivity.
  - destruct (proj1 (proj2 (proj2 (proj2 (proj2 (proj2 (proj2
               (carbon_module_failures seq_sum all_files
                  "lulc.tif" "pools.csv" "out" empty_state)))))))
               small_lulc pools_table)
      as (st' & Hrun & Hlog & _);
      try reflexivity.
    + left. reflexivity.
    + exists st'. split; [exact Hrun |]. rewrite Hlog. split; reflexivity.
Defined.

(* ================================================================== *)
(** ** Summaries of a carbon raster *)

Section Summaries.
Local Open Scope float_scope.
Variable np_sum : list float -> float.
Variable w : World.

Ltac run_summary :=
  cbv beta iota zeta delta
    [summarize_carbon_results extract_carbon_for_region bind ret raise lift emit
     logger_info logger_error try_except np_min np_max format_2f set_area_ha
     area_ha pixel_count mean_carbon total_carbon].

(** Square pixels: the summary is returned, every statistic is taken over
    the strictly positive pixels, and the area is there. *)
Lemma summarize_carbon_results_square :
  forall (workspace : string) (src : dataset float) (x : float) (rest : list float)
         (st : state),
    path_exists w (path_join workspace "total_carbon.tif") = true ->
    open_carbon w (path_join workspace "total_carbon.tif") = inr src ->
    positive (ds_band1 src) = x :: rest ->
    (fst (ds_res src) =? snd (ds_res src)) = true ->
    exists st',
      summarize_carbon_results np_sum w workspace st =
        (inr (statistics np_sum src (positive (ds_band1 src))
                (fold_left fmin rest x) (fold_left fmax rest x)
                (Some (of_nat (List.length (positive (ds_band1 src)))
                       * (fst (ds_res src) * snd (ds_res src)) / 10000))), st').
Proof.
  intros workspace src x rest st Hex Hopen Hpos Hsq.
  run_summary. rewrite Hex, Hopen. cbn [negb]. rewrite Hpos, Hsq.
  eexists. reflexivity.
Qed.

(** Pixels that are not square: the summary is built without its area,
    and the closing log line fails on the default ['N/A']. *)
Lemma summarize_carbon_results_oblong :
  forall (workspace : string) (src : dataset float) (x : float) (rest : list float)
         (st : state),
    path_exists w (path_join workspace "total_carbon.tif") = true ->
    open_carbon w (path_join workspace "total_carbon.tif") = inr src ->
    positive (ds_band1 src) = x :: rest ->
    (fst (ds_res src) =? snd (ds_res src)) = false ->
    fst (summarize_carbon_results np_sum w workspace st) =
      inl (ValueError "Unknown format code 'f' for object of type 'str'").
Proof.
  intros workspace src x rest st Hex Hopen Hpos Hsq.
  run_summary. rewrite Hex, Hopen. cbn [negb]. rewrite Hpos, Hsq.
  reflexivity.
Qed.

(** With no strictly positive pixel there is no minimum to take. *)
Lemma summarize_carbon_results_no_data :
  forall (workspace : string) (src : dataset float) (st : state),
    path_exists w (path_join workspace "total_carbon.tif") = true ->
    open_carbon w (path_join workspace "total_carbon.tif") = inr src ->
    positive (ds_band1 src) = [] ->
    fst (summarize_carbon_results np_sum w workspace st) =
      inl (ValueError "zero-size array to reduction operation minimum which has no identity").
Proof.
  intros workspace src st Hex Hopen Hpos.
  run_summary. rewrite Hex, Hopen. cbn [negb]. rewrite Hpos.
  reflexivity.
Qed.

(** A region: the statistics are over the strictly positive pixels of the
    masked raster, and the area is always there. *)
Lemma extract_carbon_for_region_summary :
  forall (path label : string) (region : Region) (src : dataset float)
         (masked : list (list float)) (x : float) (rest : list float) (st : state),
    region_label region = inr label ->
    open_carbon w path = inr src ->
    mask_crop w src region = inr masked ->
    positive masked = x :: rest ->
    exists st',
      extract_carbon_for_region np_sum w path region st =
        (inr (positive masked,
              statistics np_sum src (positive masked)
                (fold_left fmin rest x) (fold_left fmax rest x)
                (Some (of_nat (List.length (positive masked))
                       * (fst (ds_res src) * snd (ds_res src)) / 10000))), st').
Proof.
  intros path label region src masked x rest st Hlabel Hopen Hmask Hpos.
  run_summary. rewrite Hlabel, Hopen, Hmask, Hpos.
  eexists. reflexivity.
Qed.

(** What is kept is strictly positive, and every strictly positive pixel
    is kept. *)
Lemma positive_spec (a : list (list float)) (v : float) :
  In v (positive a) <-> In v (List.concat a) /\ (0 <? v) = true.
Proof. unfold positive. apply filter_In. Qed.

End Summaries.

(** C8. A raster of 30 m by 20 m pixels with one positive pixel:
    [summarize_carbon_results] returns no summary, it raises [ValueError]
    from its closing log line. *)
Theorem summarize_carbon_results_oblong_pixels :
  summarize_carbon_results seq_sum all_files "out" empty_state =
    (inl (ValueError "Unknown format code 'f' for object of type 'str'"),
     {| log := [{| lvl := INFO; message := [Text "Summarizing carbon results..."] |}];
        written := []; unfinished := [] |}).
Proof. reflexivity. Qed.

(* ================================================================== *)
(** ** Reclassification of a class raster *)

Section Dictionaries.
Local Open Scope Z_scope.

Lemma dict_get_set (d : dict) (k v k' : Z) :
  dict_get (dict_set d k v) k' = if k =? k' then Some v else dict_get d k'.
Proof.
  induction d as [| [k0 v0] d IH]; cbn [dict_set dict_get].
  - reflexivity.
  - destruct (k0 =? k) eqn:E0; cbn [dict_get].
    + apply Z.eqb_eq in E0. subst k0.
      destruct (k =? k'); reflexivity.
    + rewrite IH. destruct (k0 =? k') eqn:E1; [| reflexivity].
      apply Z.eqb_eq in E1. subst k0. rewrite Z.eqb_sym, E0. reflexivity.
Qed.

Lemma dict_set_keys (d : dict) (k v x : Z) :
  In x (map fst (dict_set d k v)) <-> x = k \/ In x (map fst d).
Proof.
  induction d as [| [k0 v0] d IH]; cbn [dict_set map fst In].
  - intuition.
  - destruct (k0 =? k) eqn:E0; cbn [map fst In].
    + apply Z.eqb_eq in E0. subst k0. intuition.
    + rewrite IH. intuition.
Qed.

Lemma dict_set_NoDup (d : dict) (k v : Z) :
  NoDup (map fst d) -> NoDup (map fst (dict_set d k v)).
Proof.
  induction d as [| [k0 v0] d IH]; cbn [dict_set map fst]; intros Hd.
  - constructor; [intros [] | constructor].
  - inversion Hd as [| ? ? Hnotin Hrest]; subst.
    destruct (k0 =? k) eqn:E0; cbn [map fst].
    + constructor; assumption.
    + constructor; [| apply IH; exact Hrest].
      rewrite dict_set_keys. intros [-> | Hin]; [| contradiction].
      rewrite Z.eqb_refl in E0. discriminate.
Qed.

(** A dict built from pairs never holds a key twice. *)
Lemma dict_of_NoDup (pairs : list (Z * Z)) : NoDup (map fst (dict_of pairs)).
Proof.
  unfold dict_of.
  assert (H : forall d, NoDup (map fst d) ->
                NoDup (map fst (fold_left (fun d kv => dict_set d (fst kv) (snd kv)) pairs d))).
  { induction pairs as [| p pairs IH]; intros d Hd; cbn [fold_left].
    - exact Hd.
    - apply IH. apply dict_set_NoDup. exact Hd. }
  apply H. constructor.
Qed.

Lemma dict_of_snoc (pairs : list (Z * Z)) (p : Z * Z) :
  dict_of (pairs ++ [p]) = dict_set (dict_of pairs) (fst p) (snd p).
Proof. unfold dict_of. rewrite fold_left_app. reflexivity. Qed.

(** Looking a key up in the dict is looking for its last pair. *)
Lemma dict_get_dict_of (pairs : list (Z * Z)) (k : Z) :
  dict_get (dict_of pairs) k = last_row_for pairs k.
Proof.
  unfold last_row_for.
  induction pairs as [| p pairs IH] using rev_ind.
  - reflexivity.
  - rewrite dict_of_snoc, dict_get_set, rev_app_distr. cbn [rev app find].
    destruct (fst p =? k); [reflexivity | exact IH].
Qed.

(** With no key twice, a lookup finds exactly the entries of the dict. *)
Lemma dict_get_In (d : dict) (k v : Z) :
  NoDup (map fst d) -> (dict_get d k = Some v <-> In (k, v) d).
Proof.
  induction d as [| [k0 v0] d IH]; cbn [dict_get map fst In]; intros Hd.
  - split; [discriminate | contradiction].
  - inversion Hd as [| ? ? Hnotin Hrest]; subst.
    destruct (k0 =? k) eqn:E0.
    + apply Z.eqb_eq in E0. subst k0. split.
      * intros H. inversion H. left. reflexivity.
      * intros [H | H]; [inversion H; reflexivity |].
        exfalso. apply Hnotin. apply (in_map fst) in H. exact H.
    + rewrite (IH Hrest). split; [intros H; right; exact H |].
      intros [H | H]; [| exact H].
      inversion H. subst. rewrite Z.eqb_refl in E0. discriminate.
Qed.

(** The order of the entries is of no account to a lookup. *)
Lemma dict_get_Permutation (d d' : dict) (k : Z) :
  NoDup (map fst d) -> Permutation d d' -> dict_get d k = dict_get d' k.
Proof.
  intros Hd Hp.
  assert (Hd' : NoDup (map fst d')).
  { apply (Permutation_NoDup (l := map fst d)); [apply Permutation_map; exact Hp | exact Hd]. }
  destruct (dict_get d k) as [v |] eqn:E.
  - symmetry. apply (dict_get_In d' k v Hd').
    apply (Permutation_in _ Hp). apply (dict_get_In d k v Hd). exact E.
  - destruct (dict_get d' k) as [v' |] eqn:E'; [| reflexivity].
    apply (dict_get_In d' k v' Hd') in E'.
    apply (Permutation_in _ (Permutation_sym Hp)) in E'.
    apply (dict_get_In d k v' Hd) in E'. congruence.
Qed.

(** A table with no original value twice is a dict already. *)
Lemma dict_get_table (t : ReclassTable) (k : Z) :
  NoDup (original_value t) -> dict_get t k = last_row_for t k.
Proof.
  intros Ht. rewrite <- dict_get_dict_of.
  destruct (dict_get t k) as [v |] eqn:E.
  - symmetry. apply (dict_get_In _ k v (dict_of_NoDup t)).
    apply (dict_get_In t k v Ht) in E. revert E.
    unfold dict_of.
    assert (H : forall d, In (k, v) t \/ (In (k, v) d /\ ~ In k (map fst t)) ->
                  NoDup (map fst t) ->
                  In (k, v) (fold_left (fun d kv => dict_set d (fst kv) (snd kv)) t d)).
    { clear Ht. induction t as [| [k0 v0] t IH]; intros d Hin Hnd; cbn [fold_left].
      - destruct Hin as [[] | [Hin _]]. exact Hin.
      - inversion Hnd as [| ? ? Hnotin Hrest]; subst. apply IH; [| exact Hrest].
        cbn [fst snd]. destruct Hin as [[Heq | Hin] | [Hin Hk]].
        + inversion Heq. subst. right. split; [| exact Hnotin].
          clear. induction d as [| [k1 v1] d IHd]; cbn [dict_set].
          * left. reflexivity.
          * destruct (k1 =? k) eqn:E1.
            -- apply Z.eqb_eq in E1. subst. left. reflexivity.
            -- right. exact IHd.
        + left. exact Hin.
        + right. split.
          * cbn [map fst In] in Hk.
            assert (Hne : k0 <> k) by (intros ->; apply Hk; left; reflexivity).
            clear - Hin Hne. induction d as [| [k1 v1] d IHd]; cbn [dict_set].
            -- destruct Hin.
            -- destruct Hin as [Heq | Hin].
               ++ inversion Heq. subst.
                  destruct (k =? k0) eqn:E1.
                  ** apply Z.eqb_eq in E1. congruence.
                  ** left. reflexivity.
               ++ destruct (k1 =? k0); right; [exact Hin | apply IHd; exact Hin].
          * intros Hk'. apply Hk. right. exact Hk'. }
    intros E. apply H; [left; exact E | exact Ht].
  - destruct (dict_get (dict_of t) k) as [v' |] eqn:E'; [| reflexivity].
    exfalso. rewrite dict_get_dict_of in E'. unfold last_row_for in E'.
    destruct (find (fun r => fst r =? k) (rev t)) as [[k1 v1] |] eqn:F; [| discriminate].
    apply find_some in F. destruct F as [Hin Hk]. cbn [fst] in Hk.
    apply Z.eqb_eq in Hk. subst k1. apply in_rev in Hin.
    apply (dict_get_In t k v1 Ht) in Hin. congruence.
Qed.

End Dictionaries.

Section Reclassify.
Local Open Scope Z_scope.

Lemma dict_get_absent (d : dict) (k : Z) :
  ~ In k (map fst d) -> dict_get d k = None.
Proof.
  induction d as [| [k0 v0] d IH]; cbn [dict_get map fst In]; intros Hk.
  - reflexivity.
  - destruct (k0 =? k) eqn:E0.
    + apply Z.eqb_eq in E0. exfalso. apply Hk. left. exact E0.
    + apply IH. intros Hin. apply Hk. right. exact Hin.
Qed.

(** One masked assignment, seen from the original data: while the copy is
    a pixelwise function [g] of the original, it stays one. *)
Lemma assign_where_map (g : Z -> Z) (data : list (list Z)) (k v : Z) :
  assign_where (map (map g) data) (eq_mask data k) v
  = map (map (fun o => if o =? k then v else g o)) data.
Proof.
  unfold assign_where, eq_mask.
  induction data as [| row data IH]; cbn [map zip_with].
  - reflexivity.
  - f_equal; [| exact IH].
    clear IH. induction row as [| o row IHrow]; cbn [map zip_with].
    + reflexivity.
    + f_equal. exact IHrow.
Qed.

Lemma reclassify_from (items : list (Z * Z)) :
  forall (g : Z -> Z) (data : list (list Z)),
    fold_left (fun reclass_data kv =>
                 assign_where reclass_data (eq_mask data (fst kv)) (snd kv))
              items (map (map g) data)
    = map (map (fun o => reclass_pixel items o (g o))) data.
Proof.
  induction items as [| [k v] items IH]; intros g data; cbn [fold_left fst snd].
  - reflexivity.
  - rewrite assign_where_map, IH. reflexivity.
Qed.

Lemma map_map_same (data : list (list Z)) : map (map (fun o => o)) data = data.
Proof.
  induction data as [| row data IH]; cbn [map].
  - reflexivity.
  - rewrite map_id, IH. reflexivity.
Qed.

(** The loop rewrites each pixel from its original value alone. *)
Lemma relabel_pointwise (data : list (list Z)) (items : list (Z * Z)) :
  relabel data items = map (map (fun o => reclass_pixel items o o)) data.
Proof.
  unfold relabel.
  pose proof (reclassify_from items (fun o => o) data) as H.
  rewrite map_map_same in H. exact H.
Qed.

(** Over entries with no key twice a pixel is rewritten at most once: by
    the entry of its original value, if there is one. *)
Lemma reclass_pixel_lookup (items : list (Z * Z)) :
  NoDup (map fst items) ->
  forall o cur,
    reclass_pixel items o cur =
      match dict_get items o with
      | Some n => n
      | None => cur
      end.
Proof.
  unfold reclass_pixel.
  induction items as [| [k v] items IH]; intros Hnd o cur;
    cbn [fold_left dict_get fst snd map] in *.
  - reflexivity.
  - inversion Hnd as [| ? ? Hnotin Hrest]; subst.
    rewrite (IH Hrest). rewrite (Z.eqb_sym k o).
    destruct (o =? k) eqn:E; [| reflexivity].
    apply Z.eqb_eq in E. subst o.
    rewrite (dict_get_absent items k Hnotin). reflexivity.
Qed.

Lemma relabel_dict (data : list (list Z)) (items : list (Z * Z)) :
  NoDup (map fst items) ->
  relabel data items =
    map (map (fun o => match dict_get items o with Some n => n | None => o end)) data.
Proof.
  intros Hnd. rewrite relabel_pointwise.
  apply map_ext. intros row. apply map_ext. intros o.
  apply reclass_pixel_lookup. exact Hnd.
Qed.

Lemma combine_columns (t : ReclassTable) :
  combine (original_value t) (new_value t) = t.
Proof.
  unfold original_value, new_value.
  induction t as [| [k v] t IH]; cbn [map combine fst snd].
  - reflexivity.
  - rewrite IH. reflexivity.
Qed.

(** The raster the table [t] leads to, in any order of the dict's entries. *)
Lemma relabel_table (data : list (list Z)) (t : ReclassTable) (items : list (Z * Z)) :
  Permutation (dict_of t) items ->
  relabel data items = map (map (reclassified t)) data.
Proof.
  intros Hp.
  assert (Hnd : NoDup (map fst items)).
  { apply (Permutation_NoDup (l := map fst (dict_of t)));
      [apply Permutation_map; exact Hp | apply dict_of_NoDup]. }
  rewrite (relabel_dict data items Hnd).
  apply map_ext. intros row. apply map_ext. intros o.
  unfold reclassified.
  rewrite <- (dict_get_Permutation (dict_of t) items o (dict_of_NoDup t) Hp).
  rewrite dict_get_dict_of. reflexivity.
Qed.

(** Tables with the same rows and no original value twice reclassify
    every pixel alike. *)
Lemma reclassified_Permutation (t t' : ReclassTable) (v : Z) :
  NoDup (original_value t) -> Permutation t t' -> reclassified t v = reclassified t' v.
Proof.
  intros Hnd Hp.
  assert (Hnd' : NoDup (original_value t')).
  { apply (Permutation_NoDup (l := original_value t));
      [apply Permutation_map; exact Hp | exact Hnd]. }
  unfold reclassified.
  rewrite <- (dict_get_table t v Hnd), <- (dict_get_table t' v Hnd').
  rewrite (dict_get_Permutation t t' v Hnd Hp). reflexivity.
Qed.

(** The entries of the dict of a table with no original value twice are
    the rows of the table. *)
Lemma dict_of_rows (t : ReclassTable) (k v : Z) :
  NoDup (original_value t) -> (In (k, v) (dict_of t) <-> In (k, v) t).
Proof.
  intros Hnd.
  rewrite <- (dict_get_In (dict_of t) k v (dict_of_NoDup t)).
  rewrite <- (dict_get_In t k v Hnd).
  rewrite dict_get_dict_of, (dict_get_table t k Hnd). reflexivity.
Qed.

(** A Python int within the range of an integer dtype is stored as it is,
    and one out of it is refused. *)
Lemma as_dtype_fits (dt : string) (lo hi v : Z) :
  int_range dt = Some (lo, hi) -> lo <= v <= hi -> as_dtype dt (PyInt v) = inr v.
Proof.
  intros Hr Hv. unfold as_dtype, fits. rewrite Hr.
  destruct (lo <=? v) eqn:E1; [| apply Z.leb_gt in E1; lia].
  destruct (v <=? hi) eqn:E2; [| apply Z.leb_gt in E2; lia].
  reflexivity.
Qed.

Lemma as_dtype_overflow (dt : string) (lo hi v : Z) :
  int_range dt = Some (lo, hi) -> ~ lo <= v <= hi ->
  exists msg, as_dtype dt (PyInt v) = inl (LibraryError "OverflowError" msg).
Proof.
  intros Hr Hv. unfold as_dtype, fits. rewrite Hr.
  destruct (lo <=? v) eqn:E1; [apply Z.leb_le in E1 |]; cbn [andb].
  - destruct (v <=? hi) eqn:E2; [apply Z.leb_le in E2; lia |]. eexists. reflexivity.
  - eexists. reflexivity.
Qed.

(** What a Python int is stored as or refused with does not depend on
    anything but the integer and the dtype: it is stored as it is, or it
    is an [OverflowError]. *)
Lemma as_dtype_python_int (dt : string) (v : Z) :
  as_dtype dt (PyInt v) = inr v
  \/ exists msg, as_dtype dt (PyInt v) = inl (LibraryError "OverflowError" msg).
Proof.
  unfold as_dtype. destruct (fits dt v); [left; reflexivity | right; eexists; reflexivity].
Qed.

(** With every new value in the range of the dtype, the loop ends with
    the relabelled raster. *)
Lemma reclassify_in_range (dt : string) (lo hi : Z) (data : list (list Z))
  (items : list (Z * Z)) :
  int_range dt = Some (lo, hi) ->
  (forall k v, In (k, v) items -> lo <= v <= hi) ->
  reclassify dt data data items = inr (relabel data items).
Proof.
  intros Hr. unfold relabel. generalize data at 2 4 as cur.
  induction items as [| [k v] items IH]; intros cur Hin; cbn [reclassify fold_left fst snd].
  - reflexivity.
  - rewrite (as_dtype_fits dt lo hi v Hr (Hin k v (or_introl eq_refl))).
    apply IH. intros k' v' H. apply (Hin k' v'). right. exact H.
Qed.

(** With a new value out of the range, the loop raises [OverflowError],
    wherever the entry stands and whether or not a pixel has its
    original value. *)
Lemma reclassify_out_of_range (dt : string) (lo hi : Z) (data : list (list Z))
  (items : list (Z * Z)) (k v : Z) :
  int_range dt = Some (lo, hi) ->
  In (k, v) items -> ~ lo <= v <= hi ->
  forall cur,
  exists msg, reclassify dt data cur items = inl (LibraryError "OverflowError" msg).
Proof.
  intros Hr Hin Hv.
  induction items as [| [k0 v0] items IH]; intros cur; [destruct Hin |].
  cbn [reclassify].
  destruct (as_dtype_python_int dt v0) as [Hok | [msg Hbad]].
  - rewrite Hok. destruct Hin as [Heq | Hin].
    + inversion Heq. subst k0 v0.
      destruct (as_dtype_overflow dt lo hi v Hr Hv) as [msg Hbad]. congruence.
    + apply IH. exact Hin.
  - rewrite Hbad. exists msg. reflexivity.
Qed.

End Reclassify.

Section PrepareLulc.
Local Open Scope Z_scope.
Variable w : World.

Ltac run_lulc :=
  unfold prepare_lulc_for_invest;
  cbv beta iota zeta delta
    [bind ret raise lift emit logger_info logger_error try_except run_stmt
     rasterio_write create_raster write_raster].

(** C3 (as the code has it). On a raster of an integer dtype and a table
    given by rows or by the path of its CSV:
    when every new value of the dict fits the dtype and the output can be
    written, [prepare_lulc_for_invest] writes one raster, in which each
    pixel whose original value is an original_value of the table has the
    new_value of the last row for it and every other pixel keeps its
    value; the loop may visit the dict's entries in any order, and the
    rows of a table with no original value twice may come in any order.
    When a new value of the dict does not fit the dtype, the call raises
    [OverflowError], logged, and no file is made. *)
Theorem prepare_lulc_for_invest_reclassifies :
  forall (lulc_path output_path : string) (table : string + ReclassTable)
         (t : ReclassTable) (src : dataset Z) (lo hi : Z) (st : state),
    open_lulc w lulc_path = inr src ->
    int_range (dtype (ds_meta src)) = Some (lo, hi) ->
    table_is w table t ->
    ((forall k v, In (k, v) (dict_of t) -> lo <= v <= hi) ->
     open_for_write w output_path = None ->
     write_band w output_path = None ->
     (exists st',
        prepare_lulc_for_invest w lulc_path output_path (Some table) st
          = (inr output_path, st')
        /\ written st' =
             written st ++ [{| w_path := output_path;
                               w_meta := update_meta (ds_meta src);
                               w_band1 := map (map (reclassified t)) (ds_band1 src) |}])
     /\ (forall items,
           Permutation (dict_of t) items ->
           reclassify (dtype (ds_meta src)) (ds_band1 src) (ds_band1 src) items
           = inr (map (map (reclassified t)) (ds_band1 src)))
     /\ (forall t',
           NoDup (original_value t) -> Permutation t t' ->
           prepare_lulc_for_invest w lulc_path output_path (Some (inr t')) st
           = prepare_lulc_for_invest w lulc_path output_path (Some table) st))
    /\ (forall k v,
          In (k, v) (dict_of t) -> ~ lo <= v <= hi ->
          exists msg st',
            prepare_lulc_for_invest w lulc_path output_path (Some table) st
              = (inl (LibraryError "OverflowError" msg), st')
            /\ written st' = written st
            /\ unfinished st' = unfinished st
            /\ error_logged (LibraryError "OverflowError" msg) st').
Proof.
  intros lulc_path output_path table t src lo hi st Hopen Hrange Htable.
  assert (Hsame : forall t0 items,
             Permutation (dict_of t0) items ->
             (forall k v, In (k, v) (dict_of t0) -> lo <= v <= hi) ->
             reclassify (dtype (ds_meta src)) (ds_band1 src) (ds_band1 src) items
             = inr (map (map (reclassified t0)) (ds_band1 src))).
  { intros t0 items Hp Hin.
    rewrite (reclassify_in_range _ lo hi _ _ Hrange).
    - rewrite (relabel_table (ds_band1 src) t0 items Hp). reflexivity.
    - intros k v H. apply (Hin k v).
      apply (Permutation_in _ (Permutation_sym Hp)). exact H. }
  assert (Hrun : forall t0 table0,
             table_is w table0 t0 ->
             (forall k v, In (k, v) (dict_of t0) -> lo <= v <= hi) ->
             open_for_write w output_path = None ->
             write_band w output_path = None ->
             prepare_lulc_for_invest w lulc_path output_path (Some table0) st
             = (inr output_path,
                {| log := ((log st
                            ++ [{| lvl := INFO;
                                   message := [Text "Preparing LULC data for InVEST: ";
                                               Text lulc_path] |}])
                           ++ [{| lvl := INFO;
                                  message := [Text "Reclassifying LULC values..."] |}])
                          ++ [{| lvl := INFO;
                                 message := [Text "Processed LULC raster saved to ";
                                             Text output_path] |}];
                   written := written st
                              ++ [{| w_path := output_path;
                                     w_meta := update_meta (ds_meta src);
                                     w_band1 := map (map (reclassified t0)) (ds_band1 src) |}];
                   unfinished :=
                     filter (fun q => negb (String.eqb q output_path))
                            (output_path :: unfinished st) |})).
  { intros t0 table0 Ht0 Hin Hwrite Hband. run_lulc. rewrite Hopen.
    destruct table0 as [path | df]; cbn [table_is] in Ht0;
      [rewrite Ht0 | subst df].
    all: rewrite combine_columns,
           (Hsame t0 (dict_of t0) (Permutation_refl _) Hin), Hwrite, Hband.
    all: reflexivity. }
  split.
  - intros Hin Hwrite Hband. split; [| split].
    + rewrite (Hrun t table Htable Hin Hwrite Hband).
      eexists. split; reflexivity.
    + intros items Hp. apply Hsame; assumption.
    + intros t' Hnd Hp.
      assert (Hin' : forall k v, In (k, v) (dict_of t') -> lo <= v <= hi).
      { intros k v H. apply (Hin k v).
        assert (Hnd' : NoDup (original_value t')).
        { apply (Permutation_NoDup (l := original_value t));
            [apply Permutation_map; exact Hp | exact Hnd]. }
        apply (dict_of_rows t k v Hnd).
        apply (Permutation_in _ (Permutation_sym Hp)).
        apply (dict_of_rows t' k v Hnd'). exact H. }
      assert (Heq : map (map (reclassified t')) (ds_band1 src)
                    = map (map (reclassified t)) (ds_band1 src)).
      { apply map_ext. intros row. apply map_ext. intros x.
        symmetry. apply reclassified_Permutation; assumption. }
      rewrite (Hrun t table Htable Hin Hwrite Hband).
      etransitivity; [apply (Hrun t' (inr t') eq_refl Hin' Hwrite Hband) |].
      rewrite Heq. reflexivity.
  - intros k v Hin Hout.
    destruct (reclassify_out_of_range _ lo hi (ds_band1 src) (dict_of t) k v
                Hrange Hin Hout (ds_band1 src)) as [msg Hbad].
    exists msg. run_lulc. rewrite Hopen.
    destruct table as [path | df]; cbn [table_is] in Htable;
      [rewrite Htable | subst df].
    all: rewrite combine_columns, Hbad.
    all: eexists; split; [reflexivity |]; split; [reflexivity |];
      split; [reflexivity |].
    all: eexists; split;
      [cbn [log]; apply in_or_app; right; left; reflexivity
      | split; [reflexivity | right; left; reflexivity]].
Qed.

End PrepareLulc.

(** The table with the rows (1, 5) and (1, 7) sends class 1 to 7, and
    with the same rows the other way round to 5: the order of the rows
    decides when an original value is repeated. *)
Lemma repeated_row_order_matters :
  Permutation [(1, 5); (1, 7)]%Z [(1, 7); (1, 5)]%Z
  /\ exists st1 st2,
       prepare_lulc_for_invest all_files "lulc.tif" "out.tif"
         (Some (inr [(1, 5); (1, 7)]%Z)) empty_state = (inr "out.tif"%string, st1)
       /\ prepare_lulc_for_invest all_files "lulc.tif" "out.tif"
            (Some (inr [(1, 7); (1, 5)]%Z)) empty_state = (inr "out.tif"%string, st2)
       /\ map w_band1 (written st1) = [[[7; 2]; [0; 3]]%Z]
       /\ map w_band1 (written st2) = [[[5; 2]; [0; 3]]%Z]
       /\ written st1 <> written st2.
Proof.
  split; [apply perm_swap |].
  eexists. eexists.
  split; [reflexivity |]. split; [reflexivity |].
  split; [reflexivity |]. split; [reflexivity |].
  intros Heq. apply (f_equal (map w_band1)) in Heq. discriminate Heq.
Qed.

Lemma prepare_lulc_for_invest_reclassifies_witness :
  (exists st',
     prepare_lulc_for_invest all_files "lulc.tif" "out.tif"
       (Some (inr [(1, 10); (3, 30); (10, 99)]%Z)) empty_state = (inr "out.tif"%string, st')
     /\ written st' =
          [{| w_path := "out.tif";
              w_meta := update_meta (ds_meta small_lulc);
              w_band1 := [[10; 2]; [0; 30]]%Z |}])
  /\ (exists msg st',
        prepare_lulc_for_invest table_world "lulc.tif" "out.tif"
          (Some (inl "table.csv"%string)) empty_state
        = (inl (LibraryError "OverflowError" msg), st')
        /\ written st' = [] /\ unfinished st' = []).
Proof.
  split.
  - destruct (proj1 (prepare_lulc_for_invest_reclassifies all_files "lulc.tif" "out.tif"
                       (inr [(1, 10); (3, 30); (10, 99)]%Z) [(1, 10); (3, 30); (10, 99)]%Z
                       small_lulc 0%Z 255%Z empty_state eq_refl eq_refl eq_refl))
      as [(st' & Hrun & Hwritten) _]; try reflexivity.
    + intros k v H. cbn in H.
      destruct H as [H | [H | [H | []]]]; inversion H; lia.
    + exists st'. split; [exact Hrun |]. rewrite Hwritten. reflexivity.
  - destruct (proj2 (prepare_lulc_for_invest_reclassifies table_world "lulc.tif" "out.tif"
                       (inl "table.csv"%string) [(2, 20); (1, 300)]%Z
                       small_lulc 0%Z 255%Z empty_state eq_refl eq_refl eq_refl)
                1%Z 300%Z)
      as (msg & st' & Hrun & Hwritten & Hunfinished & _).
    + right. left. reflexivity.
    + lia.
    + exists msg, st'. split; [exact Hrun |]. split; assumption.
Defined.

(* ================================================================== *)
(** ** Scenario rasters *)

Section Scenario.
Local Open Scope Z_scope.
Variable w : World.

(** The loop over the change areas makes and finishes no file. It ends
    with the data folded over the changes when every area rasterises and
    every value is one the dtype stores, and with the first exception
    otherwise. *)
Lemma change_areas_loop (src : dataset Z) (l : list (Area * scalar)) :
  forall (i : nat) (acc : list (list Z)) (st : state),
  exists st',
    for_enumerate i l (change_area src) acc st
    = (match changes_of (dtype (ds_meta src)) l with
       | inr changes => inr (fold_left (scenario_step src) changes acc)
       | inl e => inl e
       end, st')
    /\ written st' = written st
    /\ unfinished st' = unfinished st.
Proof.
  induction l as [| [area v] l IH]; intros i acc st;
    cbn [for_enumerate changes_of fold_left].
  - exists st. repeat split.
  - unfold bind at 1. unfold change_area at 1.
    cbv beta iota zeta delta [bind lift logger_info emit ret fst snd].
    destruct (rasterise area) as [e | shapes].
    + exists st. repeat split.
    + destruct (as_dtype (dtype (ds_meta src)) v) as [e | z].
      * exists st. repeat split.
      * match goal with
        | |- context [for_enumerate (S i) l _ ?acc' ?st0] =>
            destruct (IH (S i) acc' st0) as (st' & Hrun & Hw & Hu)
        end.
        exists st'. rewrite Hrun. split; [| split; assumption].
        destruct (changes_of (dtype (ds_meta src)) l) as [e | changes];
          reflexivity.
Qed.

(** Rows and grids rebuilt from their indices. *)
Lemma imap_from_zip_row (g m : nat -> Z -> Z) (v : Z) (row : list Z) :
  forall c0,
    zip_with (fun x (b : bool) => if b then v else x)
      (imap_from c0 g row)
      (map (fun x => negb (x =? 0)) (imap_from c0 m row))
    = imap_from c0 (fun c o => if negb (m c o =? 0) then v else g c o) row.
Proof.
  induction row as [| o row IH]; intros c0; cbn [imap_from map zip_with].
  - reflexivity.
  - f_equal. apply IH.
Qed.

Lemma imap_from_zip_grid (g m : nat -> nat -> Z -> Z) (v : Z) (data : list (list Z)) :
  forall r0,
    assign_where
      (imap_from r0 (fun r row => imap_from O (g r) row) data)
      (astype_bool (imap_from r0 (fun r row => imap_from O (m r) row) data)) v
    = imap_from r0
        (fun r row =>
           imap_from O (fun c o => if negb (m r c o =? 0) then v else g r c o) row)
        data.
Proof.
  unfold assign_where, astype_bool.
  induction data as [| row data IH]; intros r0; cbn [imap_from map zip_with].
  - reflexivity.
  - f_equal; [apply imap_from_zip_row | apply IH].
Qed.

Lemma imap_from_same_row (row : list Z) :
  forall c0, imap_from c0 (fun (_ : nat) (o : Z) => o) row = row.
Proof.
  induction row as [| o row IH]; intros c0; cbn [imap_from].
  - reflexivity.
  - rewrite IH. reflexivity.
Qed.

Lemma imap_from_same_grid (data : list (list Z)) :
  forall r0,
    imap_from r0 (fun (_ : nat) row => imap_from O (fun (_ : nat) (o : Z) => o) row) data
    = data.
Proof.
  induction data as [| row data IH]; intros r0; cbn [imap_from].
  - reflexivity.
  - rewrite imap_from_same_row, IH. reflexivity.
Qed.

Lemma scenario_fold_from (src : dataset Z) (changes : list (Footprint * Z)) :
  forall g : nat -> nat -> Z -> Z,
    fold_left (scenario_step src) changes
      (imap_from O (fun r row => imap_from O (g r) row) (ds_band1 src))
    = imap_from O
        (fun r row =>
           imap_from O
             (fun c o => scenario_pixel (fill_value src) changes r c o (g r c o)) row)
        (ds_band1 src).
Proof.
  induction changes as [| [area v] changes IH]; intros g; cbn [fold_left].
  - reflexivity.
  - unfold scenario_step at 2. unfold rio_mask. cbv zeta. cbn [fst snd].
    rewrite (imap_from_zip_grid g
               (fun r c o => if covers area r c then o else fill_value src)
               v (ds_band1 src) O).
    rewrite (IH (fun r c o =>
                   if negb ((if covers area r c then o else fill_value src) =? 0)
                   then v else g r c o)).
    reflexivity.
Qed.

(** The state a raster's writing leaves holds the raster as whole. *)
Lemma raster_at_written (l : list log_record) (ws : list written_raster)
  (u : list string) (r : written_raster) :
  raster_at {| log := l; written := ws ++ [r];
               unfinished := filter (fun q => negb (String.eqb q (w_path r))) u |}
            (w_path r)
  = Whole r.
Proof.
  unfold raster_at. cbn [unfinished written].
  assert (Hu : existsb (String.eqb (w_path r))
                 (filter (fun q => negb (String.eqb q (w_path r))) u) = false).
  { induction u as [| q u IH]; cbn [filter existsb]; [reflexivity |].
    destruct (String.eqb q (w_path r)) eqn:E; cbn [negb]; [exact IH |].
    cbn [existsb]. rewrite String.eqb_sym, E. exact IH. }
  rewrite Hu, rev_app_distr. cbn [rev app find].
  rewrite String.eqb_refl. reflexivity.
Qed.

(** What [create_scenario_lulc] writes when every change area rasterises,
    every new value is one the dtype stores and the output can be
    written: the base raster's metadata as it is, and a band in which
    each pixel has gone through the change areas in order; an area
    changes a pixel when the masked data is nonzero there, that is,
    inside the area when the base pixel is nonzero and outside it when
    the fill value is nonzero. *)
Lemma create_scenario_lulc_writes :
  forall (base_path scenario_path : string) (change_areas : list Area)
         (new_values : list scalar) (changes : list (Footprint * Z))
         (src : dataset Z) (st : state),
    open_lulc w base_path = inr src ->
    changes_of (dtype (ds_meta src)) (combine change_areas new_values) = inr changes ->
    open_for_write w scenario_path = None ->
    write_band w scenario_path = None ->
    exists st',
      create_scenario_lulc w base_path scenario_path change_areas new_values st
        = (inr scenario_path, st')
      /\ written st' =
           written st ++
           [{| w_path := scenario_path;
               w_meta := ds_meta src;
               w_band1 :=
                 imap_from O
                   (fun r row =>
                      imap_from O
                        (fun c o => scenario_pixel (fill_value src) changes r c o o) row)
                   (ds_band1 src) |}]
      /\ raster_at st' scenario_path =
           Whole {| w_path := scenario_path;
                    w_meta := ds_meta src;
                    w_band1 :=
                      imap_from O
                        (fun r row =>
                           imap_from O
                             (fun c o => scenario_pixel (fill_value src) changes r c o o)
                             row)
                        (ds_band1 src) |}.
Proof.
  intros base_path scenario_path change_areas new_values changes src st
         Hopen Hchanges Hwrite Hband.
  unfold create_scenario_lulc.
  unfold try_except, bind at 1, logger_info at 1, emit.
  unfold bind at 1, lift. rewrite Hopen.
  unfold bind at 1.
  match goal with
  | |- context [for_enumerate O ?l _ ?acc ?st0] =>
      destruct (change_areas_loop src l O acc st0) as (st1 & Hloop & Hw1 & Hu1)
  end.
  rewrite Hloop, Hchanges.
  cbv beta iota zeta delta
    [bind run_stmt ret rasterio_write create_raster write_raster logger_info emit].
  rewrite Hwrite, Hband.
  pose proof (scenario_fold_from src changes (fun _ _ o => o)) as Hfold.
  rewrite imap_from_same_grid in Hfold. rewrite Hfold.
  eexists. split; [reflexivity |]. split.
  - cbn [written]. rewrite Hw1. reflexivity.
  - unfold raster_at. cbn [unfinished written filter].
    rewrite String.eqb_refl. cbn [negb].
    match goal with
    | |- context [{| w_path := ?p; w_meta := ?m; w_band1 := ?b |}] =>
        exact (raster_at_written [] (written st1) (unfinished st1)
                 {| w_path := p; w_meta := m; w_band1 := b |})
    end.
Qed.

(** With a fill value of zero, a pixel outside every change area keeps
    its base value, and so does a zero pixel inside one. *)
Lemma scenario_pixel_kept (changes : list (Footprint * Z)) (r c : nat) (o : Z) :
  (forall an, In an changes -> covers (fst an) r c = false \/ o = 0) ->
  forall cur, scenario_pixel 0 changes r c o cur = cur.
Proof.
  unfold scenario_pixel.
  induction changes as [| an changes IH]; intros Hout cur; cbn [fold_left].
  - reflexivity.
  - rewrite IH; [| intros an' Hin; apply Hout; right; exact Hin].
    destruct (Hout an (or_introl eq_refl)) as [Hc | Ho].
    + rewrite Hc. reflexivity.
    + subst o. destruct (covers (fst an) r c); reflexivity.
Qed.

(** With a nonzero fill value, a pixel outside the last change area takes
    that area's new value. *)
Lemma scenario_pixel_overwritten (fill : Z) (changes : list (Footprint * Z))
  (area : Footprint) (v : Z) (r c : nat) (o cur : Z) :
  fill <> 0 -> covers area r c = false ->
  scenario_pixel fill (changes ++ [(area, v)]) r c o cur = v.
Proof.
  intros Hfill Hout. unfold scenario_pixel.
  rewrite fold_left_app. cbn [fold_left fst snd]. rewrite Hout.
  apply Z.eqb_neq in Hfill. rewrite Hfill. reflexivity.
Qed.

(** A nonzero base pixel inside the last change area takes that area's
    new value: where areas overlap, the later one decides. *)
Lemma scenario_pixel_changed (fill : Z) (changes : list (Footprint * Z))
  (area : Footprint) (v : Z) (r c : nat) (o cur : Z) :
  o <> 0 -> covers area r c = true ->
  scenario_pixel fill (changes ++ [(area, v)]) r c o cur = v.
Proof.
  intros Ho Hin. unfold scenario_pixel.
  rewrite fold_left_app. cbn [fold_left fst snd]. rewrite Hin.
  apply Z.eqb_neq in Ho. rewrite Ho. reflexivity.
Qed.

End Scenario.

(** C4. A base raster [[1, 2]] with nodata 255 and one change area over
    its first pixel, to become class 9: the scenario raster written is
    [[9, 9]]. The second pixel, outside the area, has lost its base
    value. *)
Theorem create_scenario_lulc_changes_outside :
  fst (create_scenario_lulc world_255 "base.tif" "scenario.tif" [Shapes first_pixel] [PyInt 9]
         empty_state) = inr "scenario.tif"%string
  /\ written (snd (create_scenario_lulc world_255 "base.tif" "scenario.tif"
                     [Shapes first_pixel] [PyInt 9] empty_state))
     = [{| w_path := "scenario.tif";
           w_meta := ds_meta lulc_255;
           w_band1 := [[9; 9]]%Z |}]
  /\ covers first_pixel 0 1 = false
  /\ ds_band1 lulc_255 = [[1; 2]]%Z.
Proof. repeat split; reflexivity. Qed.

(** A base raster [[1, 2], [0, 3]] with nodata 0 and one change area over
    all of it, to become class 7: the pixel of value 0 inside the area is
    left at 0. *)
Lemma create_scenario_lulc_keeps_zero_inside :
  fst (create_scenario_lulc all_files "base.tif" "scenario.tif" [Shapes everywhere] [PyInt 7]
         empty_state) = inr "scenario.tif"%string
  /\ written (snd (create_scenario_lulc all_files "base.tif" "scenario.tif"
                     [Shapes everywhere] [PyInt 7] empty_state))
     = [{| w_path := "scenario.tif";
           w_meta := ds_meta small_lulc;
           w_band1 := [[7; 7]; [0; 7]]%Z |}].
Proof. repeat split; reflexivity. Qed.

(* ================================================================== *)
(** ** The attribute table of a class raster *)

Section UniqueValues.
Local Open Scope Z_scope.

Lemma insert_unique_In (z x : Z) (l : list Z) :
  In x (insert_unique z l) <-> x = z \/ In x l.
Proof.
  induction l as [| y l IH]; cbn [insert_unique In].
  - intuition.
  - destruct (Z.compare_spec z y) as [E | E | E]; cbn [In].
    + subst y. intuition.
    + intuition.
    + rewrite IH. intuition.
Qed.

Lemma insert_unique_sorted (z : Z) (l : list Z) :
  StronglySorted Z.lt l -> StronglySorted Z.lt (insert_unique z l).
Proof.
  induction l as [| y l IH]; cbn [insert_unique]; intros Hs.
  - constructor; constructor.
  - inversion Hs as [| ? ? Hrest Hall]; subst.
    destruct (Z.compare_spec z y) as [E | E | E].
    + exact Hs.
    + constructor; [exact Hs |].
      constructor; [exact E |].
      apply (Forall_impl (P := Z.lt y)); [intros a Ha; lia | exact Hall].
    + constructor; [apply IH; exact Hrest |].
      apply Forall_forall. intros x Hx.
      apply insert_unique_In in Hx. destruct Hx as [-> | Hx]; [exact E |].
      apply (proj1 (Forall_forall _ _) Hall x Hx).
Qed.

(** [np.unique]: every value of the raster, once, in ascending order. *)
Lemma np_unique_In (a : list (list Z)) (x : Z) :
  In x (np_unique a) <-> In x (List.concat a).
Proof.
  unfold np_unique.
  induction (List.concat a) as [| z l IH]; cbn [fold_right In].
  - reflexivity.
  - rewrite insert_unique_In, IH. intuition.
Qed.

Lemma np_unique_sorted (a : list (list Z)) : StronglySorted Z.lt (np_unique a).
Proof.
  unfold np_unique.
  induction (List.concat a) as [| z l IH]; cbn [fold_right].
  - constructor.
  - apply insert_unique_sorted. exact IH.
Qed.

Lemma filter_sorted (f : Z -> bool) (l : list Z) :
  StronglySorted Z.lt l -> StronglySorted Z.lt (filter f l).
Proof.
  induction l as [| y l IH]; cbn [filter]; intros Hs.
  - constructor.
  - inversion Hs as [| ? ? Hrest Hall]; subst.
    destruct (f y); [| apply IH; exact Hrest].
    constructor; [apply IH; exact Hrest |].
    apply Forall_forall. intros x Hx. apply filter_In in Hx.
    apply (proj1 (Forall_forall _ _) Hall x (proj1 Hx)).
Qed.

End UniqueValues.

(** Running a computation over the disk: unfold the combinators. *)
Ltac run_io :=
  cbv beta iota zeta delta
    [io_bind io_ret io_raise io_try io_lift io_stmt of_M to_csv json_dump touch
     save_csv save_json save_copy
     logger_info logger_error logger_warning emit fst snd].

Section AttributeTable.
Local Open Scope Z_scope.
Variable w : World.
Variable sh : Shell.

(** What [create_lulc_attribute_table] writes when the raster can be read
    and the table written. *)
Lemma create_lulc_attribute_table_writes :
  forall (lulc_path output_csv : string) (class_names : option (list (Z * string)))
         (src : dataset Z) (s : state * disk),
    open_lulc w lulc_path = inr src ->
    makedirs_exist_ok sh (dirname output_csv) = None ->
    open_text sh output_csv = None ->
    write_text sh output_csv = None ->
    exists s' : state * disk,
      create_lulc_attribute_table w sh lulc_path output_csv class_names s
        = (inr output_csv, s')
      /\ csv_files (snd s') =
           csv_files (snd s) ++
           [(output_csv,
             [("value"%string,
               map IntCell (filter (fun v => 0 <? v) (np_unique (ds_band1 src))));
              ("class_name"%string,
               map StrCell (class_name_column class_names
                              (filter (fun v => 0 <? v) (np_unique (ds_band1 src)))))])]
      /\ written (fst s') = written (fst s).
Proof.
  intros lulc_path output_csv class_names src s Hopen Hdir Htext Hwrite.
  unfold create_lulc_attribute_table. run_io.
  rewrite Hopen, Hdir, Htext, Hwrite.
  eexists. split; [reflexivity |]. split; reflexivity.
Qed.

(** X1. The attribute table holds one row for each strictly positive
    class code of the raster, in ascending order and without repeats,
    under the name the dict gives it (['Unknown'] when it has none) or
    under ["Class <code>"] when no dict, or an empty one, is given. *)
Theorem create_lulc_attribute_table_rows :
  forall (lulc_path output_csv : string) (class_names : option (list (Z * string)))
         (src : dataset Z) (s : state * disk),
    open_lulc w lulc_path = inr src ->
    makedirs_exist_ok sh (dirname output_csv) = None ->
    open_text sh output_csv = None ->
    write_text sh output_csv = None ->
    exists (values : list Z) (s' : state * disk),
      create_lulc_attribute_table w sh lulc_path output_csv class_names s
        = (inr output_csv, s')
      /\ csv_files (snd s') =
           csv_files (snd s) ++
           [(output_csv,
             [("value"%string, map IntCell values);
              ("class_name"%string, map StrCell (class_name_column class_names values))])]
      /\ StronglySorted Z.lt values
      /\ (forall v, In v values <-> 0 < v /\ In v (List.concat (ds_band1 src)))
      /\ (class_names = None \/ class_names = Some [] ->
          class_name_column class_names values
          = map (fun v => ("Class " ++ str v)%string) values).
Proof.
  intros lulc_path output_csv class_names src s Hopen Hdir Htext Hwrite.
  exists (filter (fun v => 0 <? v) (np_unique (ds_band1 src))).
  unfold create_lulc_attribute_table. run_io.
  rewrite Hopen, Hdir, Htext, Hwrite.
  eexists. split; [reflexivity |]. split; [reflexivity |].
  split; [apply filter_sorted, np_unique_sorted |].
  split.
  - intros v. rewrite filter_In, np_unique_In, Z.ltb_lt. tauto.
  - intros [-> | ->]; reflexivity.
Qed.

End AttributeTable.

Lemma create_lulc_attribute_table_rows_witness :
  exists (values : list Z) (s' : state * disk),
    create_lulc_attribute_table all_files writable "lulc.tif" "tables/classes.csv" None
      (empty_state, empty_disk) = (inr "tables/classes.csv"%string, s')
    /\ StronglySorted Z.lt values
    /\ (forall v, In v values <-> (0 < v)%Z /\ In v (List.concat (ds_band1 small_lulc))).
Proof.
  destruct (create_lulc_attribute_table_rows all_files writable
              "lulc.tif" "tables/classes.csv" None small_lulc (empty_state, empty_disk))
    as (values & s' & Hrun & _ & Hsorted & Hin & _); try reflexivity.
  exists values, s'. split; [exact Hrun |]. split; [exact Hsorted | exact Hin].
Defined.

(* ================================================================== *)
(** ** Failures of the table builders *)

Section TableFailures.
Local Open Scope Z_scope.
Variable w : World.
Variable sh : Shell.

Lemma error_logged_at_end (e : exn) (before : list log_record) (text : string)
  (files : list written_raster) (opened : list string) :
  error_logged e
    {| log := before ++ [{| lvl := ERROR; message := [Text text; Exc e] |}];
       written := files; unfinished := opened |}.
Proof.
  exists {| lvl := ERROR; message := [Text text; Exc e] |}.
  split; [| split].
  - cbn [log]. apply in_or_app. right. left. reflexivity.
  - reflexivity.
  - right. left. reflexivity.
Qed.

(** A path with no slash in it has the empty string for its directory. *)
Lemma dirname_bare (p : string) : has_slash p = false -> dirname p = EmptyString.
Proof.
  intros H. unfold dirname.
  destruct p as [| c r]; [reflexivity |].
  cbn [through_last_slash]. cbn [has_slash] in H. rewrite H. reflexivity.
Qed.


(** X3. An output path that is a bare file name makes both table
    builders ask [os.makedirs] for the empty path; as that call raises,
    so does the builder, with nothing written. *)
Theorem table_to_bare_file_name :
  forall (input output_csv : string) (class_names : option (list (Z * string)))
         (src : dataset Z) (df : DataFrame) (lucode lulc_name : list cell)
         (ps : list (Z * Z * Z * Z)) (s : state * disk) (e : exn),
    has_slash output_csv = false ->
    makedirs_exist_ok sh EmptyString = Some e ->
    (open_lulc w input = inr src ->
     fst (create_lulc_attribute_table w sh input output_csv class_names s) = inl e
     /\ csv_files (snd (snd (create_lulc_attribute_table w sh input output_csv
                               class_names s))) = csv_files (snd s))
    /\ (read_csv w input = inr df ->
        column_get df "value" = inr lucode ->
        column_get df "class_name" = inr lulc_name ->
        default_rows lulc_name = inr ps ->
        fst (create_carbon_pool_table w sh input output_csv None s) = inl e
        /\ csv_files (snd (snd (create_carbon_pool_table w sh input output_csv None s)))
           = csv_files (snd s)).
Proof.
  intros input output_csv class_names src df lucode lulc_name ps s e Hbare Hmk.
  split.
  - intros Hopen. unfold create_lulc_attribute_table. run_io.
    rewrite Hopen, (dirname_bare output_csv Hbare), Hmk. split; reflexivity.
  - intros Hread Hv Hn Hrows. unfold create_carbon_pool_table. run_io.
    rewrite Hread, Hv, Hn, Hrows, (dirname_bare output_csv Hbare), Hmk.
    split; reflexivity.
Qed.

Lemma column_get_absent (df : DataFrame) (name : string) :
  existsb (String.eqb name) (columns df) = false ->
  column_get df name = inl (LibraryError "KeyError" ("'" ++ name ++ "'")).
Proof.
  unfold column_get, columns.
  induction df as [| [n c] df' IH]; cbn [map existsb find fst]; [reflexivity |].
  rewrite (String.eqb_sym n name).
  destruct (String.eqb name n); cbn [orb]; [discriminate | exact IH].
Qed.

Lemma column_get_present (df : DataFrame) (name : string) :
  existsb (String.eqb name) (columns df) = true ->
  exists c, column_get df name = inr c.
Proof.
  unfold column_get, columns.
  induction df as [| [n c] df' IH]; cbn [map existsb find fst]; [discriminate |].
  rewrite (String.eqb_sym n name).
  destruct (String.eqb name n); cbn [orb]; [intros _; eexists; reflexivity | exact IH].
Qed.

(** X4. A classes table without its [value] or [class_name] column stops
    [create_carbon_pool_table] with a [KeyError], and a class name that is
    not a string stops its default branch with an [AttributeError]; in
    both cases whatever [os.makedirs] and the writing of the file would
    answer. *)
Theorem create_carbon_pool_table_malformed_classes :
  forall (lulc_classes_csv output_csv : string) (df : DataFrame)
         (carbon_values : option (list (Z * list (string * cell))))
         (s : state * disk),
    read_csv w lulc_classes_csv = inr df ->
    (existsb (String.eqb "value") (columns df) = false ->
     fst (create_carbon_pool_table w sh lulc_classes_csv output_csv carbon_values s)
     = inl (LibraryError "KeyError" "'value'"))
    /\ (existsb (String.eqb "value") (columns df) = true ->
        existsb (String.eqb "class_name") (columns df) = false ->
        fst (create_carbon_pool_table w sh lulc_classes_csv output_csv carbon_values s)
        = inl (LibraryError "KeyError" "'class_name'"))
    /\ (forall lucode lulc_name,
        column_get df "value" = inr lucode ->
        column_get df "class_name" = inr lulc_name ->
        existsb (fun c => match c with StrCell _ => false | _ => true end) lulc_name = true ->
        exists msg,
          fst (create_carbon_pool_table w sh lulc_classes_csv output_csv None s)
          = inl (LibraryError "AttributeError" msg)).
Proof.
  intros lulc_classes_csv output_csv df carbon_values s Hread.
  split; [| split].
  - intros Hv. unfold create_carbon_pool_table. run_io.
    rewrite Hread, (column_get_absent df "value" Hv). reflexivity.
  - intros Hv Hn. destruct (column_get_present df "value" Hv) as [c Hc].
    unfold create_carbon_pool_table. run_io.
    rewrite Hread, Hc, (column_get_absent df "class_name" Hn). reflexivity.
  - intros lucode lulc_name Hv Hn Hbad.
    assert (Hrows : exists msg, default_rows lulc_name = inl (LibraryError "AttributeError" msg)).
    { clear Hn. induction lulc_name as [| c rest IH]; cbn [existsb] in Hbad;
        [discriminate |].
      cbn [default_rows].
      destruct c as [z | x | str]; cbn [lower_cell];
        try (eexists; reflexivity).
      cbn [orb] in Hbad. destruct (IH Hbad) as [msg Hmsg]. rewrite Hmsg.
      exists msg. reflexivity. }
    destruct Hrows as [msg Hrows]. exists msg.
    unfold create_carbon_pool_table. run_io.
    rewrite Hread, Hv, Hn, Hrows. reflexivity.
Qed.

End TableFailures.

(* ================================================================== *)
(** ** The default carbon pools *)

Section ClassNames.

Lemma numerals_of_uint (d : Decimal.uint) :
  numerals (DecimalString.NilEmpty.string_of_uint d) = true.
Proof. induction d; cbn [DecimalString.NilEmpty.string_of_uint numerals]; auto. Qed.

(** [str(z)] is made of digits, after a minus sign at most. *)
Lemma numerals_str (z : Z) : numerals (str z) = true.
Proof.
  unfold str. destruct (Z.to_int z) as [d | d];
    cbn [DecimalString.NilZero.string_of_int numerals];
    unfold DecimalString.NilZero.string_of_uint;
    destruct d; try reflexivity;
    try apply (numerals_of_uint (Decimal.D0 d));
    try apply (numerals_of_uint (Decimal.D1 d));
    try apply (numerals_of_uint (Decimal.D2 d));
    try apply (numerals_of_uint (Decimal.D3 d));
    try apply (numerals_of_uint (Decimal.D4 d));
    try apply (numerals_of_uint (Decimal.D5 d));
    try apply (numerals_of_uint (Decimal.D6 d));
    try apply (numerals_of_uint (Decimal.D7 d));
    try apply (numerals_of_uint (Decimal.D8 d));
    try apply (numerals_of_uint (Decimal.D9 d)).
Qed.

Lemma lower_char_numeral (c : ascii) : numeral c = true -> lower_char c = c.
Proof.
  unfold numeral, lower_char. cbv zeta.
  destruct (65 <=? nat_of_ascii c)%nat eqn:E1;
    destruct (nat_of_ascii c <=? 90)%nat eqn:E2; cbn [andb]; try reflexivity.
  apply Nat.leb_le in E1. apply Nat.leb_le in E2.
  intros H. apply orb_true_iff in H. destruct H as [H | H].
  - apply andb_true_iff in H. destruct H as [_ H]. apply Nat.leb_le in H. lia.
  - apply Nat.eqb_eq in H. lia.
Qed.

Lemma lower_numerals (s : string) : numerals s = true -> lower s = s.
Proof.
  induction s as [| c r IH]; cbn [numerals lower]; [reflexivity |].
  intros H. apply andb_true_iff in H. destruct H as [Hc Hr].
  rewrite (lower_char_numeral c Hc), (IH Hr). reflexivity.
Qed.

(** A word that starts with something else than a numeral is nowhere in
    a string of numerals. *)
Lemma contains_numerals (k : ascii) (word rest : string) :
  numeral k = false -> numerals rest = true -> contains (String k word) rest = false.
Proof.
  intros Hk. induction rest as [| c r IH]; cbn [numerals contains starts_with].
  - reflexivity.
  - intros H. apply andb_true_iff in H. destruct H as [Hc Hr].
    rewrite (IH Hr).
    destruct (Ascii.eqb k c) eqn:E; [| reflexivity].
    apply Ascii.eqb_eq in E. subst c. congruence.
Qed.

(** The default name of a class carries none of the words the default
    pools look for. *)
Lemma default_pools_of_default_name (z : Z) :
  default_pools (lower ("Class " ++ str z)) = (0, 0, 0, 0)%Z.
Proof.
  assert (Hl : lower ("Class " ++ str z) = ("class " ++ str z)%string).
  { cbn [append lower]. rewrite (lower_numerals (str z) (numerals_str z)). reflexivity. }
  rewrite Hl.
  assert (Hno : forall k word,
             numeral k = false ->
             contains (String k word) (str z) = false).
  { intros k word Hk. apply contains_numerals; [exact Hk | apply numerals_str]. }
  unfold default_pools.
  cbn [append contains starts_with].
  rewrite !Hno by reflexivity.
  reflexivity.
Qed.

Lemma default_name_not_forest (z : Z) :
  contains "forest" (lower ("Class " ++ str z)) = false.
Proof.
  assert (Hl : lower ("Class " ++ str z) = ("class " ++ str z)%string).
  { cbn [append lower]. rewrite (lower_numerals (str z) (numerals_str z)). reflexivity. }
  rewrite Hl. cbn [append contains starts_with].
  rewrite (contains_numerals "f" "orest" (str z) eq_refl (numerals_str z)).
  reflexivity.
Qed.

Lemma default_rows_strings (names : list string) :
  default_rows (map StrCell names) = inr (map (fun n => default_pools (lower n)) names).
Proof.
  induction names as [| n names IH]; cbn [map default_rows lower_cell].
  - reflexivity.
  - rewrite IH. reflexivity.
Qed.

End ClassNames.

Section PoolTable.
Local Open Scope Z_scope.
Variable w : World.
Variable sh : Shell.

(** The table the default branch writes for a classes table whose names
    are strings. *)
Lemma create_carbon_pool_table_default :
  forall (lulc_classes_csv output_csv : string) (df : DataFrame)
         (lucode : list cell) (names : list string) (s : state * disk),
    read_csv w lulc_classes_csv = inr df ->
    column_get df "value" = inr lucode ->
    column_get df "class_name" = inr (map StrCell names) ->
    makedirs_exist_ok sh (dirname output_csv) = None ->
    open_text sh output_csv = None ->
    write_text sh output_csv = None ->
    exists s',
      create_carbon_pool_table w sh lulc_classes_csv output_csv None s
        = (inr output_csv, s')
      /\ csv_files (snd s') =
           csv_files (snd s) ++
           [(output_csv,
             [("lucode"%string, lucode);
              ("lulc_name"%string, map StrCell names);
              ("c_above"%string,
               map (fun n => IntCell (fst (fst (fst (default_pools (lower n)))))) names);
              ("c_below"%string,
               map (fun n => IntCell (snd (fst (fst (default_pools (lower n)))))) names);
              ("c_soil"%string,
               map (fun n => IntCell (snd (fst (default_pools (lower n))))) names);
              ("c_dead"%string,
               map (fun n => IntCell (snd (default_pools (lower n)))) names)])]
      /\ written (fst s') = written (fst s).
Proof.
  intros lulc_classes_csv output_csv df lucode names s Hread Hv Hn Hdir Htext Hwrite.
  unfold create_carbon_pool_table. run_io.
  rewrite Hread, Hv, Hn, default_rows_strings, Hdir, Htext, Hwrite.
  eexists. split; [reflexivity |]. split; [| reflexivity].
  cbn [csv_files app]. rewrite !map_map. reflexivity.
Qed.

(** The classes the raster holds and the table misses are its negative
    codes, when the lucode column lists its positive ones. *)
Lemma missing_values_negative (band : list (list Z)) (others : DataFrame) :
  missing_values (np_unique band)
    (("lucode"%string,
      map IntCell (filter (fun v => 0 <? v) (np_unique band))) :: others)
  = filter (fun v => v <? 0) (np_unique band).
Proof.
  unfold missing_values, column. cbn [find fst snd String.eqb Ascii.eqb Bool.eqb].
  apply filter_ext_in. intros v Hv.
  destruct (existsb (cell_is v) (map IntCell (filter (fun v0 => 0 <? v0) (np_unique band))))
    eqn:E; cbn [negb andb].
  - apply existsb_exists in E. destruct E as (c & Hc & Heq).
    apply in_map_iff in Hc. destruct Hc as (z & <- & Hz).
    cbn [cell_is] in Heq. apply Z.eqb_eq in Heq. subst z.
    apply filter_In in Hz. destruct Hz as [_ Hpos]. apply Z.ltb_lt in Hpos.
    symmetry. apply Z.ltb_ge. lia.
  - destruct (v =? 0) eqn:E0; cbn [negb].
    + apply Z.eqb_eq in E0. subst v. reflexivity.
    + apply Z.eqb_neq in E0. symmetry. apply Z.ltb_lt.
      destruct (Z.ltb_spec 0 v) as [Hpos | Hle]; [| lia].
      exfalso.
      assert (Hex : existsb (cell_is v)
                      (map IntCell (filter (fun v0 => 0 <? v0) (np_unique band))) = true).
      { apply existsb_exists. exists (IntCell v). split.
        - apply in_map. apply filter_In. split; [exact Hv | apply Z.ltb_lt; exact Hpos].
        - cbn [cell_is]. apply Z.eqb_refl. }
      congruence.
Qed.

(** X5. The pipeline of the three functions on one raster: the carbon
    pools table that the default branch of [create_carbon_pool_table]
    makes from the attribute table of a raster always passes the column
    check of [prepare_carbon_inputs] on that raster, which returns its
    arguments; the classes it warns about are exactly the negative codes
    of the raster. *)
Theorem default_pool_table_validates :
  forall (lulc_path classes_csv pools_csv out : string)
         (class_names : option (list (Z * string))) (src : dataset Z)
         (s : state * disk) (st : state),
    read_csv w classes_csv =
      inr [("value"%string,
            map IntCell (filter (fun v => 0 <? v) (np_unique (ds_band1 src))));
           ("class_name"%string,
            map StrCell (class_name_column class_names
                           (filter (fun v => 0 <? v) (np_unique (ds_band1 src)))))] ->
    makedirs_exist_ok sh (dirname pools_csv) = None ->
    open_text sh pools_csv = None ->
    write_text sh pools_csv = None ->
    exists (pools : DataFrame) (s' : state * disk),
      create_carbon_pool_table w sh classes_csv pools_csv None s = (inr pools_csv, s')
      /\ csv_files (snd s') = csv_files (snd s) ++ [(pools_csv, pools)]
      /\ missing_cols pools = []
      /\ missing_values (np_unique (ds_band1 src)) pools
         = filter (fun v => v <? 0) (np_unique (ds_band1 src))
      /\ (path_exists w lulc_path = true -> path_exists w pools_csv = true ->
          output_dir_ready w out ->
          open_lulc w lulc_path = inr src -> read_csv w pools_csv = inr pools ->
          exists st',
            prepare_carbon_inputs w lulc_path pools_csv out st =
              (inr {| lulc_cur_path := lulc_path; carbon_pools_path := pools_csv;
                      workspace_dir := out |}, st')
            /\ log st' = log st ++ [preparing; raster_loaded src]
                         ++ classes_missing src pools ++ [pools_loaded pools]).
Proof.
  intros lulc_path classes_csv pools_csv out class_names src s st Hread Hdir Htext Hwrite.
  destruct (create_carbon_pool_table_default classes_csv pools_csv _ _ _ s
              Hread eq_refl eq_refl Hdir Htext Hwrite) as (s' & Hrun & Hcsv & _).
  eexists. exists s'. split; [exact Hrun |]. split; [exact Hcsv |].
  split; [reflexivity |]. split; [apply missing_values_negative |].
  intros H1 H2 H3 H4 H5.
  unfold prepare_carbon_inputs.
  cbv beta iota zeta delta
    [bind ret raise lift emit logger_info logger_warning logger_error try_except run_stmt].
  rewrite H1, H2, H4, H5.
  match goal with
  | |- context [missing_cols ?p] =>
      change (missing_cols p) with (@nil string)
  end.
  unfold classes_missing.
  destruct H3 as [H3 | H3];
    [rewrite H3 | destruct (path_exists w out); rewrite ?H3]; cbn [negb].
  all: match goal with
       | |- context [missing_values ?u ?p] => destruct (missing_values u p) as [| v vs]
       end;
    eexists; (split; [reflexivity |]); cbn [log];
    rewrite <- ?app_assoc; reflexivity.
Qed.

(** X6. Made from an attribute table with the default names
    ["Class <code>"], the default carbon pools table holds 0 in every pool
    of every class: no default name carries a land cover word. *)
Theorem default_names_give_empty_pools :
  forall (classes_csv pools_csv : string) (values : list Z) (s : state * disk),
    read_csv w classes_csv =
      inr [("value"%string, map IntCell values);
           ("class_name"%string, map StrCell (class_name_column None values))] ->
    makedirs_exist_ok sh (dirname pools_csv) = None ->
    open_text sh pools_csv = None ->
    write_text sh pools_csv = None ->
    exists s',
      create_carbon_pool_table w sh classes_csv pools_csv None s = (inr pools_csv, s')
      /\ csv_files (snd s') =
           csv_files (snd s) ++
           [(pools_csv,
             [("lucode"%string, map IntCell values);
              ("lulc_name"%string, map StrCell (class_name_column None values));
              ("c_above"%string, map (fun _ => IntCell 0) values);
              ("c_below"%string, map (fun _ => IntCell 0) values);
              ("c_soil"%string, map (fun _ => IntCell 0) values);
              ("c_dead"%string, map (fun _ => IntCell 0) values)])].
Proof.
  intros classes_csv pools_csv values s Hread Hdir Htext Hwrite.
  destruct (create_carbon_pool_table_default classes_csv pools_csv _ _ _ s
              Hread eq_refl eq_refl Hdir Htext Hwrite) as (s' & Hrun & Hcsv & _).
  exists s'. split; [exact Hrun |]. rewrite Hcsv.
  cbn [class_name_column]. rewrite !map_map.
  do 4 f_equal.
  repeat (f_equal; try (f_equal; apply map_ext; intros z;
                        rewrite default_pools_of_default_name; reflexivity)).
Qed.

End PoolTable.

Section PoolValues.
Local Open Scope Z_scope.
Variable w : World.
Variable sh : Shell.

(** Codes that are no key of [carbon_values] leave the frame as it is. *)
Lemma fill_pools_no_match (carbon_values : list (Z * list (string * cell)))
  (lucodes : list cell) :
  (forall c, In c lucodes ->
             find (fun kv => cell_is (fst kv) c) carbon_values = None) ->
  forall df, fill_pools carbon_values lucodes df = df.
Proof.
  unfold fill_pools.
  induction lucodes as [| c rest IH]; intros Hnone df; cbn [fold_left].
  - reflexivity.
  - rewrite (Hnone c (or_introl eq_refl)).
    apply IH. intros c' Hc'. apply Hnone. right. exact Hc'.
Qed.

(** X7. When [carbon_values] has entries but none for a class of the
    table, [create_carbon_pool_table] writes a table of the two columns
    lucode and lulc_name only, and [prepare_carbon_inputs] rejects that
    table with the [ValueError] for the four missing pool columns. *)
Theorem unmatched_carbon_values :
  forall (lulc_path classes_csv pools_csv out : string) (df : DataFrame)
         (lucode lulc_name : list cell)
         (entry : Z * list (string * cell)) (others : list (Z * list (string * cell)))
         (src : dataset Z) (s : state * disk) (st : state),
    read_csv w classes_csv = inr df ->
    column_get df "value" = inr lucode ->
    column_get df "class_name" = inr lulc_name ->
    (forall c, In c lucode ->
               find (fun kv => cell_is (fst kv) c) (entry :: others) = None) ->
    makedirs_exist_ok sh (dirname pools_csv) = None ->
    open_text sh pools_csv = None ->
    write_text sh pools_csv = None ->
    exists s',
      create_carbon_pool_table w sh classes_csv pools_csv (Some (entry :: others)) s
        = (inr pools_csv, s')
      /\ csv_files (snd s') =
           csv_files (snd s) ++
           [(pools_csv, [("lucode"%string, lucode); ("lulc_name"%string, lulc_name)])]
      /\ (path_exists w lulc_path = true -> path_exists w pools_csv = true ->
          output_dir_ready w out ->
          open_lulc w lulc_path = inr src ->
          read_csv w pools_csv =
            inr [("lucode"%string, lucode); ("lulc_name"%string, lulc_name)] ->
          fst (prepare_carbon_inputs w lulc_path pools_csv out st) =
            inl (ValueError
                   "Carbon pools CSV missing required columns: ['c_above', 'c_below', 'c_soil', 'c_dead']")).
Proof.
  intros lulc_path classes_csv pools_csv out df lucode lulc_name entry others src s st
         Hread Hv Hn Hnone Hdir Htext Hwrite.
  unfold create_carbon_pool_table. run_io.
  rewrite Hread, Hv, Hn, (fill_pools_no_match (entry :: others) lucode Hnone),
    Hdir, Htext, Hwrite.
  eexists. split; [reflexivity |]. split; [reflexivity |].
  intros H1 H2 H3 H4 H5.
  unfold prepare_carbon_inputs.
  cbv beta iota zeta delta
    [bind ret raise lift emit logger_info logger_warning logger_error try_except run_stmt].
  rewrite H1, H2, H4, H5.
  destruct H3 as [H3 | H3];
    [rewrite H3 | destruct (path_exists w out); rewrite ?H3]; reflexivity.
Qed.

End PoolValues.

(* ================================================================== *)
(** ** Extraction of model results *)

Section ExtractResults.
Variable np_sum : list float -> float.
Variable w : World.
Variable sh : Shell.

(** With the first raster of a model missing and the second one there,
    the copy of the second finds the name [shutil] unbound. *)
Lemma copy_pair_unbound (invest_workspace output_dir : string)
  (first_in first_key first_out second_in second_key second_out : string)
  (s : state * disk) :
  path_exists w (path_join invest_workspace first_in) = false ->
  path_exists w (path_join invest_workspace second_in) = true ->
  copy_pair w sh invest_workspace output_dir
    first_in first_key first_out second_in second_key second_out s
  = (inl (LibraryError "UnboundLocalError"
            "cannot access local variable 'shutil' where it is not associated with a value"),
     s).
Proof.
  intros H1 H2. unfold copy_pair, copy_result, local_name. run_io.
  rewrite H1, H2. reflexivity.
Qed.

(** X8. For each of the three models, when the first raster it looks for
    is missing from the workspace and the second one is there,
    [extract_invest_results] raises [UnboundLocalError]: the second copy
    uses [shutil], which only the branch of the first raster imports.
    Nothing is copied, and the error is logged. *)
Theorem extract_invest_results_unbound_shutil :
  forall (invest_workspace output_dir model_name first_in second_in : string)
         (s : state * disk),
    (model_name = "carbon"%string /\ first_in = "total_carbon.tif"%string
       /\ second_in = "net_present_value.tif"%string
     \/ model_name = "habitat_quality"%string /\ first_in = "quality.tif"%string
       /\ second_in = "degradation.tif"%string
     \/ model_name = "sdr"%string /\ first_in = "sed_export.tif"%string
       /\ second_in = "sed_retention.tif"%string) ->
    makedirs_exist_ok sh output_dir = None ->
    path_exists w (path_join invest_workspace first_in) = false ->
    path_exists w (path_join invest_workspace second_in) = true ->
    exists (msg : string) (s' : state * disk),
      extract_invest_results np_sum w sh invest_workspace output_dir model_name s
        = (inl (LibraryError "UnboundLocalError" msg), s')
      /\ snd s' = snd s
      /\ error_logged (LibraryError "UnboundLocalError" msg) (fst s').
Proof.
  intros invest_workspace output_dir model_name first_in second_in s Hmodel Hmk H1 H2.
  destruct Hmodel as [(-> & -> & ->) | [(-> & -> & ->) | (-> & -> & ->)]].
  all: unfold extract_invest_results; run_io; rewrite Hmk;
    cbn [String.eqb Ascii.eqb Bool.eqb];
    rewrite copy_pair_unbound by assumption;
    eexists; eexists; split; [reflexivity |]; split; [reflexivity |];
    apply error_logged_at_end.
Qed.

(** X9. A model name that is none of carbon, habitat_quality and sdr is no
    error: the output directory is made, nothing is looked for or copied,
    and the empty dictionary is returned. *)
Theorem extract_invest_results_unknown_model :
  forall (invest_workspace output_dir model_name : string) (s : state * disk),
    model_name <> "carbon"%string ->
    model_name <> "habitat_quality"%string ->
    model_name <> "sdr"%string ->
    makedirs_exist_ok sh output_dir = None ->
    exists s',
      extract_invest_results np_sum w sh invest_workspace output_dir model_name s
        = (inr [], s')
      /\ snd s' = snd s
      /\ existsb is_error (log (fst s')) = existsb is_error (log (fst s)).
Proof.
  intros invest_workspace output_dir model_name s Hc Hh Hs Hmk.
  apply String.eqb_neq in Hc, Hh, Hs.
  unfold extract_invest_results. run_io. rewrite Hmk, Hc, Hh, Hs.
  eexists. split; [reflexivity |]. split; [reflexivity |].
  cbn [log]. rewrite !existsb_app. cbn [existsb is_error lvl orb].
  rewrite !orb_false_r. reflexivity.
Qed.

(** X10. Whatever [extract_invest_results] returns: every path in the
    dictionary lies in the output directory, no key comes twice, a summary
    is listed only beside the total carbon raster, and the rasters listed
    are exactly the copies made, in that order. *)
Theorem extract_invest_results_dictionary :
  forall (invest_workspace output_dir model_name : string) (s s' : state * disk)
         (results : list (string * string)),
    extract_invest_results np_sum w sh invest_workspace output_dir model_name s
      = (inr results, s') ->
    Forall (fun kv => exists name, snd kv = path_join output_dir name) results
    /\ NoDup (map fst results)
    /\ (has_key "summary" results = true -> has_key "total_carbon" results = true)
    /\ exists copies,
         copied_files (snd s') = copied_files (snd s) ++ copies
         /\ map snd copies
            = map snd (filter (fun kv => negb (String.eqb (fst kv) "summary")) results).
Proof.
  intros invest_workspace output_dir model_name s s' results.
  unfold extract_invest_results, copy_pair, copy_result, local_name, np_min, np_max.
  run_io.
  cbv beta iota zeta delta [ret raise].
  destruct (makedirs_exist_ok sh output_dir) as [e0 |]; [discriminate |].
  destruct (String.eqb model_name "carbon");
    [| destruct (String.eqb model_name "habitat_quality");
       [| destruct (String.eqb model_name "sdr")]].
  all: repeat match goal with
         | |- context [path_exists w ?p] => destruct (path_exists w p)
         | |- context [copy2 sh ?a ?b] => destruct (copy2 sh a b)
         end;
       cbn [has_key get_key existsb find fst snd String.eqb Ascii.eqb Bool.eqb orb app].
  all: repeat match goal with
         | |- context [open_carbon w ?p] => destruct (open_carbon w p) as [? | src]
         | |- context [positive ?b] => destruct (positive b) as [| x xs]
         | |- context [open_text sh ?p] => destruct (open_text sh p)
         | |- context [write_text sh ?p] => destruct (write_text sh p)
         end.
  all: intros Hrun; inversion Hrun; subst; clear Hrun.
  all: split; [repeat constructor; cbn [snd]; eexists; reflexivity |].
  all: split; [cbn [map fst];
               repeat (constructor;
                       [cbn [In]; intros Hin;
                        repeat (destruct Hin as [Hin | Hin]; try discriminate Hin);
                        try contradiction |]);
               constructor |].
  all: split; [cbn [has_key existsb fst String.eqb Ascii.eqb Bool.eqb orb];
               try reflexivity; try (intros Hf; discriminate Hf) |].
  all: cbn [copied_files snd];
       eexists; split;
       [rewrite <- ?app_assoc; try reflexivity;
        try (rewrite app_nil_r; reflexivity) | reflexivity].
Qed.

(** X11. A total carbon raster with no strictly positive pixel: the
    carbon branch raises the [ValueError] of [np.min] after the rasters
    were copied; the copies stay and no summary is written. *)
Theorem extract_invest_results_no_positive_pixel :
  forall (invest_workspace output_dir : string) (src : dataset float)
         (s : state * disk),
    makedirs_exist_ok sh output_dir = None ->
    path_exists w (path_join invest_workspace "total_carbon.tif") = true ->
    copy2 sh (path_join invest_workspace "total_carbon.tif")
             (path_join output_dir "total_carbon.tif") = None ->
    path_exists w (path_join invest_workspace "net_present_value.tif") = false ->
    open_carbon w (path_join output_dir "total_carbon.tif") = inr src ->
    positive (ds_band1 src) = [] ->
    exists s',
      extract_invest_results np_sum w sh invest_workspace output_dir "carbon" s
        = (inl (ValueError
                  "zero-size array to reduction operation minimum which has no identity"),
           s')
      /\ copied_files (snd s') =
           copied_files (snd s) ++
           [(path_join invest_workspace "total_carbon.tif",
             path_join output_dir "total_carbon.tif")]
      /\ json_files (snd s') = json_files (snd s).
Proof.
  intros invest_workspace output_dir src s Hmk Hex Hcopy Hnpv Hopen Hpos.
  unfold extract_invest_results, copy_pair, copy_result, local_name, np_min.
  run_io.
  cbv beta iota zeta delta [ret raise].
  rewrite Hmk. cbn [String.eqb Ascii.eqb Bool.eqb].
  rewrite Hex, Hcopy, Hnpv.
  cbn [has_key get_key existsb find fst snd String.eqb Ascii.eqb Bool.eqb orb app].
  rewrite Hopen, Hpos.
  eexists. split; [reflexivity |]. split; reflexivity.
Qed.

End ExtractResults.

(* ================================================================== *)
(** ** The raster writers: failures, frame, exchange of classes *)

Section RasterWriters.
Local Open Scope Z_scope.
Variable w : World.


Lemma nth_error_imap_from {A B} (f : nat -> A -> B) (l : list A) :
  forall (i n : nat),
    nth_error (imap_from i f l) n = option_map (f (i + n)%nat) (nth_error l n).
Proof.
  induction l as [| x l IH]; intros i n; cbn [imap_from].
  - destruct n; reflexivity.
  - destruct n as [| n]; cbn [nth_error option_map].
    + rewrite Nat.add_0_r. reflexivity.
    + rewrite IH. rewrite Nat.add_succ_r. reflexivity.
Qed.

(** A pixel of a grid rebuilt from its indices. *)
Lemma pixel_at_imap (g : nat -> nat -> Z -> Z) (band : list (list Z)) (r c : nat) :
  pixel_at (imap_from O (fun r row => imap_from O (g r) row) band) r c
  = option_map (g r c) (pixel_at band r c).
Proof.
  unfold pixel_at. rewrite nth_error_imap_from.
  destruct (nth_error band r) as [row |]; cbn [option_map]; [| reflexivity].
  rewrite nth_error_imap_from. reflexivity.
Qed.

(** Change areas that rasterise, with Python ints that fit the dtype for
    new values, are met as they are given. *)
Lemma changes_of_python_ints (dt : string) (lo hi : Z) (changes : list (Footprint * Z)) :
  int_range dt = Some (lo, hi) ->
  (forall an, In an changes -> lo <= snd an <= hi) ->
  changes_of dt (combine (map (fun an => Shapes (fst an)) changes)
                         (map (fun an => PyInt (snd an)) changes))
  = inr changes.
Proof.
  intros Hr. induction changes as [| [f v] changes IH]; intros Hin;
    cbn [map combine changes_of rasterise fst snd].
  - reflexivity.
  - rewrite (as_dtype_fits dt lo hi v Hr (Hin (f, v) (or_introl eq_refl))).
    rewrite IH; [reflexivity |]. intros an H. apply Hin. right. exact H.
Qed.

(** X13. On a base raster of an integer dtype whose nodata value is 0 or
    unset, with change areas that all rasterise on it and Python ints
    within the range of the dtype for new values, and an output that can
    be written, [create_scenario_lulc] keeps the grid, keeps every pixel
    that lies outside all change areas, and gives a nonzero pixel inside
    the last change area that area's new value. *)
Theorem create_scenario_lulc_frame :
  forall (base_path scenario_path : string) (changes : list (Footprint * Z))
         (src : dataset Z) (lo hi : Z) (st : state),
    open_lulc w base_path = inr src ->
    int_range (dtype (ds_meta src)) = Some (lo, hi) ->
    (forall an, In an changes -> lo <= snd an <= hi) ->
    open_for_write w scenario_path = None ->
    write_band w scenario_path = None ->
    fill_value src = 0 ->
    exists (out : list (list Z)) (st' : state),
      create_scenario_lulc w base_path scenario_path
        (map (fun an => Shapes (fst an)) changes)
        (map (fun an => PyInt (snd an)) changes) st
        = (inr scenario_path, st')
      /\ written st' =
           written st ++
           [{| w_path := scenario_path; w_meta := ds_meta src; w_band1 := out |}]
      /\ raster_at st' scenario_path =
           Whole {| w_path := scenario_path; w_meta := ds_meta src; w_band1 := out |}
      /\ (forall r c, pixel_at out r c = None <-> pixel_at (ds_band1 src) r c = None)
      /\ (forall r c o,
            pixel_at (ds_band1 src) r c = Some o ->
            (forall an, In an changes -> covers (fst an) r c = false) ->
            pixel_at out r c = Some o)
      /\ (forall r c o earlier area v,
            pixel_at (ds_band1 src) r c = Some o ->
            o <> 0 ->
            changes = earlier ++ [(area, v)] ->
            covers area r c = true ->
            pixel_at out r c = Some v).
Proof.
  intros base_path scenario_path changes src lo hi st
         Hopen Hrange Hfit Hwrite Hband Hfill.
  destruct (create_scenario_lulc_writes w base_path scenario_path _ _ changes src st
              Hopen (changes_of_python_ints _ lo hi changes Hrange Hfit) Hwrite Hband)
    as (st' & Hrun & Hwritten & Hat).
  eexists. exists st'. split; [exact Hrun |]. split; [exact Hwritten |].
  split; [exact Hat |].
  split; [| split].
  - intros r c. rewrite pixel_at_imap.
    destruct (pixel_at (ds_band1 src) r c); cbn [option_map];
      split; intros H; congruence.
  - intros r c o Ho Hout. rewrite pixel_at_imap, Ho. cbn [option_map].
    rewrite Hfill. f_equal. apply scenario_pixel_kept.
    intros an Hin. left. apply Hout. exact Hin.
  - intros r c o earlier area v Ho Hnz Hlast Hin.
    rewrite pixel_at_imap, Ho. cbn [option_map].
    rewrite Hlast. f_equal. apply scenario_pixel_changed; assumption.
Qed.

(** X14. On a raster of an integer dtype that holds both [a] and [b], a
    table that sends class [a] to [b] and class [b] to [a] exchanges the
    two classes: [prepare_lulc_for_invest] rewrites every pixel from its
    original value, never from a value it has just written. *)
Theorem prepare_lulc_for_invest_exchanges :
  forall (lulc_path output_path : string) (a b : Z) (src : dataset Z) (lo hi : Z)
         (st : state),
    open_lulc w lulc_path = inr src ->
    int_range (dtype (ds_meta src)) = Some (lo, hi) ->
    lo <= a <= hi ->
    lo <= b <= hi ->
    open_for_write w output_path = None ->
    write_band w output_path = None ->
    a <> b ->
    exists st',
      prepare_lulc_for_invest w lulc_path output_path (Some (inr [(a, b); (b, a)])) st
        = (inr output_path, st')
      /\ written st' =
           written st ++
           [{| w_path := output_path;
               w_meta := update_meta (ds_meta src);
               w_band1 :=
                 map (map (fun v => if v =? a then b else if v =? b then a else v))
                     (ds_band1 src) |}].
Proof.
  intros lulc_path output_path a b src lo hi st Hopen Hrange Ha Hb Hwrite Hband Hab.
  unfold prepare_lulc_for_invest.
  cbv beta iota zeta delta
    [bind ret raise lift emit logger_info logger_error try_except run_stmt
     rasterio_write create_raster write_raster].
  rewrite Hopen, combine_columns.
  rewrite (reclassify_in_range _ lo hi _ _ Hrange).
  - rewrite Hwrite, Hband.
    rewrite (relabel_table (ds_band1 src) [(a, b); (b, a)] (dict_of [(a, b); (b, a)])
               (Permutation_refl _)).
    eexists. split; [reflexivity |]. cbn [written].
    do 3 f_equal.
    apply map_ext. intros row. apply map_ext. intros v.
    unfold reclassified, last_row_for. cbn [rev app find fst snd option_map].
    rewrite (Z.eqb_sym b v), (Z.eqb_sym a v).
    destruct (v =? b) eqn:Eb; destruct (v =? a) eqn:Ea; cbn [option_map snd];
      try reflexivity.
    apply Z.eqb_eq in Eb, Ea. congruence.
  - intros k v Hin.
    assert (Hd : dict_of [(a, b); (b, a)] = [(a, b); (b, a)]).
    { unfold dict_of. cbn [fold_left dict_set fst snd].
      apply Z.eqb_neq in Hab. rewrite Hab. reflexivity. }
    rewrite Hd in Hin. destruct Hin as [H | [H | []]]; inversion H; subst; assumption.
Qed.

End RasterWriters.

(* ================================================================== *)
(** ** What a returned summary holds *)

Section SummaryInvariants.
Local Open Scope float_scope.
Variable np_sum : list float -> float.
Variable w : World.

Lemma fold_fmin_In (rest : list float) :
  forall x, In (fold_left fmin rest x) (x :: rest).
Proof.
  induction rest as [| y rest IH]; intros x; cbn [fold_left].
  - left. reflexivity.
  - destruct (IH (fmin x y)) as [H | H]; [| right; right; exact H].
    assert (Hc : fmin x y = x \/ fmin x y = y)
      by (unfold fmin; destruct (y <? x); auto).
    rewrite <- H. destruct Hc as [-> | ->]; [left | right; left]; reflexivity.
Qed.

Lemma fold_fmax_In (rest : list float) :
  forall x, In (fold_left fmax rest x) (x :: rest).
Proof.
  induction rest as [| y rest IH]; intros x; cbn [fold_left].
  - left. reflexivity.
  - destruct (IH (fmax x y)) as [H | H]; [| right; right; exact H].
    assert (Hc : fmax x y = x \/ fmax x y = y)
      by (unfold fmax; destruct (x <? y); auto).
    rewrite <- H. destruct Hc as [-> | ->]; [left | right; left]; reflexivity.
Qed.

(** X15. A summary that [summarize_carbon_results] returns comes from a
    raster of square pixels with at least one strictly positive pixel: its
    minimum and maximum are strictly positive pixels of that raster, its
    pixel count is the number of strictly positive pixels, and its area is
    present. *)
Theorem summarize_carbon_results_returned :
  forall (workspace : string) (st st' : state) (summary : Summary),
    summarize_carbon_results np_sum w workspace st = (inr summary, st') ->
    exists src,
      open_carbon w (path_join workspace "total_carbon.tif") = inr src
      /\ (fst (ds_res src) =? snd (ds_res src)) = true
      /\ In (min_carbon summary) (List.concat (ds_band1 src))
      /\ (0 <? min_carbon summary) = true
      /\ In (max_carbon summary) (List.concat (ds_band1 src))
      /\ (0 <? max_carbon summary) = true
      /\ pixel_count summary = List.length (positive (ds_band1 src))
      /\ (0 < pixel_count summary)%nat
      /\ area_ha summary =
           Some (of_nat (pixel_count summary)
                 * (fst (ds_res src) * snd (ds_res src)) / 10000).
Proof.
  intros workspace st st' summary.
  cbv beta iota zeta delta
    [summarize_carbon_results bind ret raise lift emit logger_info np_min np_max
     format_2f set_area_ha].
  destruct (path_exists w (path_join workspace "total_carbon.tif")); cbn [negb];
    [| discriminate].
  destruct (open_carbon w (path_join workspace "total_carbon.tif")) as [e | src];
    [discriminate |].
  destruct (positive (ds_band1 src)) as [| x rest] eqn:Hpos; [discriminate |].
  destruct (fst (ds_res src) =? snd (ds_res src)) eqn:Hsq; cbn [area_ha];
    [| discriminate].
  intros Hrun. inversion Hrun; subst; clear Hrun.
  exists src. cbn [min_carbon max_carbon pixel_count area_ha].
  pose proof (fold_fmin_In rest x) as Hmin. rewrite <- Hpos in Hmin.
  pose proof (fold_fmax_In rest x) as Hmax. rewrite <- Hpos in Hmax.
  apply positive_spec in Hmin. apply positive_spec in Hmax.
  repeat split; try reflexivity; try tauto.
  - rewrite Hpos. reflexivity.
  - cbn [List.length]. apply Nat.lt_0_succ.
Qed.

End SummaryInvariants.

(* ================================================================== *)
(** ** The whole preparation *)

Section Preparation.
Local Open Scope Z_scope.
Variable Geo : Type.
Variable w : World.
Variable sh : Shell.
Variable g : Gis Geo.

Lemma forallb_is_str (names : list string) : forallb is_str (map StrCell names) = true.
Proof. induction names as [| n names IH]; cbn [map forallb is_str andb]; auto. Qed.

(** A file name joined to a directory is never the empty path. *)
Lemma truthy_join (a b : string) :
  b <> EmptyString -> truthy (Some (path_join a b)) = true.
Proof.
  intros Hb. unfold path_join.
  destruct a as [| c r].
  - destruct b; [congruence | reflexivity].
  - destruct (ends_with_slash (String c r)); reflexivity.
Qed.

(** Among the default names of an attribute table no class counts as
    forest: the scenario falls back on the placeholder class 1. *)
Lemma forest_value_default_names (lulc_classes_path : string) (values : list Z)
  (s : state * disk) :
  read_csv w lulc_classes_path =
    inr [("value"%string, map IntCell values);
         ("class_name"%string, map StrCell (class_name_column None values))] ->
  forest_value w g lulc_classes_path s = (inr (PyInt 1), s).
Proof.
  intros Hread. unfold forest_value.
  destruct (path_exists w lulc_classes_path); [| reflexivity].
  run_io. rewrite Hread.
  change (column_get _ "class_name")
    with (@inr exn _ (map StrCell (class_name_column None values))).
  cbv beta iota.
  unfold forest_mask. rewrite forallb_is_str.
  assert (Hmask : filter (fun b : bool => b)
                    (map (fun c => match c with
                                   | StrCell s0 => contains "forest" (lower s0)
                                   | _ => false
                                   end)
                         (map StrCell (class_name_column None values))) = []).
  { clear Hread. cbn [class_name_column]. rewrite !map_map.
    induction values as [| z values IH]; cbn [map filter]; [reflexivity |].
    rewrite default_name_not_forest. exact IH. }
  rewrite Hmask. reflexivity.
Qed.

(** X16. With no [.tif] file in the landcover directory
    [prepare_all_data] still returns: it warns, makes no table and no
    scenario even though mining data are there, and lists the mining
    shapefile as it found it. *)
Theorem prepare_all_data_without_land_cover :
  forall (raw_data_dir processed_data_dir invest_input_dir : string)
         (covers mines : list string) (mine : string) (more : list string)
         (s : state * disk),
    makedirs_exist_ok sh processed_data_dir = None ->
    makedirs_exist_ok sh invest_input_dir = None ->
    listdir g (path_join raw_data_dir "landcover") = inr covers ->
    filter (ends_with ".tif") covers = [] ->
    listdir g (path_join raw_data_dir "mining") = inr mines ->
    filter (ends_with ".shp") mines = mine :: more ->
    path_exists w (path_join processed_data_dir "admin_boundaries/papua_boundary.shp")
      = false ->
    exists s',
      prepare_all_data w sh g raw_data_dir processed_data_dir invest_input_dir s =
        (inr {| papua_boundary :=
                  path_join processed_data_dir "admin_boundaries/papua_boundary.shp";
                papua_lulc := None;
                lulc_classes := None;
                carbon_pools := None;
                papua_mining := Some (path_join (path_join raw_data_dir "mining") mine);
                restoration_scenario := None;
                scenario_carbon_pools := None |}, s')
      /\ snd s' = snd s
      /\ written (fst s') = written (fst s)
      /\ List.length (filter is_warning (log (fst s')))
         = (2 + List.length (filter is_warning (log (fst s))))%nat.
Proof.
  intros raw_data_dir processed_data_dir invest_input_dir covers mines mine more s
         Hmk1 Hmk2 Hcov Hnone Hmines Hshp Hpapua.
  unfold prepare_all_data. run_io.
  rewrite Hmk1, Hmk2, Hcov, Hnone, Hmines, Hshp, Hpapua.
  cbn [truthy andb].
  eexists. split; [reflexivity |]. split; [reflexivity |]. split; [reflexivity |].
  cbn [log]. rewrite !filter_app, !length_app. cbn [filter is_warning lvl List.length].
  lia.
Qed.

(** The placeholder class 1 is a value every integer dtype holds. *)
Lemma as_dtype_one (dt : string) : as_dtype dt (PyInt 1) = inr 1.
Proof.
  unfold as_dtype, fits, int_range.
  repeat match goal with
         | |- context [String.eqb dt ?n] => destruct (String.eqb dt n)
         end; reflexivity.
Qed.

(** X17. The preparation run on raw data without a region boundary: when
    the classes table reads back as it was written, the mining frame can
    be buffered and rasterises on the land cover raster, and every file
    can be written, the restoration scenario is built with the
    placeholder class 1 as its new value, whatever classes the raster
    holds and whatever its dtype, because no name of the attribute table
    holds the word forest; three tables are written besides, and all
    seven paths are returned. *)
Theorem prepare_all_data_plants_class_one :
  forall (raw_data_dir processed_data_dir invest_input_dir : string)
         (covers mines : list string) (cover mine : string)
         (more_covers more_mines : list string)
         (src : dataset Z) (mining buffered : Geo) (area : Footprint)
         (s : state * disk),
    (forall p, makedirs_exist_ok sh p = None) ->
    (forall p, open_text sh p = None) ->
    (forall p, write_text sh p = None) ->
    listdir g (path_join raw_data_dir "landcover") = inr covers ->
    filter (ends_with ".tif") covers = cover :: more_covers ->
    listdir g (path_join raw_data_dir "mining") = inr mines ->
    filter (ends_with ".shp") mines = mine :: more_mines ->
    path_exists w (path_join processed_data_dir "admin_boundaries/papua_boundary.shp")
      = false ->
    open_lulc w (path_join (path_join raw_data_dir "landcover") cover) = inr src ->
    read_csv w (path_join processed_data_dir "lulc/lulc_classes.csv") =
      inr [("value"%string,
            map IntCell (filter (fun v => 0 <? v) (np_unique (ds_band1 src))));
           ("class_name"%string,
            map StrCell (class_name_column None
                           (filter (fun v => 0 <? v) (np_unique (ds_band1 src)))))] ->
    read_file g (path_join (path_join raw_data_dir "mining") mine) = inr mining ->
    buffer g mining = inr buffered ->
    footprint g buffered = Shapes area ->
    open_for_write w
      (path_join (path_join processed_data_dir "scenarios") "restoration_scenario.tif")
      = None ->
    write_band w
      (path_join (path_join processed_data_dir "scenarios") "restoration_scenario.tif")
      = None ->
    exists s',
      prepare_all_data w sh g raw_data_dir processed_data_dir invest_input_dir s =
        (inr {| papua_boundary :=
                  path_join processed_data_dir "admin_boundaries/papua_boundary.shp";
                papua_lulc := Some (path_join (path_join raw_data_dir "landcover") cover);
                lulc_classes :=
                  Some (path_join processed_data_dir "lulc/lulc_classes.csv");
                carbon_pools := Some (path_join invest_input_dir "carbon_pools.csv");
                papua_mining := Some (path_join (path_join raw_data_dir "mining") mine);
                restoration_scenario :=
                  Some (path_join (path_join processed_data_dir "scenarios")
                          "restoration_scenario.tif");
                scenario_carbon_pools :=
                  Some (path_join invest_input_dir "scenario_carbon_pools.csv") |}, s')
      /\ written (fst s') =
           written (fst s) ++
           [{| w_path := path_join (path_join processed_data_dir "scenarios")
                           "restoration_scenario.tif";
               w_meta := ds_meta src;
               w_band1 :=
                 imap_from O
                   (fun r row =>
                      imap_from O
                        (fun c o =>
                           scenario_pixel (fill_value src) [(area, 1)] r c o o) row)
                   (ds_band1 src) |}]
      /\ map fst (csv_files (snd s')) =
           map fst (csv_files (snd s)) ++
           [path_join processed_data_dir "lulc/lulc_classes.csv";
            path_join invest_input_dir "carbon_pools.csv";
            path_join invest_input_dir "scenario_carbon_pools.csv"].
Proof.
  intros raw_data_dir processed_data_dir invest_input_dir covers mines cover mine
         more_covers more_mines src mining buffered area s
         Hmk Htext Hwtext Hcov Htif Hmines Hshp Hpapua Hopen Hread Hmining
         Hbuffer Harea Hwrite Hband.
  unfold prepare_all_data.
  cbv beta iota zeta delta [io_bind io_ret io_lift io_stmt].
  unfold of_M at 1. cbv beta iota zeta delta [logger_info emit fst snd].
  rewrite !Hmk, Hcov, Htif, Hpapua.
  match goal with
  | |- context [create_lulc_attribute_table w sh ?p ?q None ?s0] =>
      destruct (create_lulc_attribute_table_writes w sh p q None src s0
                  Hopen (Hmk _) (Htext _) (Hwtext _)) as (s1 & Hrun1 & Hcsv1 & Hw1)
  end.
  rewrite Hrun1.
  match goal with
  | |- context [create_carbon_pool_table w sh ?p ?q None s1] =>
      destruct (create_carbon_pool_table_default w sh p q _ _ _ s1
                  Hread eq_refl eq_refl (Hmk _) (Htext _) (Hwtext _))
        as (s2 & Hrun2 & Hcsv2 & Hw2)
  end.
  rewrite Hrun2, Hmines, Hshp.
  assert (Hcover : truthy (Some (path_join (path_join raw_data_dir "landcover") cover))
                   = true).
  { apply truthy_join. intros ->.
    assert (Hin : In EmptyString (filter (ends_with ".tif") covers))
      by (rewrite Htif; left; reflexivity).
    apply filter_In in Hin. destruct Hin as [_ Hin]. discriminate Hin. }
  assert (Hmine : truthy (Some (path_join (path_join raw_data_dir "mining") mine)) = true).
  { apply truthy_join. intros ->.
    assert (Hin : In EmptyString (filter (ends_with ".shp") mines))
      by (rewrite Hshp; left; reflexivity).
    apply filter_In in Hin. destruct Hin as [_ Hin]. discriminate Hin. }
  cbv beta iota zeta delta [fst snd].
  rewrite Hcover, Hmine. cbn [andb].
  rewrite ?Hmk, Hmining, Hbuffer.
  rewrite (forest_value_default_names _ _ s2 Hread).
  unfold of_M at 1.
  assert (Hchanges : changes_of (dtype (ds_meta src))
                       (combine [footprint g buffered] [PyInt 1]) = inr [(area, 1)]).
  { cbn [combine changes_of]. rewrite Harea. cbn [rasterise].
    rewrite as_dtype_one. reflexivity. }
  destruct (create_scenario_lulc_writes w _ _
              [footprint g buffered] [PyInt 1] [(area, 1)] src (fst s2)
              Hopen Hchanges Hwrite Hband)
    as (st3 & Hrun3 & Hw3 & _).
  cbv beta iota zeta delta [fst snd] in Hrun3 |- *.
  rewrite Hrun3.
  match goal with
  | |- context [create_carbon_pool_table w sh ?p ?q None ?s0] =>
      destruct (create_carbon_pool_table_default w sh p q _ _ _ s0
                  Hread eq_refl eq_refl (Hmk _) (Htext _) (Hwtext _))
        as (s4 & Hrun4 & Hcsv4 & Hw4)
  end.
  rewrite Hrun4.
  exists s4. split; [reflexivity |].
  destruct s as [st d], s1 as [st1 d1], s2 as [st2 d2], s4 as [st4 d4].
  cbv beta iota zeta delta [fst snd] in *.
  cbn [written csv_files] in *.
  split.
  - rewrite Hw4, Hw3, Hw2, Hw1. reflexivity.
  - rewrite Hcsv4, Hcsv2, Hcsv1.
    rewrite !map_app. cbn [map fst]. rewrite <- !app_assoc. reflexivity.
Qed.

(** X18. Nothing in [prepare_all_data] catches what [os.listdir] raises.
    Without a landcover directory the run stops before any table, with no
    error logged; without a mining directory it stops after the two
    tables are on disk. No dictionary is returned either way. *)
Theorem prepare_all_data_missing_directory :
  forall (raw_data_dir processed_data_dir invest_input_dir : string)
         (e : exn) (s : state * disk),
    (forall p, makedirs_exist_ok sh p = None) ->
    (forall p, open_text sh p = None) ->
    (forall p, write_text sh p = None) ->
    (listdir g (path_join raw_data_dir "landcover") = inl e ->
     exists s',
       prepare_all_data w sh g raw_data_dir processed_data_dir invest_input_dir s
         = (inl e, s')
       /\ snd s' = snd s
       /\ filter is_error (log (fst s')) = filter is_error (log (fst s)))
    /\ (forall (covers : list string) (cover : string) (more_covers : list string)
               (src : dataset Z),
          listdir g (path_join raw_data_dir "landcover") = inr covers ->
          filter (ends_with ".tif") covers = cover :: more_covers ->
          path_exists w
            (path_join processed_data_dir "admin_boundaries/papua_boundary.shp")
            = false ->
          open_lulc w (path_join (path_join raw_data_dir "landcover") cover) = inr src ->
          read_csv w (path_join processed_data_dir "lulc/lulc_classes.csv") =
            inr [("value"%string,
                  map IntCell (filter (fun v => 0 <? v) (np_unique (ds_band1 src))));
                 ("class_name"%string,
                  map StrCell (class_name_column None
                                 (filter (fun v => 0 <? v) (np_unique (ds_band1 src)))))] ->
          listdir g (path_join raw_data_dir "mining") = inl e ->
          exists s',
            prepare_all_data w sh g raw_data_dir processed_data_dir invest_input_dir s
              = (inl e, s')
            /\ map fst (csv_files (snd s')) =
                 map fst (csv_files (snd s)) ++
                 [path_join processed_data_dir "lulc/lulc_classes.csv";
                  path_join invest_input_dir "carbon_pools.csv"]).
Proof.
  intros raw_data_dir processed_data_dir invest_input_dir e s Hmk Htext Hwtext. split.
  - intros Hcov. unfold prepare_all_data. run_io. rewrite !Hmk, Hcov.
    eexists. split; [reflexivity |]. split; [reflexivity |].
    cbn [log]. rewrite filter_app. cbn [filter is_error lvl]. apply app_nil_r.
  - intros covers cover more_covers src Hcov Htif Hpapua Hopen Hread Hmines.
    unfold prepare_all_data.
    cbv beta iota zeta delta [io_bind io_ret io_lift io_stmt].
    unfold of_M at 1. cbv beta iota zeta delta [logger_info emit fst snd].
    rewrite !Hmk, Hcov, Htif, Hpapua.
    match goal with
    | |- context [create_lulc_attribute_table w sh ?p ?q None ?s0] =>
        destruct (create_lulc_attribute_table_writes w sh p q None src s0
                    Hopen (Hmk _) (Htext _) (Hwtext _)) as (s1 & Hrun1 & Hcsv1 & Hw1)
    end.
    rewrite Hrun1.
    match goal with
    | |- context [create_carbon_pool_table w sh ?p ?q None s1] =>
        destruct (create_carbon_pool_table_default w sh p q _ _ _ s1
                    Hread eq_refl eq_refl (Hmk _) (Htext _) (Hwtext _))
          as (s2 & Hrun2 & Hcsv2 & Hw2)
    end.
    rewrite Hrun2, Hmines.
    exists s2. split; [reflexivity |].
    destruct s as [st d], s1 as [st1 d1], s2 as [st2 d2].
    cbv beta iota zeta delta [fst snd] in *.
    cbn [written csv_files] in *.
    rewrite Hcsv2, Hcsv1.
    rewrite !map_app. cbn [map fst]. rewrite <- !app_assoc. reflexivity.
Qed.

End Preparation.

(* ================================================================== *)
(** ** Clipping and reprojection *)

Section Clipping.
Variable Geo : Type.
Variable w : World.
Variable g : Gis Geo.

(** [reproject_raster] finishes no raster when it raises, and logs what
    it raises once; its output file is there, unfinished, when it had
    been opened by then. *)
Lemma reproject_raster_raises :
  forall (input_path output_path dst_crs : string) (e : exn) (st st' : state),
    reproject_raster w g input_path output_path dst_crs st = (inl e, st') ->
    written st' = written st
    /\ log st' =
         log st ++
         [{| lvl := INFO;
             message := [Text "Reprojecting raster "; Text input_path; Text " to ";
                         Text dst_crs] |};
          {| lvl := ERROR; message := [Text "Error reprojecting raster: "; Exc e] |}]
    /\ unfinished st' =
         if output_emptied w g input_path output_path dst_crs
         then output_path :: unfinished st
         else unfinished st.
Proof.
  intros input_path output_path dst_crs e st st'.
  unfold reproject_raster, output_emptied.
  cbv beta iota zeta delta
    [bind ret raise lift emit logger_info logger_error try_except run_stmt
     create_raster write_raster].
  destruct (open_lulc w input_path) as [e1 | src].
  2: destruct (default_transform g src dst_crs) as [e2 | twh].
  3: destruct (open_for_write w output_path) as [e3 |].
  4: destruct (warp g src dst_crs) as [e4 | band].
  5: destruct (write_band w output_path) as [e5 |].
  all: intros Hrun; inversion Hrun; subst; clear Hrun.
  all: cbn [written log unfinished]; rewrite <- ?app_assoc; repeat split.
Qed.


End Clipping.

(* ================================================================== *)
(** ** The theorems above at the sample inputs *)


Lemma table_to_bare_file_name_witness :
  fst (create_lulc_attribute_table all_files posix_shell "lulc.tif" "classes.csv" None
         (empty_state, empty_disk))
  = inl (FileNotFoundError "[Errno 2] No such file or directory: ''").
Proof.
  apply (proj1 (table_to_bare_file_name all_files posix_shell
                  "lulc.tif" "classes.csv" None small_lulc [] [] [] []
                  (empty_state, empty_disk) _ eq_refl eq_refl)).
  reflexivity.
Defined.

Lemma create_carbon_pool_table_malformed_classes_witness :
  fst (create_carbon_pool_table all_files writable "pools.csv" "out/pools.csv" None
         (empty_state, empty_disk))
  = inl (LibraryError "KeyError" "'value'").
Proof.
  apply (proj1 (create_carbon_pool_table_malformed_classes all_files writable
                  "pools.csv" "out/pools.csv" pools_table None
                  (empty_state, empty_disk) eq_refl)).
  reflexivity.
Defined.

Lemma default_pool_table_validates_witness :
  exists pools s' st',
    create_carbon_pool_table (tables_world small_pools) writable "tables/classes.csv"
      "tables/pools.csv" None (empty_state, empty_disk)
      = (inr "tables/pools.csv"%string, s')
    /\ missing_cols pools = []
    /\ missing_values (np_unique (ds_band1 small_lulc)) pools = []
    /\ prepare_carbon_inputs (tables_world small_pools) "lulc.tif" "tables/pools.csv" "out"
         empty_state
       = (inr {| lulc_cur_path := "lulc.tif"; carbon_pools_path := "tables/pools.csv";
                 workspace_dir := "out" |}, st').
Proof.
  destruct (default_pool_table_validates (tables_world small_pools) writable
              "lulc.tif" "tables/classes.csv" "tables/pools.csv" "out" None small_lulc
              (empty_state, empty_disk) empty_state eq_refl eq_refl eq_refl eq_refl)
    as (pools & s' & Hrun & Hcsv & Hcols & Hvals & Hprepare).
  assert (Hpools : pools = small_pools).
  { lazy in Hrun. inversion Hrun as [Hs]. rewrite <- Hs in Hcsv.
    cbn [csv_files snd app empty_disk] in Hcsv. lazy in Hcsv.
    inversion Hcsv. reflexivity. }
  destruct Hprepare as (st' & Hinputs & _); try reflexivity.
  - left. reflexivity.
  - rewrite Hpools. reflexivity.
  - exists pools, s', st'. split; [exact Hrun |]. split; [exact Hcols |].
    split; [rewrite Hvals; reflexivity | exact Hinputs].
Defined.

Lemma default_names_give_empty_pools_witness :
  exists s',
    create_carbon_pool_table classes_world writable "tables/classes.csv"
      "tables/pools.csv" None (empty_state, empty_disk)
      = (inr "tables/pools.csv"%string, s')
    /\ csv_files (snd s') =
         [("tables/pools.csv"%string,
           [("lucode"%string, [IntCell 1; IntCell 2; IntCell 3]);
            ("lulc_name"%string,
             [StrCell "Class 1"; StrCell "Class 2"; StrCell "Class 3"]);
            ("c_above"%string, [IntCell 0; IntCell 0; IntCell 0]);
            ("c_below"%string, [IntCell 0; IntCell 0; IntCell 0]);
            ("c_soil"%string, [IntCell 0; IntCell 0; IntCell 0]);
            ("c_dead"%string, [IntCell 0; IntCell 0; IntCell 0])])].
Proof.
  apply (default_names_give_empty_pools classes_world writable
           "tables/classes.csv" "tables/pools.csv" [1; 2; 3]%Z
           (empty_state, empty_disk) eq_refl eq_refl eq_refl eq_refl).
Defined.

Lemma unmatched_carbon_values_witness :
  (exists s',
     create_carbon_pool_table
       (tables_world [("lucode"%string, [IntCell 1; IntCell 2; IntCell 3]);
                      ("lulc_name"%string,
                       [StrCell "Class 1"; StrCell "Class 2"; StrCell "Class 3"])])
       writable "tables/classes.csv"
       "tables/pools.csv" (Some [(99%Z, [("c_above"%string, IntCell 5)])])
       (empty_state, empty_disk) = (inr "tables/pools.csv"%string, s')
     /\ csv_files (snd s') =
          [("tables/pools.csv"%string,
            [("lucode"%string, [IntCell 1; IntCell 2; IntCell 3]);
             ("lulc_name"%string,
              [StrCell "Class 1"; StrCell "Class 2"; StrCell "Class 3"])])])
  /\ fst (prepare_carbon_inputs
            (tables_world [("lucode"%string, [IntCell 1; IntCell 2; IntCell 3]);
                           ("lulc_name"%string,
                            [StrCell "Class 1"; StrCell "Class 2"; StrCell "Class 3"])])
            "lulc.tif" "tables/pools.csv" "out" empty_state)
     = inl (ValueError
              "Carbon pools CSV missing required columns: ['c_above', 'c_below', 'c_soil', 'c_dead']").
Proof.
  destruct (unmatched_carbon_values
              (tables_world [("lucode"%string, [IntCell 1; IntCell 2; IntCell 3]);
                             ("lulc_name"%string,
                              [StrCell "Class 1"; StrCell "Class 2"; StrCell "Class 3"])])
              writable
              "lulc.tif" "tables/classes.csv" "tables/pools.csv" "out" small_classes
              [IntCell 1; IntCell 2; IntCell 3]
              [StrCell "Class 1"; StrCell "Class 2"; StrCell "Class 3"]
              (99%Z, [("c_above"%string, IntCell 5)]) [] small_lulc
              (empty_state, empty_disk) empty_state eq_refl eq_refl eq_refl)
    as (s' & Hrun & Hcsv & Hrejected); try reflexivity.
  - intros c [<- | [<- | [<- | []]]]; reflexivity.
  - split.
    + exists s'. split; [exact Hrun | exact Hcsv].
    + apply Hrejected; try reflexivity. left. reflexivity.
Defined.

Lemma extract_invest_results_unbound_shutil_witness :
  exists msg s',
    extract_invest_results seq_sum npv_only writable "ws" "out" "carbon"
      (empty_state, empty_disk) = (inl (LibraryError "UnboundLocalError" msg), s')
    /\ snd s' = empty_disk.
Proof.
  destruct (extract_invest_results_unbound_shutil seq_sum npv_only writable
              "ws" "out" "carbon" "total_carbon.tif" "net_present_value.tif"
              (empty_state, empty_disk))
    as (msg & s' & Hrun & Hdisk & _); try reflexivity.
  - left. repeat split; reflexivity.
  - exists msg, s'. split; [exact Hrun | exact Hdisk].
Defined.

Lemma extract_invest_results_unknown_model_witness :
  exists s',
    extract_invest_results seq_sum all_files writable "ws" "out" "biodiversity"
      (empty_state, empty_disk) = (inr [], s')
    /\ snd s' = empty_disk.
Proof.
  destruct (extract_invest_results_unknown_model seq_sum all_files writable
              "ws" "out" "biodiversity" (empty_state, empty_disk))
    as (s' & Hrun & Hdisk & _); try reflexivity; try discriminate.
  exists s'. split; [exact Hrun | exact Hdisk].
Defined.

Lemma extract_invest_results_dictionary_witness :
  exists results s',
    extract_invest_results seq_sum all_files writable "ws" "out" "carbon"
      (empty_state, empty_disk) = (inr results, s')
    /\ NoDup (map fst results)
    /\ List.length results = 3%nat.
Proof.
  eexists. eexists. split; [reflexivity |].
  split; [| reflexivity].
  apply (extract_invest_results_dictionary seq_sum all_files writable
           "ws" "out" "carbon" (empty_state, empty_disk) _ _ eq_refl).
Defined.

Lemma extract_invest_results_no_positive_pixel_witness :
  exists s',
    extract_invest_results seq_sum barren writable "ws" "out" "carbon"
      (empty_state, empty_disk)
    = (inl (ValueError
              "zero-size array to reduction operation minimum which has no identity"),
       s')
    /\ copied_files (snd s') = [("ws/total_carbon.tif", "out/total_carbon.tif")]%string
    /\ json_files (snd s') = [].
Proof.
  apply (extract_invest_results_no_positive_pixel seq_sum barren writable
           "ws" "out" barren_carbon (empty_state, empty_disk));
    reflexivity.
Defined.


Lemma create_scenario_lulc_frame_witness :
  exists out st',
    create_scenario_lulc all_files "base.tif" "scenario.tif"
      [Shapes first_pixel] [PyInt 9] empty_state = (inr "scenario.tif"%string, st')
    /\ written st' =
         [{| w_path := "scenario.tif"; w_meta := ds_meta small_lulc; w_band1 := out |}]
    /\ pixel_at out 0 0 = Some 9%Z
    /\ pixel_at out 1 1 = Some 3%Z.
Proof.
  destruct (create_scenario_lulc_frame all_files "base.tif" "scenario.tif"
              [(first_pixel, 9%Z)] small_lulc 0%Z 255%Z empty_state eq_refl eq_refl)
    as (out & st' & Hrun & Hwritten & _ & _ & Hkept & Hchanged); try reflexivity.
  - intros an [<- | []]. cbn [snd]. lia.
  - exists out, st'. split; [exact Hrun |]. split; [exact Hwritten |]. split.
    + apply (Hchanged 0%nat 0%nat 1%Z [] first_pixel 9%Z);
        try reflexivity; discriminate.
    + apply (Hkept 1%nat 1%nat 3%Z); [reflexivity |].
      intros an [<- | []]. reflexivity.
Defined.

Lemma prepare_lulc_for_invest_exchanges_witness :
  exists st',
    prepare_lulc_for_invest all_files "lulc.tif" "out.tif"
      (Some (inr [(1, 2); (2, 1)]%Z)) empty_state = (inr "out.tif"%string, st')
    /\ map w_band1 (written st') = [[[2; 1]; [0; 3]]%Z].
Proof.
  destruct (prepare_lulc_for_invest_exchanges all_files "lulc.tif" "out.tif"
              1%Z 2%Z small_lulc 0%Z 255%Z empty_state eq_refl eq_refl)
    as (st' & Hrun & Hwritten); try reflexivity; try lia; try discriminate.
  exists st'. split; [exact Hrun |]. rewrite Hwritten. reflexivity.
Defined.

Lemma summarize_carbon_results_returned_witness :
  exists summary st' src,
    summarize_carbon_results seq_sum square_world "ws" empty_state = (inr summary, st')
    /\ open_carbon square_world "ws/total_carbon.tif" = inr src
    /\ (0 <? min_carbon summary)%float = true
    /\ pixel_count summary = List.length (positive (ds_band1 src)).
Proof.
  assert (Hrun : exists summary st',
             summarize_carbon_results seq_sum square_world "ws" empty_state
             = (inr summary, st'))
    by (eexists; eexists; lazy; reflexivity).
  destruct Hrun as (summary & st' & Hrun).
  destruct (summarize_carbon_results_returned seq_sum square_world "ws"
              empty_state st' summary Hrun)
    as (src & Hopen & _ & _ & Hmin & _ & _ & Hcount & _).
  exists summary, st', src. repeat split; assumption.
Defined.

Lemma prepare_all_data_without_land_cover_witness :
  exists s',
    prepare_all_data raw_world writable no_cover_gis "raw" "processed" "inputs"
      (empty_state, empty_disk)
    = (inr {| papua_boundary := "processed/admin_boundaries/papua_boundary.shp";
              papua_lulc := None;
              lulc_classes := None;
              carbon_pools := None;
              papua_mining := Some "raw/mining/leases.shp"%string;
              restoration_scenario := None;
              scenario_carbon_pools := None |}, s')
    /\ snd s' = empty_disk
    /\ written (fst s') = []
    /\ List.length (filter is_warning (log (fst s'))) = 2%nat.
Proof.
  apply (prepare_all_data_without_land_cover nat raw_world writable no_cover_gis
           "raw" "processed" "inputs" ["notes.txt"%string] ["leases.shp"%string]
           "leases.shp" [] (empty_state, empty_disk));
    reflexivity.
Defined.

Lemma prepare_all_data_plants_class_one_witness :
  exists prepared s',
    prepare_all_data raw_world writable raw_gis "raw" "processed" "inputs"
      (empty_state, empty_disk) = (inr prepared, s')
    /\ restoration_scenario prepared
       = Some "processed/scenarios/restoration_scenario.tif"%string
    /\ ds_band1 small_lulc = [[1; 2]; [0; 3]]%Z
    /\ map w_band1 (written (fst s')) = [[[1; 1]; [0; 3]]%Z]
    /\ map fst (csv_files (snd s')) =
         ["processed/lulc/lulc_classes.csv"; "inputs/carbon_pools.csv";
          "inputs/scenario_carbon_pools.csv"]%string.
Proof.
  destruct (prepare_all_data_plants_class_one nat raw_world writable raw_gis
              "raw" "processed" "inputs"
              ["notes.txt"; "cover.tif"]%string ["leases.shp"%string]
              "cover.tif" "leases.shp" [] [] small_lulc 0%nat 1%nat first_row
              (empty_state, empty_disk))
    as (s' & Hrun & Hwritten & Hcsv); try reflexivity.
  eexists. exists s'. split; [exact Hrun |]. split; [reflexivity |].
  split; [reflexivity |].
  split; [rewrite Hwritten; reflexivity | exact Hcsv].
Defined.

Lemma prepare_all_data_missing_directory_witness :
  (exists s',
     prepare_all_data raw_world writable no_raw_gis "raw" "processed" "inputs"
       (empty_state, empty_disk) = (inl no_such_directory, s')
     /\ snd s' = empty_disk
     /\ filter is_error (log (fst s')) = [])
  /\ (exists s',
        prepare_all_data raw_world writable no_mining_gis "raw" "processed" "inputs"
          (empty_state, empty_disk) = (inl no_such_directory, s')
        /\ map fst (csv_files (snd s')) =
             ["processed/lulc/lulc_classes.csv"; "inputs/carbon_pools.csv"]%string).
Proof.
  split.
  - apply (proj1 (prepare_all_data_missing_directory nat raw_world writable no_raw_gis
                    "raw" "processed" "inputs" no_such_directory
                    (empty_state, empty_disk)
                    (fun _ => eq_refl) (fun _ => eq_refl) (fun _ => eq_refl))).
    reflexivity.
  - apply (proj2 (prepare_all_data_missing_directory nat raw_world writable
                    no_mining_gis "raw" "processed" "inputs" no_such_directory
                    (empty_state, empty_disk)
                    (fun _ => eq_refl) (fun _ => eq_refl) (fun _ => eq_refl))
             ["cover.tif"%string] "cover.tif"%string [] small_lulc);
      reflexivity.
Defined.

